(** * Daily Intake Tracker: the daily aggregate synchronizer

    A shallow embedding of the calorie tracker's logging, aggregation and
    remote-sync code (App.tsx in its spreadsheet and Firebase variants,
    components/DailyTracker.tsx, services/googleSheetsService.ts,
    services/firebaseLogsService.ts, firebaseFoodsService.ts and
    firebaseGoalsService.ts, utils/timezone.ts), and the properties
    of the specification checked against it; then the components around
    them (the entry form, the goals modal, the catalogue effect of
    FoodManagement, the top list of Statistics, utils/id.ts) with
    properties of their own.

    Part I holds the embedding, Part II the theorems about the
    specification, Part III the theorems about the rest of the code. *)

From Stdlib Require Import ZArith List String Ascii Bool Lia DecimalString.
From Stdlib Require Import Sorting.Sorted Sorting.Permutation.
From Stdlib Require Import Floats.SpecFloat.
Import ListNotations.

Local Open Scope Z_scope.

(* ===================================================================== *)
(** * Part I: the embedding *)
(* ===================================================================== *)

(** ** JavaScript numbers

    A JavaScript [number] is an IEEE-754 binary64 value.  The operations
    are those of the standard library's executable specification of
    floating-point arithmetic ([SpecFloat]) at precision 53 and maximal
    exponent 1024, so that [+], [*], [/] round exactly as the program's
    arithmetic does, and division by zero and [NaN] behave as in the
    browser.  The numbers of the program are the canonical
    representations ([valid_binary]); the properties below are proved
    for every representation. *)
Module JS.

Definition number := spec_float.

Definition prec : Z := 53.
Definition emax : Z := 1024.

Definition NaN : number := S754_nan.
Definition Infinity : number := S754_infinity false.

(** An integer literal (or any integer-valued quantity such as
    [array.length]) as a number. *)
Definition of_Z (k : Z) : number := binary_normalize prec emax k 0 false.

(** A decimal literal [n/d] with [d] a power of ten, for instance
    [dec 36 10] for [3.6]: the double nearest to the quotient. *)
Definition dec (n d : Z) : number := SFdiv prec emax (of_Z n) (of_Z d).

Definition add (x y : number) : number := SFadd prec emax x y.
Definition mul (x y : number) : number := SFmul prec emax x y.
Definition div (x y : number) : number := SFdiv prec emax x y.

(** [x < y], [x > y], [x <= y]: false as soon as an operand is [NaN]. *)
Definition lt (x y : number) : bool := SFltb x y.
Definition gt (x y : number) : bool := SFltb y x.
Definition le (x y : number) : bool := SFleb x y.

(** [Math.min(x, y)]: [NaN] when an operand is [NaN], and [-0] below [+0]. *)
Definition Math_min (x y : number) : number :=
  match SFcompare x y with
  | None => NaN
  | Some Lt => x
  | Some Gt => y
  | Some Eq => match x with S754_zero true => x | _ => y end
  end.

(** The integer nearest to a finite number, a tie going up: the floor of
    [x + 1/2], computed exactly on the mantissa and exponent. *)
Definition round_half_up (s : bool) (m : positive) (e : Z) : Z :=
  let sm := cond_Zopp s (Zpos m) in
  match e with
  | Zneg p => (2 * sm + 2 ^ Zpos p) / (2 * 2 ^ Zpos p)
  | _ => sm * 2 ^ e
  end.

(** [Math.round(x)]: the integral number closest to [x], preferring the
    one closer to [+Infinity] in a tie; zeros, infinities and [NaN] are
    returned as they are, and a result of zero keeps the sign of [x]. *)
Definition Math_round (x : number) : number :=
  match x with
  | S754_finite s m e => binary_normalize prec emax (round_half_up s m e) 0 s
  | _ => x
  end.

(** Structural equality of numbers (the same mantissa and exponent). *)
Definition eqb (x y : number) : bool :=
  match x, y with
  | S754_zero a, S754_zero b => Bool.eqb a b
  | S754_infinity a, S754_infinity b => Bool.eqb a b
  | S754_nan, S754_nan => true
  | S754_finite a m e, S754_finite b n f =>
      Bool.eqb a b && Pos.eqb m n && Z.eqb e f
  | _, _ => false
  end.

(** Truthiness of a string: only the empty string is falsy. *)
Definition truthy_string (s : string) : bool :=
  match s with EmptyString => false | _ => true end.

End JS.

Declare Scope js_scope.
Delimit Scope js_scope with js.
Infix "+" := JS.add : js_scope.
Infix "*" := JS.mul : js_scope.
Infix "/" := JS.div : js_scope.

Local Open Scope string_scope.
Local Open Scope Z_scope.

(** ** The data model (types/index.ts) *)

Module Food.
Record t := mk {
  id : string;
  name : string;
  calories : JS.number;
  protein : JS.number;
  carbs : JS.number;
  fat : JS.number
}.
End Food.

(** A log entry.  [timestamp] is the time value of its [Date]:
    milliseconds since the epoch, UTC. *)
Module FoodLog.
Record t := mk {
  id : string;
  foodId : string;
  foodName : string;
  quantity : JS.number;
  calories : JS.number;
  protein : JS.number;
  carbs : JS.number;
  fat : JS.number;
  timestamp : Z
}.
End FoodLog.

Module DailyMacros.
Record t := mk {
  calories : JS.number;
  protein : JS.number;
  carbs : JS.number;
  fat : JS.number
}.
End DailyMacros.

Module MacroGoals.
Record t := mk {
  calories : JS.number;
  protein : JS.number;
  carbs : JS.number;
  fat : JS.number
}.
End MacroGoals.

(** ** Dates

    [Date.prototype.toISOString] prints the UTC fields of a time value.
    The calendar date of a day number is computed with the usual
    era/day-of-era decomposition of the proleptic Gregorian calendar. *)
Module Date.

Definition msPerDay : Z := 86400000.

Definition digit (d : Z) : ascii := ascii_of_nat (48 + Z.to_nat (d mod 10)).

(** The last [w] decimal digits of [n], in front of [acc]. *)
Fixpoint digits (w : nat) (n : Z) (acc : string) : string :=
  match w with
  | O => acc
  | S w' => digits w' (n / 10) (String (digit n) acc)
  end.

(** Year, month and day of the day number [days] (day 0 is 1970-01-01). *)
Definition civil (days : Z) : Z * Z * Z :=
  let z := days + 719468 in
  let era := z / 146097 in
  let doe := z - era * 146097 in
  let yoe := (doe - doe / 1460 + doe / 36524 - doe / 146096) / 365 in
  let doy := doe - (365 * yoe + yoe / 4 - yoe / 100) in
  let mp := (5 * doy + 2) / 153 in
  let d := doy - (153 * mp + 2) / 5 + 1 in
  let m := if mp <? 10 then mp + 3 else mp - 9 in
  let y := yoe + era * 400 + (if m <=? 2 then 1 else 0) in
  (y, m, d).

(** The year as [toISOString] prints it: four digits from 0000 to 9999,
    a sign and six digits outside. *)
Definition year_string (y : Z) : string :=
  if (0 <=? y) && (y <=? 9999) then digits 4 y ""
  else if y <? 0 then String "-" (digits 6 (- y) "")
  else String "+" (digits 6 y "").

(** [new Date(ms).toISOString().split('T')[0]]: the UTC calendar date of
    the time value [ms], as YYYY-MM-DD. *)
Definition isoDate (ms : Z) : string :=
  let '(y, m, d) := civil (ms / msPerDay) in
  year_string y ++ "-" ++ digits 2 m "" ++ "-" ++ digits 2 d "".

(** [new Date(ms).toISOString()]: YYYY-MM-DDTHH:mm:ss.sssZ. *)
Definition toISOString (ms : Z) : string :=
  let r := ms mod msPerDay in
  isoDate ms ++ "T" ++ digits 2 (r / 3600000) "" ++ ":"
    ++ digits 2 (r / 60000 mod 60) "" ++ ":"
    ++ digits 2 (r / 1000 mod 60) "" ++ "."
    ++ digits 3 (r mod 1000) "" ++ "Z".

End Date.

(** ** utils/timezone.ts *)
Module Timezone.

(** [5.5 * 60 * 60 * 1000], evaluated in the program's arithmetic. *)
Definition IST_OFFSET_number : JS.number :=
  (JS.dec 55 10 * JS.of_Z 60 * JS.of_Z 60 * JS.of_Z 1000)%js.

(** The same constant as an integer number of milliseconds (time values
    are integers far below 2^53, on which the arithmetic is exact). *)
Definition IST_OFFSET : Z := 19800000.

(** [getCurrentDateIST()].  [now] is [new Date().getTime()] and
    [timezoneOffset] is [now.getTimezoneOffset()], the browser's offset
    from UTC in minutes (UTC minus local time). *)
Definition getCurrentDateIST (now timezoneOffset : Z) : string :=
  let istDate := now + timezoneOffset * 60 * 1000 + IST_OFFSET in
  Date.isoDate istDate.

(** [getCurrentTimestampIST()]. *)
Definition getCurrentTimestampIST (now timezoneOffset : Z) : string :=
  let istDate := now + timezoneOffset * 60 * 1000 + IST_OFFSET in
  Date.toISOString istDate.

End Timezone.

(** ** JavaScript values

    What [JSON.parse] can produce, and [undefined] (the value of a
    missing property). *)
#[local] Set Warnings "-register-all".
Inductive Value : Type :=
| VUndefined
| VNull
| VBool (b : bool)
| VNum (n : JS.number)
| VStr (s : string)
| VArr (items : list Value)
| VObj (props : list (string * Value)).

Module Val.

(** [!!v]. *)
Definition truthy (v : Value) : bool :=
  match v with
  | VUndefined | VNull => false
  | VBool b => b
  | VNum (S754_zero _) | VNum S754_nan => false
  | VNum _ => true
  | VStr s => JS.truthy_string s
  | VArr _ | VObj _ => true
  end.

(** The property [key] of a parsed object, [undefined] when absent
    ([props] lists each key of the object once). *)
Fixpoint lookup (key : string) (props : list (string * Value)) : Value :=
  match props with
  | [] => VUndefined
  | (k, v) :: rest => if String.eqb k key then v else lookup key rest
  end.

(** Structural equality. *)
Fixpoint eqb (a b : Value) {struct a} : bool :=
  match a, b with
  | VUndefined, VUndefined => true
  | VNull, VNull => true
  | VBool x, VBool y => Bool.eqb x y
  | VNum x, VNum y => JS.eqb x y
  | VStr x, VStr y => String.eqb x y
  | VArr xs, VArr ys =>
      (fix items (xs ys : list Value) {struct xs} : bool :=
         match xs, ys with
         | [], [] => true
         | x :: xs', y :: ys' => eqb x y && items xs' ys'
         | _, _ => false
         end) xs ys
  | VObj ps, VObj qs =>
      (fix props (ps qs : list (string * Value)) {struct ps} : bool :=
         match ps, qs with
         | [], [] => true
         | (k, x) :: ps', (l, y) :: qs' =>
             String.eqb k l && eqb x y && props ps' qs'
         | _, _ => false
         end) ps qs
  | _, _ => false
  end.

End Val.

(** ** Effects, exceptions and the environment *)

(** What a rejected promise or a [throw] carries. *)
Inductive Exn : Type :=
| TypeError
| SyntaxError
| NetworkError
| FirebaseError.

(** The body of an HTTP request to the Apps Script deployment, by its
    [action].  Every request also carries the static token. *)
Inductive Request : Type :=
| SaveDailyData (date : string) (foodLogs : list FoodLog.t)
    (totals : DailyMacros.t)
| SaveDailySummary (date : string) (totals : DailyMacros.t)
    (calorieGoal caloriePercent : JS.number) (entryCount : nat)
| SaveStatistics (date : string)
    (avgCalories avgProtein avgCarbs avgFat : JS.number) (daysLogged : nat)
| SyncFoods (foods : option (list Food.t))
| LoadDailyData (date : string).

(** How a [fetch] settles: the promise rejects, or it resolves with a
    response whose body parses to a value ([Some]) or does not parse as
    JSON ([None], so that [response.json()] rejects). *)
Inductive FetchResult : Type :=
| FetchRejected
| FetchResolved (body : option Value).

(** Side effects, in the order they happen. *)
Inductive Effect : Type :=
| ConsoleLog (msg : string)
| ConsoleWarn (msg : string)
| ConsoleError (msg : string)
| Alert (msg : string)
| Fetch (url token : string) (req : Request)
| Firebase (op path : string)
| SetLastSyncRef (hash : Value).

Inductive Completion (A : Type) : Type :=
| Normal (a : A)
| Throw (e : Exn).
Arguments Normal {A} a.
Arguments Throw {A} e.

(** A computation with effects: how it completes and what it did. *)
Definition Eff (A : Type) : Type := (Completion A * list Effect)%type.

Definition ret {A : Type} (a : A) : Eff A := (Normal a, []).

Definition bind {A B : Type} (m : Eff A) (f : A -> Eff B) : Eff B :=
  match m with
  | (Normal a, t) => let '(r, t') := f a in (r, (t ++ t')%list)
  | (Throw e, t) => (Throw e, t)
  end.

Definition emit (e : Effect) : Eff unit := (Normal tt, [e]).

Definition throw {A : Type} (e : Exn) : Eff A := (Throw e, []).

(** [try { body } catch (error) { handler }]. *)
Definition try_catch {A : Type} (body : Eff A) (handler : Exn -> Eff A)
  : Eff A :=
  match body with
  | (Throw e, t) => let '(r, t') := handler e in (r, (t ++ t')%list)
  | done => done
  end.

Notation "x <- m ;; k" := (bind m (fun x => k))
  (at level 61, m at next level, right associativity).
Notation "m ;;; k" := (bind m (fun _ => k))
  (at level 61, right associativity).

Definition completion {A : Type} (m : Eff A) : Completion A := fst m.
Definition effects {A : Type} (m : Eff A) : list Effect := snd m.

(** [v.key]: a [TypeError] on [null] and [undefined]. *)
Definition get_prop (v : Value) (key : string) : Eff Value :=
  match v with
  | VUndefined | VNull => throw TypeError
  | VObj props => ret (Val.lookup key props)
  | VArr items =>
      if String.eqb key "length"
      then ret (VNum (JS.of_Z (Z.of_nat (List.length items))))
      else ret VUndefined
  | VStr s =>
      if String.eqb key "length"
      then ret (VNum (JS.of_Z (Z.of_nat (String.length s))))
      else ret VUndefined
  | _ => ret VUndefined
  end.

(** ** services/googleSheetsService.ts *)
Module GoogleSheetsService.

Definition SHEET_AUTH_TOKEN : string :=
  "calorie-tracker-2025-secure-key-francis".

Record t := mk {
  deploymentUrl : string;
  syncFoodsTimeout : option positive;
  lastFoodsPayload : option (list Food.t)
}.

(** [new GoogleSheetsService()]. *)
Definition create : t := mk "" None None.

Definition initialize (url : string) (svc : t) : t :=
  mk url (syncFoodsTimeout svc) (lastFoodsPayload svc).

Definition isConfigured (svc : t) : bool :=
  JS.truthy_string (deploymentUrl svc).

(** [await fetch(url, ...)]: the request goes out, then the promise
    settles as the environment decides. *)
Definition fetch (svc : t) (req : Request) (r : FetchResult)
  : Eff (option Value) :=
  emit (Fetch (deploymentUrl svc) SHEET_AUTH_TOKEN req) ;;;
  match r with
  | FetchRejected => throw NetworkError
  | FetchResolved body => ret body
  end.

(** [await response.json()]. *)
Definition json (body : option Value) : Eff Value :=
  match body with
  | None => throw SyntaxError
  | Some v => ret v
  end.

Definition saveDailyData (svc : t) (date : string)
  (foodLogs : list FoodLog.t) (totals : DailyMacros.t) (r : FetchResult)
  : Eff bool :=
  if negb (JS.truthy_string (deploymentUrl svc)) then
    emit (ConsoleWarn "Google Sheets URL not configured") ;;;
    ret false
  else
    try_catch
      (let payload := SaveDailyData date foodLogs totals in
       emit (ConsoleLog "Syncing daily data:") ;;;
       _ <- fetch svc payload r ;;
       emit (ConsoleLog "Daily data synced") ;;;
       ret true)
      (fun _ =>
         emit (ConsoleError "Error saving to Google Sheets:") ;;;
         ret false).

Definition saveDailySummary (svc : t) (date : string)
  (totals : DailyMacros.t) (calorieGoal caloriePercent : JS.number)
  (entryCount : nat) (r : FetchResult) : Eff bool :=
  if negb (JS.truthy_string (deploymentUrl svc)) then ret false
  else
    try_catch
      (_ <- fetch svc
              (SaveDailySummary date totals calorieGoal caloriePercent
                 entryCount) r ;;
       emit (ConsoleLog "Daily summary synced") ;;;
       ret true)
      (fun _ =>
         emit (ConsoleError "Error saving daily summary:") ;;;
         ret false).

Definition saveStatistics (svc : t) (date : string)
  (avgCalories avgProtein avgCarbs avgFat : JS.number) (daysLogged : nat)
  (r : FetchResult) : Eff bool :=
  if negb (JS.truthy_string (deploymentUrl svc)) then ret false
  else
    try_catch
      (_ <- fetch svc
              (SaveStatistics date avgCalories avgProtein avgCarbs avgFat
                 daysLogged) r ;;
       emit (ConsoleLog "Statistics synced") ;;;
       ret true)
      (fun _ =>
         emit (ConsoleError "Error saving statistics:") ;;;
         ret false).

(** [loadDailyData(date)]: the returned value is [VNull] for [null]. *)
Definition loadDailyData (svc : t) (date : string) (r : FetchResult)
  : Eff Value :=
  if negb (JS.truthy_string (deploymentUrl svc)) then
    emit (ConsoleWarn "Google Sheets URL not configured") ;;;
    ret VNull
  else
    try_catch
      (response <- fetch svc (LoadDailyData date) r ;;
       data <- json response ;;
       error <- get_prop data "error" ;;
       if Val.truthy error then
         emit (ConsoleError "Error loading from Google Sheets:") ;;;
         ret VNull
       else ret data)
      (fun _ =>
         emit (ConsoleError "Error loading from Google Sheets:") ;;;
         ret VNull).

End GoogleSheetsService.

(** ** Totals of a list of entries

    The [reduce] that DailyTracker and [handleDeleteLog] both write out:
    the sums start from [{ calories: 0, protein: 0, carbs: 0, fat: 0 }]
    and add the entries from left to right. *)
Definition zeroTotals : DailyMacros.t :=
  DailyMacros.mk (JS.of_Z 0) (JS.of_Z 0) (JS.of_Z 0) (JS.of_Z 0).

Definition addLogToTotals (acc : DailyMacros.t) (log : FoodLog.t)
  : DailyMacros.t :=
  DailyMacros.mk
    (DailyMacros.calories acc + FoodLog.calories log)%js
    (DailyMacros.protein acc + FoodLog.protein log)%js
    (DailyMacros.carbs acc + FoodLog.carbs log)%js
    (DailyMacros.fat acc + FoodLog.fat log)%js.

Definition reduceTotals (logs : list FoodLog.t) : DailyMacros.t :=
  fold_left addLogToTotals logs zeroTotals.

(** [logs.reduce((sum, log) => sum + log.field, 0)]. *)
Definition reduceSum (field : FoodLog.t -> JS.number) (logs : list FoodLog.t)
  : JS.number :=
  fold_left (fun sum log => (sum + field log)%js) logs (JS.of_Z 0).

Definition lengthOf {A : Type} (l : list A) : JS.number :=
  JS.of_Z (Z.of_nat (List.length l)).

(** ** [JSON.stringify(logs)]

    The fingerprint of the entry list is its JSON text.  The text is
    kept as the document it denotes: numbers print injectively, a
    non-finite number prints as [null], [-0] as [0], and a [Date] as its
    ISO string, so two texts are the same string exactly when the
    documents below are equal. *)
Definition jsonNumber (n : JS.number) : Value :=
  match n with
  | S754_nan | S754_infinity _ => VNull
  | S754_zero _ => VNum (S754_zero false)
  | S754_finite _ _ _ => VNum n
  end.

Definition jsonOfLog (log : FoodLog.t) : Value :=
  VObj [ ("id", VStr (FoodLog.id log));
         ("foodId", VStr (FoodLog.foodId log));
         ("foodName", VStr (FoodLog.foodName log));
         ("quantity", jsonNumber (FoodLog.quantity log));
         ("calories", jsonNumber (FoodLog.calories log));
         ("protein", jsonNumber (FoodLog.protein log));
         ("carbs", jsonNumber (FoodLog.carbs log));
         ("fat", jsonNumber (FoodLog.fat log));
         ("timestamp", VStr (Date.toISOString (FoodLog.timestamp log))) ].

Definition JSON_stringify (logs : list FoodLog.t) : Value :=
  VArr (map jsonOfLog logs).

(** ** The browser: clock, timers, network *)

(** What the debounced callback of DailyTracker closes over: the
    fingerprint and the values of the render that scheduled it. *)
Record SyncClosure := mkClosure {
  c_logsHash : Value;
  c_currentDate : string;
  c_logs : list FoodLog.t;
  c_totals : DailyMacros.t;
  c_goalCalories : JS.number;
  c_caloriePercent : JS.number
}.

(** A pending [setTimeout] is its id, the time it is due and what it
    will run.  The two debounced callbacks of the program are the daily
    sync of DailyTracker and the catalogue sync of the service. *)
Inductive TimerJob : Type :=
| SyncDailyJob (c : SyncClosure)
| SyncFoodsJob.

Record Timer := mkTimer {
  timer_id : positive;
  timer_due : Z;
  timer_job : TimerJob
}.

(** The state the dispatcher runs in: the service singleton, the two
    refs of the mounted DailyTracker and whether its last sync effect
    returned a cleanup, the browser's clock and timer table, the
    network (how the request issued at a given time settles) and the
    effects so far. *)
Record World := mkWorld {
  service : GoogleSheetsService.t;
  lastSyncRef : option Value;
  syncTimeoutRef : option positive;
  hasCleanup : bool;
  now : Z;
  timers : list Timer;
  nextTimer : positive;
  net : Z -> Request -> FetchResult;
  trace : list Effect
}.

Definition setService (s : GoogleSheetsService.t) (w : World) : World :=
  mkWorld s (lastSyncRef w) (syncTimeoutRef w) (hasCleanup w) (now w)
    (timers w) (nextTimer w) (net w) (trace w).

Definition setLastSyncRef (h : option Value) (w : World) : World :=
  mkWorld (service w) h (syncTimeoutRef w) (hasCleanup w) (now w)
    (timers w) (nextTimer w) (net w) (trace w).

Definition setSyncTimeoutRef (r : option positive) (w : World) : World :=
  mkWorld (service w) (lastSyncRef w) r (hasCleanup w) (now w)
    (timers w) (nextTimer w) (net w) (trace w).

Definition setHasCleanup (b : bool) (w : World) : World :=
  mkWorld (service w) (lastSyncRef w) (syncTimeoutRef w) b (now w)
    (timers w) (nextTimer w) (net w) (trace w).

Definition setNow (t : Z) (w : World) : World :=
  mkWorld (service w) (lastSyncRef w) (syncTimeoutRef w) (hasCleanup w) t
    (timers w) (nextTimer w) (net w) (trace w).

Definition setTimers (ts : list Timer) (w : World) : World :=
  mkWorld (service w) (lastSyncRef w) (syncTimeoutRef w) (hasCleanup w)
    (now w) ts (nextTimer w) (net w) (trace w).

Definition perform (es : list Effect) (w : World) : World :=
  mkWorld (service w) (lastSyncRef w) (syncTimeoutRef w) (hasCleanup w)
    (now w) (timers w) (nextTimer w) (net w) (trace w ++ es)%list.

(** [clearTimeout(id)]. *)
Definition clearTimeout (id : positive) (w : World) : World :=
  setTimers (filter (fun tm => negb (Pos.eqb (timer_id tm) id)) (timers w)) w.

(** [setTimeout(job, delay)]: the fresh id and the new state. *)
Definition setTimeout (job : TimerJob) (delay : Z) (w : World)
  : positive * World :=
  let id := nextTimer w in
  (id,
   mkWorld (service w) (lastSyncRef w) (syncTimeoutRef w) (hasCleanup w)
     (now w) (timers w ++ [mkTimer id (now w + delay) job])%list
     (Pos.succ id) (net w) (trace w)).

(** [if (ref.current) clearTimeout(ref.current)]: timer ids are positive,
    hence truthy. *)
Definition clearIfSet (ref : option positive) (w : World) : World :=
  match ref with
  | Some id => clearTimeout id w
  | None => w
  end.

(** *** The debounced callbacks *)

(** A service call that is not awaited runs up to its [await], the
    [fetch]; what follows in it happens once the request has settled.
    The effects of a call, split after the request. *)
Fixpoint untilFetch (es : list Effect) : list Effect * list Effect :=
  match es with
  | [] => ([], [])
  | Fetch url token req :: rest => ([Fetch url token req], rest)
  | e :: rest => let '(before, after) := untilFetch rest in (e :: before, after)
  end.

(** The callback DailyTracker hands to [setTimeout].  It stores the
    fingerprint, starts the three service calls without awaiting them
    and drops their results, and logs.  The requests settle afterwards,
    as the network decides; all a settlement does is log, and the three
    are recorded here right after the callback. *)
Definition syncDailyCallback (c : SyncClosure) (w : World) : World :=
  let w1 :=
    perform [SetLastSyncRef (c_logsHash c)]
      (setLastSyncRef (Some (c_logsHash c)) w) in
  let svc := service w1 in
  let date := c_currentDate c in
  let logs := c_logs c in
  let daily := SaveDailyData date logs (c_totals c) in
  let summary :=
    SaveDailySummary date (c_totals c) (c_goalCalories c)
      (c_caloriePercent c) (List.length logs) in
  let avgCalories := (reduceSum FoodLog.calories logs / lengthOf logs)%js in
  let avgProtein := (reduceSum FoodLog.protein logs / lengthOf logs)%js in
  let avgCarbs := (reduceSum FoodLog.carbs logs / lengthOf logs)%js in
  let avgFat := (reduceSum FoodLog.fat logs / lengthOf logs)%js in
  let daysLogged := 1%nat in
  let stats :=
    SaveStatistics date avgCalories avgProtein avgCarbs avgFat daysLogged in
  let call1 :=
    untilFetch
      (effects
         (GoogleSheetsService.saveDailyData svc date logs (c_totals c)
            (net w1 (now w1) daily))) in
  let call2 :=
    untilFetch
      (effects
         (GoogleSheetsService.saveDailySummary svc date (c_totals c)
            (c_goalCalories c) (c_caloriePercent c) (List.length logs)
            (net w1 (now w1) summary))) in
  let call3 :=
    untilFetch
      (effects
         (GoogleSheetsService.saveStatistics svc date avgCalories avgProtein
            avgCarbs avgFat daysLogged (net w1 (now w1) stats))) in
  perform
    (fst call1 ++ fst call2 ++ fst call3
       ++ [ConsoleLog "Synced with Google Sheets (debounced):"]
       ++ snd call1 ++ snd call2 ++ snd call3)%list
    w1.

(** The callback [syncFoods] hands to [setTimeout]: it sends the payload
    stored last. *)
Definition syncFoodsCallback (w : World) : World :=
  let svc := service w in
  let payload := SyncFoods (GoogleSheetsService.lastFoodsPayload svc) in
  perform
    (effects
       (try_catch
          (emit (ConsoleLog "Syncing foods (debounced):") ;;;
           _ <- GoogleSheetsService.fetch svc payload
                  (net w (now w) payload) ;;
           emit (ConsoleLog "Foods synced to Google Sheets:") ;;;
           ret true)
          (fun _ =>
             emit (ConsoleError "Error syncing foods to Google Sheets:") ;;;
             ret false)))
    w.

Definition runJob (job : TimerJob) (w : World) : World :=
  match job with
  | SyncDailyJob c => syncDailyCallback c w
  | SyncFoodsJob => syncFoodsCallback w
  end.

(** A timer fires no earlier than it is due. *)
Definition fire (tm : Timer) (w : World) : World :=
  runJob (timer_job tm) (setNow (Z.max (now w) (timer_due tm)) w).

(** Pending timers in the order they fire: by due time, and by creation
    among those due together. *)
Fixpoint insertByDue (tm : Timer) (ts : list Timer) : list Timer :=
  match ts with
  | [] => [tm]
  | u :: rest =>
      if timer_due tm <? timer_due u then tm :: ts
      else u :: insertByDue tm rest
  end.

Definition sortByDue (ts : list Timer) : list Timer :=
  fold_left (fun sorted tm => insertByDue tm sorted) ts [].

(** Time passes until [t]: every timer due by then fires, in order.
    (No callback of the program sets or clears a timer.) *)
Definition advance (t : Z) (w : World) : World :=
  let due := filter (fun tm => timer_due tm <=? t) (timers w) in
  let rest := filter (fun tm => negb (timer_due tm <=? t)) (timers w) in
  setNow t
    (fold_left (fun w' tm => fire tm w') (sortByDue due) (setTimers rest w)).

(** [googleSheetsService.syncFoods(foods)], debounced by one second.
    (The promise it returns resolves from the callback, if it runs.) *)
Definition syncFoods (foods : list Food.t) (w : World) : World :=
  let svc := service w in
  if negb (JS.truthy_string (GoogleSheetsService.deploymentUrl svc)) then
    perform [ConsoleWarn "Google Sheets URL not configured"] w
  else
    let w1 :=
      setService
        (GoogleSheetsService.mk (GoogleSheetsService.deploymentUrl svc)
           (GoogleSheetsService.syncFoodsTimeout svc) (Some foods)) w in
    let w2 := clearIfSet (GoogleSheetsService.syncFoodsTimeout svc) w1 in
    let '(id, w3) := setTimeout SyncFoodsJob 1000 w2 in
    setService
      (GoogleSheetsService.mk (GoogleSheetsService.deploymentUrl svc)
         (Some id) (Some foods)) w3.

(** ** components/DailyTracker.tsx

    The totals the component shows, and its auto-sync effect with the
    two refs it keeps.  (The component's other effect reads the day back
    on a change of date and only logs what it finds; its modals hold
    presentation state.) *)
Module DailyTracker.

Record Props := mkProps {
  logs : list FoodLog.t;
  goals : MacroGoals.t;
  currentDate : string
}.

Definition totals (p : Props) : DailyMacros.t := reduceTotals (logs p).

Definition caloriePercent (p : Props) : JS.number :=
  JS.Math_min
    (DailyMacros.calories (totals p) / MacroGoals.calories (goals p)
       * JS.of_Z 100)%js
    (JS.of_Z 100).

Definition isOverGoal (p : Props) : bool :=
  JS.gt (DailyMacros.calories (totals p)) (MacroGoals.calories (goals p)).

(** What the callback scheduled by a render with props [p] closes over:
    [logsHash], [currentDate], [logs], [totals], [goals.calories] and
    [caloriePercent] of that render. *)
Definition closureOf (p : Props) : SyncClosure :=
  mkClosure (JSON_stringify (logs p)) (currentDate p) (logs p) (totals p)
    (MacroGoals.calories (goals p)) (caloriePercent p).

(** [logsHash === lastSyncRef.current]; the ref starts as the empty
    string ([None]), which is no JSON text. *)
Definition sameFingerprint (logsHash : Value) (last : option Value) : bool :=
  match last with
  | Some v => Val.eqb logsHash v
  | None => false
  end.

(** The body of the auto-sync effect.  Returning early leaves no cleanup
    behind; scheduling returns the cleanup that clears the timer. *)
Definition syncEffect (p : Props) (w : World) : World :=
  if negb (GoogleSheetsService.isConfigured (service w))
     || (List.length (logs p) =? 0)%nat
  then setHasCleanup false w
  else
    let logsHash := JSON_stringify (logs p) in
    if sameFingerprint logsHash (lastSyncRef w) then setHasCleanup false w
    else
      let w1 := clearIfSet (syncTimeoutRef w) w in
      let '(id, w2) := setTimeout (SyncDailyJob (closureOf p)) 500 w1 in
      setHasCleanup true (setSyncTimeoutRef (Some id) w2).

(** The cleanup the effect returned. *)
Definition syncCleanup (w : World) : World :=
  clearIfSet (syncTimeoutRef w) w.

(** A render of DailyTracker with props [p].  [totals] is a fresh object
    at every render, so the effect's dependencies always differ: the
    previous cleanup (if there is one) runs, then the effect. *)
Definition render (p : Props) (w : World) : World :=
  syncEffect p (if hasCleanup w then syncCleanup w else w).

(** The component is rendered with [p] at time [t]: what was due before
    has fired. *)
Definition renderAt (w : World) (tp : Z * Props) : World :=
  render (snd tp) (advance (fst tp) w).

Definition run (events : list (Z * Props)) (w : World) : World :=
  fold_left renderAt events w.

End DailyTracker.

(** ** The host's local time

    The day buttons of the App compute with [Date] in local time:
    [new Date(s)] parses a date string, and
    [date.setDate(date.getDate() + k)] moves a time value by [k] days of
    the local calendar, which the host's time zone (with its clock
    changes) decides.  Both are the runtime's. *)
Module LocalTime.

Record t := mk {
  parse : string -> option Z;
  addDays : Z -> Z -> Z
}.

(** [const date = new Date(s); date.setDate(date.getDate() + k);
    date.toISOString().split('T')[0]]: [None] when [s] is no date, and
    [toISOString] throws a [RangeError]. *)
Definition shifted (L : t) (s : string) (k : Z) : option string :=
  match parse L s with
  | Some ms => Some (Date.isoDate (addDays L ms k))
  | None => None
  end.

End LocalTime.

(** ** App.tsx, the spreadsheet variant *)
Module App.

Definition DEMO_FOODS : list Food.t :=
  [ Food.mk "1" "Chicken Breast" (JS.of_Z 165) (JS.of_Z 31) (JS.of_Z 0)
      (JS.dec 36 10);
    Food.mk "2" "Rice" (JS.of_Z 130) (JS.dec 27 10) (JS.of_Z 28)
      (JS.dec 3 10);
    Food.mk "3" "Egg" (JS.of_Z 155) (JS.of_Z 13) (JS.dec 11 10)
      (JS.of_Z 11);
    Food.mk "4" "Apple" (JS.of_Z 52) (JS.dec 3 10) (JS.of_Z 14)
      (JS.dec 2 10);
    Food.mk "5" "Broccoli" (JS.of_Z 34) (JS.dec 37 10) (JS.of_Z 7)
      (JS.dec 4 10);
    Food.mk "6" "Salmon" (JS.of_Z 208) (JS.of_Z 20) (JS.of_Z 0)
      (JS.of_Z 13);
    Food.mk "7" "Banana" (JS.of_Z 89) (JS.dec 11 10) (JS.of_Z 23)
      (JS.dec 3 10);
    Food.mk "8" "Milk" (JS.of_Z 42) (JS.dec 34 10) (JS.of_Z 5)
      (JS.of_Z 1) ].

Definition DEFAULT_GOALS : MacroGoals.t :=
  MacroGoals.mk (JS.of_Z 2500) (JS.of_Z 150) (JS.of_Z 250) (JS.of_Z 80).

Definition DEPLOYMENT_URL : string :=
  "https://script.google.com/macros/s/AKfycbyAdCA_O1UHdCU3l-yukuXZNDXEZE98pNzl0vQXoBQp85p8sYlpNSmnJziQx6xMn9k4/exec".

(** The component's state, with the service singleton it talks to. *)
Record State := mk {
  foods : list Food.t;
  logs : list FoodLog.t;
  goals : MacroGoals.t;
  selectedDate : string;
  sheets : GoogleSheetsService.t
}.

Definition setFoods (fs : list Food.t) (st : State) : State :=
  mk fs (logs st) (goals st) (selectedDate st) (sheets st).

Definition setLogs (ls : list FoodLog.t) (st : State) : State :=
  mk (foods st) ls (goals st) (selectedDate st) (sheets st).

Definition setGoals (g : MacroGoals.t) (st : State) : State :=
  mk (foods st) (logs st) g (selectedDate st) (sheets st).

Definition setSelectedDate (d : string) (st : State) : State :=
  mk (foods st) (logs st) (goals st) d (sheets st).

(** The state after the first render and the effect that initializes
    the service.  [now] and [timezoneOffset] are the clock and the
    browser's offset at that moment. *)
Definition mount (now timezoneOffset : Z) : State :=
  mk DEMO_FOODS [] DEFAULT_GOALS
    (Timezone.getCurrentDateIST now timezoneOffset)
    (GoogleSheetsService.initialize DEPLOYMENT_URL
       GoogleSheetsService.create).

(** Conversions of the runtime that the untyped sheet rows can reach:
    the number a string, an array or an object converts to in a
    comparison, and [new Date(value)] ([None] for an invalid date). *)
Record Builtins := mkBuiltins {
  parseNumber : Value -> JS.number;
  newDate : Value -> option Z
}.

(** [ToNumber(v)], as the comparison [v > 0] applies it. *)
Definition toNumber (B : Builtins) (v : Value) : JS.number :=
  match v with
  | VUndefined => JS.NaN
  | VNull => JS.of_Z 0
  | VBool b => if b then JS.of_Z 1 else JS.of_Z 0
  | VNum n => n
  | VStr _ | VArr _ | VObj _ => parseNumber B v
  end.

Definition asString (v : Value) : option string :=
  match v with VStr s => Some s | _ => None end.

Definition asNumber (v : Value) : option JS.number :=
  match v with VNum n => Some n | _ => None end.

(** [Date.now().toString()]. *)
Definition dateNowString (now : Z) : string :=
  DecimalString.NilZero.string_of_int (Z.to_int now).

(** One row of the sheet as an entry.  The fields are copied as they
    are, so a row whose fields do not have the types of [FoodLog] has no
    counterpart in the typed store: [None]. *)
Definition convertLog (B : Builtins) (now : Z) (log : Value)
  : Eff (option FoodLog.t) :=
  id0 <- get_prop log "id" ;;
  ts <- get_prop log "timestamp" ;;
  let id :=
    if Val.truthy id0 then id0
    else if Val.truthy ts then ts
    else VStr (dateNowString now) in
  foodName <- get_prop log "foodName" ;;
  quantity <- get_prop log "quantity" ;;
  calories <- get_prop log "calories" ;;
  protein <- get_prop log "protein" ;;
  carbs <- get_prop log "carbs" ;;
  fat <- get_prop log "fat" ;;
  ret
    match asString id, asString foodName, asNumber quantity,
          asNumber calories, asNumber protein, asNumber carbs,
          asNumber fat, newDate B ts with
    | Some i, Some n, Some q, Some c, Some p, Some cb, Some f, Some t =>
        Some (FoodLog.mk i "imported" n q c p cb f t)
    | _, _, _, _, _, _, _, _ => None
    end.

(** [rows.map(convert)], stopping at the first row that throws. *)
Fixpoint convertLogs (B : Builtins) (now : Z) (rows : list Value)
  : Eff (option (list FoodLog.t)) :=
  match rows with
  | [] => ret (Some [])
  | row :: rest =>
      log <- convertLog B now row ;;
      logs <- convertLogs B now rest ;;
      ret match log, logs with
          | Some l, Some ls => Some (l :: ls)
          | _, _ => None
          end
  end.

(** [data.foodLogs.map(...)]: only an array has [map]. *)
Definition mapFoodLogs (B : Builtins) (now : Z) (foodLogs : Value)
  : Eff (option (list FoodLog.t)) :=
  match foodLogs with
  | VArr rows => convertLogs B now rows
  | _ => throw TypeError
  end.

(** [data && data.foodLogs && data.foodLogs.length > 0]. *)
Definition hasFoodLogs (B : Builtins) (data : Value) : Eff bool :=
  if negb (Val.truthy data) then ret false
  else
    foodLogs <- get_prop data "foodLogs" ;;
    if negb (Val.truthy foodLogs) then ret false
    else
      len <- get_prop foodLogs "length" ;;
      ret (JS.gt (toNumber B len) (JS.of_Z 0)).

(** The effect that loads the selected date.  The result is the new
    state, or [None] when a loaded row has no typed counterpart. *)
Definition loadFromSheets (B : Builtins) (now : Z) (r : FetchResult)
  (st : State) : Eff (option State) :=
  if negb (GoogleSheetsService.isConfigured (sheets st)) then ret (Some st)
  else
    try_catch
      (data <- GoogleSheetsService.loadDailyData (sheets st)
                 (selectedDate st) r ;;
       some <- hasFoodLogs B data ;;
       if some then
         emit (ConsoleLog "Loaded from Google Sheets:") ;;;
         foodLogs <- get_prop data "foodLogs" ;;
         convertedLogs <- mapFoodLogs B now foodLogs ;;
         match convertedLogs with
         | Some ls =>
             emit (ConsoleLog "Synced logs from Sheets:") ;;;
             ret (Some (setLogs ls st))
         | None => ret None
         end
       else
         emit (ConsoleLog "No data in Google Sheets for") ;;;
         ret (Some (setLogs [] st)))
      (fun _ =>
         emit (ConsoleError "Failed to load from Google Sheets:") ;;;
         ret (Some st)).

(** [handleAddLog(foodId, quantity)].  [uuid] is what [generateUUID()]
    returns and [now] the time value of [new Date()]. *)
Definition handleAddLog (uuid : string) (now : Z) (foodId : string)
  (quantity : JS.number) (st : State) : State :=
  match find (fun f => String.eqb (Food.id f) foodId) (foods st) with
  | None => st
  | Some food =>
      let newLog :=
        FoodLog.mk uuid foodId (Food.name food) quantity
          (JS.Math_round (Food.calories food * quantity)%js)
          (JS.Math_round (Food.protein food * quantity * JS.of_Z 10)
             / JS.of_Z 10)%js
          (JS.Math_round (Food.carbs food * quantity * JS.of_Z 10)
             / JS.of_Z 10)%js
          (JS.Math_round (Food.fat food * quantity * JS.of_Z 10)
             / JS.of_Z 10)%js
          now in
      setLogs (newLog :: logs st) st
  end.

(** The percentage [handleDeleteLog] sends with the daily summary. *)
Definition deleteCaloriePercent (totals : DailyMacros.t)
  (goals : MacroGoals.t) : JS.number :=
  if JS.gt (MacroGoals.calories goals) (JS.of_Z 0) then
    JS.Math_min
      (DailyMacros.calories totals / MacroGoals.calories goals
         * JS.of_Z 100)%js
      (JS.of_Z 100)
  else JS.of_Z 0.

(** [handleDeleteLog(logId)]: the state it sets, and the immediate sync
    that follows; [r1], [r2], [r3] are how the three awaited requests
    settle. *)
Definition handleDeleteLog (logId : string) (r1 r2 r3 : FetchResult)
  (st : State) : State * Eff unit :=
  let updatedLogs :=
    filter (fun l => negb (String.eqb (FoodLog.id l) logId)) (logs st) in
  (setLogs updatedLogs st,
   try_catch
     (let totals := reduceTotals updatedLogs in
      let caloriePercent := deleteCaloriePercent totals (goals st) in
      success <- GoogleSheetsService.saveDailyData (sheets st)
                   (selectedDate st) updatedLogs totals r1 ;;
      _ <- GoogleSheetsService.saveDailySummary (sheets st)
             (selectedDate st) totals (MacroGoals.calories (goals st))
             caloriePercent (List.length updatedLogs) r2 ;;
      let some := (0 <? List.length updatedLogs)%nat in
      let avg field :=
        if some then (reduceSum field updatedLogs / lengthOf updatedLogs)%js
        else JS.of_Z 0 in
      let daysLogged := if some then 1%nat else 0%nat in
      _ <- GoogleSheetsService.saveStatistics (sheets st) (selectedDate st)
             (avg FoodLog.calories) (avg FoodLog.protein)
             (avg FoodLog.carbs) (avg FoodLog.fat) daysLogged r3 ;;
      if negb success then
        emit (Alert "Failed to sync deleted log to Google Sheets. Please check your connection.")
      else ret tt)
     (fun _ =>
        emit (Alert "Error syncing with Google Sheets after deleting log. Please try again.") ;;;
        emit (ConsoleError "Sync error after delete:"))).

(** A food without its id ([Omit<Food, 'id'>]). *)
Record FoodData := mkFoodData {
  fd_name : string;
  fd_calories : JS.number;
  fd_protein : JS.number;
  fd_carbs : JS.number;
  fd_fat : JS.number
}.

Definition withId (id : string) (d : FoodData) : Food.t :=
  Food.mk id (fd_name d) (fd_calories d) (fd_protein d) (fd_carbs d)
    (fd_fat d).

Definition handleAddFood (uuid : string) (foodData : FoodData) (st : State)
  : State :=
  setFoods (foods st ++ [withId uuid foodData])%list st.

Definition handleEditFood (id : string) (foodData : FoodData) (st : State)
  : State :=
  setFoods
    (map (fun f => if String.eqb (Food.id f) id then withId id foodData
                   else f)
       (foods st)) st.

Definition handleDeleteFood (id : string) (st : State) : State :=
  setFoods (filter (fun f => negb (String.eqb (Food.id f) id)) (foods st)) st.

(** The entries of the selected date, as the render computes them. *)
Definition todaysLogs (st : State) : list FoodLog.t :=
  filter
    (fun log =>
       String.eqb (Date.isoDate (FoodLog.timestamp log)) (selectedDate st))
    (logs st).

Definition goToToday (now : Z) (st : State) : State :=
  setSelectedDate (Date.isoDate now) st.

Definition isToday (now : Z) (st : State) : bool :=
  String.eqb (selectedDate st) (Date.isoDate now).

(** [goToPreviousDay] and [goToNextDay]: the selected date moved by a
    day of the local calendar.  When the selected date does not parse,
    [toISOString] throws before [setSelectedDate] is reached. *)
Definition goToDay (L : LocalTime.t) (k : Z) (st : State) : State :=
  match LocalTime.shifted L (selectedDate st) k with
  | Some date => setSelectedDate date st
  | None => st
  end.

Definition goToPreviousDay (L : LocalTime.t) (st : State) : State :=
  goToDay L (-1) st.

Definition goToNextDay (L : LocalTime.t) (st : State) : State :=
  goToDay L 1 st.

(** The props DailyTracker is rendered with. *)
Definition trackerProps (st : State) : DailyTracker.Props :=
  DailyTracker.mkProps (todaysLogs st) (goals st) (selectedDate st).

End App.

(** ** services/firebaseLogsService.ts *)
Module FirebaseLogsService.

Definition LOGS_PATH : string := "logs".

(** An entry as it is stored under its key: a log without its id
    ([Omit<FoodLog, 'id'>]). *)
Record LogFields := mkFields {
  foodId : string;
  foodName : string;
  quantity : JS.number;
  calories : JS.number;
  protein : JS.number;
  carbs : JS.number;
  fat : JS.number;
  timestamp : Z
}.

(** [{ id, ...log }]. *)
Definition withId (id : string) (log : LogFields) : FoodLog.t :=
  FoodLog.mk id (foodId log) (foodName log) (quantity log) (calories log)
    (protein log) (carbs log) (fat log) (timestamp log).

(** How [get] settles: it rejects, or it resolves with a snapshot that
    holds nothing ([None]) or the entries under the date, by key. *)
Inductive GetResult : Type :=
| GetRejected
| GetSnapshot (val : option (list (string * LogFields))).

Definition datePath (date : string) : string := LOGS_PATH ++ "/" ++ date.

Definition getLogsByDate (date : string) (r : GetResult)
  : Eff (list FoodLog.t) :=
  emit (Firebase "get" (datePath date)) ;;;
  match r with
  | GetRejected => throw FirebaseError
  | GetSnapshot None => ret []
  | GetSnapshot (Some data) =>
      ret (map (fun entry => withId (fst entry) (snd entry)) data)
  end.

(** [addLog(date, log)]: [key] is the key [push] generates, and [ok]
    whether [set] resolves. *)
Definition addLog (date key : string) (ok : bool) (log : LogFields)
  : Eff FoodLog.t :=
  emit (Firebase "set" (datePath date ++ "/" ++ key)) ;;;
  if ok then ret (withId key log) else throw FirebaseError.

Definition deleteLog (date id : string) (ok : bool) : Eff unit :=
  emit (Firebase "remove" (datePath date ++ "/" ++ id)) ;;;
  if ok then ret tt else throw FirebaseError.

End FirebaseLogsService.

(** ** services/firebaseFoodsService.ts *)
Module FirebaseFoodsService.

Definition FOODS_PATH : string := "foods".

(** How [get] settles: it rejects, or it resolves with a snapshot that
    holds nothing ([None]) or the foods, by key. *)
Inductive GetResult : Type :=
| GetRejected
| GetSnapshot (val : option (list (string * App.FoodData))).

Definition getFoods (r : GetResult) : Eff (list Food.t) :=
  emit (Firebase "get" FOODS_PATH) ;;;
  match r with
  | GetRejected => throw FirebaseError
  | GetSnapshot None => ret []
  | GetSnapshot (Some data) =>
      ret (map (fun entry => App.withId (fst entry) (snd entry)) data)
  end.

(** [addFood(food)]: [key] is the key [push] generates, and [ok]
    whether [set] resolves. *)
Definition addFood (key : string) (ok : bool) (food : App.FoodData)
  : Eff Food.t :=
  emit (Firebase "set" (FOODS_PATH ++ "/" ++ key)) ;;;
  if ok then ret (App.withId key food) else throw FirebaseError.

Definition updateFood (id : string) (ok : bool) : Eff unit :=
  emit (Firebase "update" (FOODS_PATH ++ "/" ++ id)) ;;;
  if ok then ret tt else throw FirebaseError.

Definition deleteFood (id : string) (ok : bool) : Eff unit :=
  emit (Firebase "remove" (FOODS_PATH ++ "/" ++ id)) ;;;
  if ok then ret tt else throw FirebaseError.

End FirebaseFoodsService.

(** ** services/firebaseGoalsService.ts *)
Module FirebaseGoalsService.

Definition GOALS_PATH : string := "goals".

Inductive GetResult : Type :=
| GetRejected
| GetSnapshot (val : option MacroGoals.t).

(** [getGoals()]: [null] ([None]) when the snapshot holds nothing. *)
Definition getGoals (r : GetResult) : Eff (option MacroGoals.t) :=
  emit (Firebase "get" GOALS_PATH) ;;;
  match r with
  | GetRejected => throw FirebaseError
  | GetSnapshot val => ret val
  end.

Definition setGoals (ok : bool) : Eff unit :=
  emit (Firebase "set" GOALS_PATH) ;;;
  if ok then ret tt else throw FirebaseError.

End FirebaseGoalsService.

(** ** App.tsx, the Firebase variant *)
Module FirebaseApp.

Record State := mk {
  foods : list Food.t;
  logs : list FoodLog.t;
  goals : MacroGoals.t;
  selectedDate : string
}.

Definition setFoods (fs : list Food.t) (st : State) : State :=
  mk fs (logs st) (goals st) (selectedDate st).

Definition setLogs (ls : list FoodLog.t) (st : State) : State :=
  mk (foods st) ls (goals st) (selectedDate st).

Definition setGoals (g : MacroGoals.t) (st : State) : State :=
  mk (foods st) (logs st) g (selectedDate st).

(** The effect that loads the logs of the selected date. *)
Definition loadLogs (r : FirebaseLogsService.GetResult) (st : State)
  : Eff State :=
  try_catch
    (logsData <- FirebaseLogsService.getLogsByDate (selectedDate st) r ;;
     ret (setLogs logsData st))
    (fun _ =>
       emit (ConsoleError "Failed to load logs from Firebase:") ;;;
       ret (setLogs [] st)).

(** [handleAddLog(foodId, quantity)]; the entry is stamped with
    [new Date().toISOString()], kept here as its time value [now]. *)
Definition handleAddLog (key : string) (now : Z) (ok : bool)
  (foodId : string) (quantity : JS.number) (st : State) : Eff State :=
  match find (fun f => String.eqb (Food.id f) foodId) (foods st) with
  | None => ret st
  | Some food =>
      let newLog :=
        FirebaseLogsService.mkFields foodId (Food.name food) quantity
          (JS.Math_round (Food.calories food * quantity)%js)
          (JS.Math_round (Food.protein food * quantity * JS.of_Z 10)
             / JS.of_Z 10)%js
          (JS.Math_round (Food.carbs food * quantity * JS.of_Z 10)
             / JS.of_Z 10)%js
          (JS.Math_round (Food.fat food * quantity * JS.of_Z 10)
             / JS.of_Z 10)%js
          now in
      try_catch
        (added <- FirebaseLogsService.addLog (selectedDate st) key ok
                    newLog ;;
         ret (setLogs (added :: logs st) st))
        (fun _ =>
           emit (ConsoleError "Failed to add log to Firebase:") ;;;
           ret st)
  end.

Definition handleDeleteLog (logId : string) (ok : bool) (st : State)
  : Eff State :=
  try_catch
    (FirebaseLogsService.deleteLog (selectedDate st) logId ok ;;;
     ret (setLogs
            (filter (fun l => negb (String.eqb (FoodLog.id l) logId))
               (logs st)) st))
    (fun _ =>
       emit (ConsoleError "Failed to delete log from Firebase:") ;;;
       ret st).

Definition setSelectedDate (d : string) (st : State) : State :=
  mk (foods st) (logs st) (goals st) d.

(** The effect that loads the foods on mount ([getFoods] returns an
    array whenever it returns).  This effect and the handlers of the
    foods also keep [foodsLoading] and [foodsError], which only the
    foods tab shows. *)
Definition loadFoods (r : FirebaseFoodsService.GetResult) (st : State)
  : Eff State :=
  try_catch
    (foodsData <- FirebaseFoodsService.getFoods r ;;
     emit (ConsoleLog "Loaded foods from Firebase:") ;;;
     ret (setFoods foodsData st))
    (fun _ =>
       emit (ConsoleError "Failed to load foods from Firebase:") ;;;
       ret st).

(** The effect that loads the goals on mount. *)
Definition loadGoals (r : FirebaseGoalsService.GetResult) (st : State)
  : Eff State :=
  try_catch
    (goalsData <- FirebaseGoalsService.getGoals r ;;
     match goalsData with
     | Some g => ret (setGoals g st)
     | None => ret st
     end)
    (fun _ =>
       emit (ConsoleError "Failed to load goals from Firebase:") ;;;
       ret (setGoals App.DEFAULT_GOALS st)).

Definition handleAddFood (key : string) (ok : bool)
  (foodData : App.FoodData) (st : State) : Eff State :=
  try_catch
    (added <- FirebaseFoodsService.addFood key ok foodData ;;
     ret (setFoods (foods st ++ [added])%list st))
    (fun _ =>
       emit (ConsoleError "Failed to add food to Firebase:") ;;;
       ret st).

Definition handleEditFood (id : string) (ok : bool)
  (foodData : App.FoodData) (st : State) : Eff State :=
  try_catch
    (FirebaseFoodsService.updateFood id ok ;;;
     ret (setFoods
            (map (fun f => if String.eqb (Food.id f) id
                           then App.withId id foodData else f)
               (foods st)) st))
    (fun _ =>
       emit (ConsoleError "Failed to update food in Firebase:") ;;;
       ret st).

Definition handleDeleteFood (id : string) (ok : bool) (st : State)
  : Eff State :=
  try_catch
    (FirebaseFoodsService.deleteFood id ok ;;;
     ret (setFoods
            (filter (fun f => negb (String.eqb (Food.id f) id)) (foods st))
            st))
    (fun _ =>
       emit (ConsoleError "Failed to delete food from Firebase:") ;;;
       ret st).

(** The modal's [onSave]: the goals are set, then written. *)
Definition onSave (newGoals : MacroGoals.t) (ok : bool) (st : State)
  : Eff State :=
  try_catch
    (FirebaseGoalsService.setGoals ok ;;;
     ret (setGoals newGoals st))
    (fun _ =>
       emit (ConsoleError "Failed to save goals to Firebase:") ;;;
       ret (setGoals newGoals st)).

Definition goToDay (L : LocalTime.t) (k : Z) (st : State) : State :=
  match LocalTime.shifted L (selectedDate st) k with
  | Some date => setSelectedDate date st
  | None => st
  end.

Definition goToPreviousDay (L : LocalTime.t) (st : State) : State :=
  goToDay L (-1) st.

Definition goToNextDay (L : LocalTime.t) (st : State) : State :=
  goToDay L 1 st.

Definition goToToday (now : Z) (st : State) : State :=
  setSelectedDate (Date.isoDate now) st.

(** The state after the first render; the three loads are in flight. *)
Definition mount (now timezoneOffset : Z) : State :=
  mk [] [] App.DEFAULT_GOALS (Timezone.getCurrentDateIST now timezoneOffset).

End FirebaseApp.

(** ** The events of the spreadsheet App

    What can happen to the mounted App: the user's handlers, and the
    settling of a load.  The effect on [selectedDate] starts a load of
    the selected date on mount and whenever a handler leaves another
    selected date behind; the load settles later, other events may come
    first, and what it then sets ([setLogs] of the rows, or of nothing)
    replaces the entries the App holds at that moment. *)
Module Actions.

(** The App between two events: its state, and how many loads have
    started and not settled. *)
Record Session := mkSession {
  app : App.State;
  loading : nat
}.

Inductive Action : Type :=
| AddLog (uuid : string) (now : Z) (foodId : string) (quantity : JS.number)
| DeleteLog (logId : string) (r1 r2 r3 : FetchResult)
| AddFood (uuid : string) (foodData : App.FoodData)
| EditFood (id : string) (foodData : App.FoodData)
| DeleteFood (id : string)
| SaveGoals (newGoals : MacroGoals.t)
| GoToPreviousDay (L : LocalTime.t)
| GoToNextDay (L : LocalTime.t)
| GoToToday (now : Z)
| LoadSettles (B : App.Builtins) (now : Z) (r : FetchResult).

(** The App once mounted: the service is initialized and the load of
    the first date is in flight. *)
Definition start (now timezoneOffset : Z) : Session :=
  mkSession (App.mount now timezoneOffset) 1.

(** A handler leaves the state [st'] behind.  When its selected date is
    another one the effect runs again and one more load is in flight;
    setting the same date renders nothing anew. *)
Definition after (s : Session) (st' : App.State) : Session :=
  mkSession st'
    (if String.eqb (App.selectedDate st') (App.selectedDate (app s))
     then loading s else S (loading s)).

(** One event.  A settled load sets what [loadFromSheets] sets, on the
    state of that moment; [None] when a loaded row has no typed
    counterpart.  Without a load in flight nothing settles. *)
Definition step (s : Session) (a : Action) : option Session :=
  match a with
  | AddLog uuid now foodId quantity =>
      Some (after s (App.handleAddLog uuid now foodId quantity (app s)))
  | DeleteLog logId r1 r2 r3 =>
      Some (after s (fst (App.handleDeleteLog logId r1 r2 r3 (app s))))
  | AddFood uuid foodData =>
      Some (after s (App.handleAddFood uuid foodData (app s)))
  | EditFood id foodData =>
      Some (after s (App.handleEditFood id foodData (app s)))
  | DeleteFood id => Some (after s (App.handleDeleteFood id (app s)))
  | SaveGoals newGoals => Some (after s (App.setGoals newGoals (app s)))
  | GoToPreviousDay L => Some (after s (App.goToPreviousDay L (app s)))
  | GoToNextDay L => Some (after s (App.goToNextDay L (app s)))
  | GoToToday now => Some (after s (App.goToToday now (app s)))
  | LoadSettles B now r =>
      match loading s with
      | O => Some s
      | S n =>
          match completion (App.loadFromSheets B now r (app s)) with
          | Normal (Some st') => Some (mkSession st' n)
          | Normal None => None
          | Throw _ => Some (mkSession (app s) n)
          end
      end
  end.

Fixpoint run (acts : list Action) (s : Session) : option Session :=
  match acts with
  | [] => Some s
  | a :: rest =>
      match step s a with
      | Some s' => run rest s'
      | None => None
      end
  end.

(** The action deletes the entries whose id is [logId]. *)
Definition deletes (logId : string) (a : Action) : bool :=
  match a with
  | DeleteLog l _ _ _ => String.eqb logId l
  | _ => false
  end.

(** A load settles. *)
Definition reloads (a : Action) : bool :=
  match a with
  | LoadSettles _ _ _ => true
  | _ => false
  end.

(** The action is [handleAddLog]. *)
Definition adds (a : Action) : bool :=
  match a with
  | AddLog _ _ _ _ => true
  | _ => false
  end.

(** The action is a [handleAddLog] that creates the entry [e]. *)
Definition creates (a : Action) (e : FoodLog.t) : Prop :=
  match a with
  | AddLog uuid now foodId quantity =>
      exists st : App.State,
        App.logs (App.handleAddLog uuid now foodId quantity st)
        = e :: App.logs st
  | _ => False
  end.

End Actions.

(** ** The events of the Firebase App

    The same for the Firebase variant: every handler awaits its write
    and sets the state when it has settled ([ok] tells how), as a
    function of the state of that moment ([prev => ...]), so a handler
    is one event, taken when its write settles; the foods and the goals
    are loaded on mount, the entries on mount and after every change of
    the selected date. *)
Module FirebaseActions.

Record Session := mkSession {
  app : FirebaseApp.State;
  loadingLogs : nat;
  loadingFoods : bool;
  loadingGoals : bool
}.

Inductive Action : Type :=
| AddLog (key : string) (now : Z) (ok : bool) (foodId : string)
    (quantity : JS.number)
| DeleteLog (logId : string) (ok : bool)
| AddFood (key : string) (ok : bool) (foodData : App.FoodData)
| EditFood (id : string) (ok : bool) (foodData : App.FoodData)
| DeleteFood (id : string) (ok : bool)
| SaveGoals (newGoals : MacroGoals.t) (ok : bool)
| GoToPreviousDay (L : LocalTime.t)
| GoToNextDay (L : LocalTime.t)
| GoToToday (now : Z)
| LogsLoadSettles (r : FirebaseLogsService.GetResult)
| FoodsLoadSettles (r : FirebaseFoodsService.GetResult)
| GoalsLoadSettles (r : FirebaseGoalsService.GetResult).

Definition start (now timezoneOffset : Z) : Session :=
  mkSession (FirebaseApp.mount now timezoneOffset) 1 true true.

(** The state a handler leaves behind; every handler catches what its
    write throws. *)
Definition settled (m : Eff FirebaseApp.State) (st : FirebaseApp.State)
  : FirebaseApp.State :=
  match completion m with
  | Normal st' => st'
  | Throw _ => st
  end.

Definition after (s : Session) (st' : FirebaseApp.State) : Session :=
  mkSession st'
    (if String.eqb (FirebaseApp.selectedDate st')
          (FirebaseApp.selectedDate (app s))
     then loadingLogs s else S (loadingLogs s))
    (loadingFoods s) (loadingGoals s).

Definition step (s : Session) (a : Action) : Session :=
  let st := app s in
  match a with
  | AddLog key now ok foodId quantity =>
      after s
        (settled (FirebaseApp.handleAddLog key now ok foodId quantity st) st)
  | DeleteLog logId ok =>
      after s (settled (FirebaseApp.handleDeleteLog logId ok st) st)
  | AddFood key ok foodData =>
      after s (settled (FirebaseApp.handleAddFood key ok foodData st) st)
  | EditFood id ok foodData =>
      after s (settled (FirebaseApp.handleEditFood id ok foodData st) st)
  | DeleteFood id ok =>
      after s (settled (FirebaseApp.handleDeleteFood id ok st) st)
  | SaveGoals newGoals ok =>
      after s (settled (FirebaseApp.onSave newGoals ok st) st)
  | GoToPreviousDay L => after s (FirebaseApp.goToPreviousDay L st)
  | GoToNextDay L => after s (FirebaseApp.goToNextDay L st)
  | GoToToday now => after s (FirebaseApp.goToToday now st)
  | LogsLoadSettles r =>
      match loadingLogs s with
      | O => s
      | S n =>
          mkSession (settled (FirebaseApp.loadLogs r st) st) n
            (loadingFoods s) (loadingGoals s)
      end
  | FoodsLoadSettles r =>
      if loadingFoods s
      then mkSession (settled (FirebaseApp.loadFoods r st) st)
             (loadingLogs s) false (loadingGoals s)
      else s
  | GoalsLoadSettles r =>
      if loadingGoals s
      then mkSession (settled (FirebaseApp.loadGoals r st) st)
             (loadingLogs s) (loadingFoods s) false
      else s
  end.

Definition run (acts : list Action) (s : Session) : Session :=
  fold_left step acts s.

Definition deletes (logId : string) (a : Action) : bool :=
  match a with
  | DeleteLog l _ => String.eqb logId l
  | _ => false
  end.

Definition reloads (a : Action) : bool :=
  match a with
  | LogsLoadSettles _ => true
  | _ => false
  end.

Definition adds (a : Action) : bool :=
  match a with
  | AddLog _ _ _ _ _ => true
  | _ => false
  end.

(** The action is a [handleAddLog] that creates the entry [e]. *)
Definition creates (a : Action) (e : FoodLog.t) : Prop :=
  match a with
  | AddLog key now ok foodId quantity =>
      exists st : FirebaseApp.State,
        completion (FirebaseApp.handleAddLog key now ok foodId quantity st)
        = Normal (FirebaseApp.setLogs (e :: FirebaseApp.logs st) st)
  | _ => False
  end.

(** The action is a load that settles with a snapshot holding [e]. *)
Definition brings (a : Action) (e : FoodLog.t) : Prop :=
  match a with
  | LogsLoadSettles (FirebaseLogsService.GetSnapshot (Some data)) =>
      In e (map (fun entry =>
                   FirebaseLogsService.withId (fst entry) (snd entry)) data)
  | _ => False
  end.

End FirebaseActions.

(** ** The words of the specification

    "Rounded to the nearest integer": [k] is nearest to the rational
    [num / den] (with [den] positive), a tie going up. *)
Definition nearestInteger (num den k : Z) : Prop :=
  (2 * k - 1) * den <= 2 * num < (2 * k + 1) * den.

(** The exact value of a finite number, as a fraction. *)
Definition fraction (s : bool) (m : positive) (e : Z) : Z * Z :=
  match e with
  | Zneg p => (cond_Zopp s (Zpos m), 2 ^ Zpos p)
  | _ => (cond_Zopp s (Zpos m) * 2 ^ e, 1)
  end.

(** [r] is [x] rounded to the nearest integer: the number that denotes
    the integer nearest to [x] when [x] is finite and not zero, and [x]
    itself otherwise. *)
Definition roundedToInteger (x r : JS.number) : Prop :=
  match x with
  | S754_finite s m e =>
      exists k : Z,
        nearestInteger (fst (fraction s m e)) (snd (fraction s m e)) k
        /\ r = binary_normalize JS.prec JS.emax k 0 s
  | _ => r = x
  end.

(** [r] is [x] rounded to one decimal place: a whole number of tenths,
    the one nearest to [x] as the program computes its tenfold. *)
Definition roundedToOneDecimal (x r : JS.number) : Prop :=
  exists tenths : JS.number,
    roundedToInteger (x * JS.of_Z 10)%js tenths
    /\ r = (tenths / JS.of_Z 10)%js.

(** The entry carries the food's values scaled by the quantity: calories
    rounded to an integer, the macros to one decimal place. *)
Definition scaledFrom (food : Food.t) (quantity : JS.number)
  (entry : FoodLog.t) : Prop :=
  FoodLog.quantity entry = quantity
  /\ FoodLog.foodName entry = Food.name food
  /\ roundedToInteger (Food.calories food * quantity)%js
       (FoodLog.calories entry)
  /\ roundedToOneDecimal (Food.protein food * quantity)%js
       (FoodLog.protein entry)
  /\ roundedToOneDecimal (Food.carbs food * quantity)%js
       (FoodLog.carbs entry)
  /\ roundedToOneDecimal (Food.fat food * quantity)%js
       (FoodLog.fat entry).

(** Every request of a trace. *)
Definition requests (es : list Effect) : list Request :=
  flat_map (fun e => match e with Fetch _ _ q => [q] | _ => [] end) es.

Definition isDailyWrite (q : Request) : bool :=
  match q with SaveDailyData _ _ _ => true | _ => false end.

(** The requests of a trace that write the entries of a day. *)
Definition dailyWrites (es : list Effect) : list Request :=
  filter isDailyWrite (requests es).

(** A load that brings no data: the request fails, the body of the
    response does not parse as JSON, it parses to [null], or it is an
    object that bears an [error]. *)
Inductive NoData : FetchResult -> Prop :=
| RequestFailed : NoData FetchRejected
| Unparsable : NoData (FetchResolved None)
| NullBody : NoData (FetchResolved (Some VNull))
| ErrorBearing (props : list (string * Value)) :
    Val.truthy (Val.lookup "error" props) = true ->
    NoData (FetchResolved (Some (VObj props))).

(** ** Bursts of renders

    The condition under which the sync effect schedules a write of the
    entries of [p]: the service is configured, the list is not empty,
    and its fingerprint is not the one stored last. *)
Definition wantsSync (w : World) (p : DailyTracker.Props) : bool :=
  GoogleSheetsService.isConfigured (service w)
  && negb (List.length (DailyTracker.logs p) =? 0)%nat
  && negb (DailyTracker.sameFingerprint
             (JSON_stringify (DailyTracker.logs p)) (lastSyncRef w)).

(** The three requests one run of the debounced callback sends. *)
Definition syncRequests (c : SyncClosure) : list Request :=
  let logs := c_logs c in
  [ SaveDailyData (c_currentDate c) logs (c_totals c);
    SaveDailySummary (c_currentDate c) (c_totals c) (c_goalCalories c)
      (c_caloriePercent c) (List.length logs);
    SaveStatistics (c_currentDate c)
      (reduceSum FoodLog.calories logs / lengthOf logs)%js
      (reduceSum FoodLog.protein logs / lengthOf logs)%js
      (reduceSum FoodLog.carbs logs / lengthOf logs)%js
      (reduceSum FoodLog.fat logs / lengthOf logs)%js 1%nat ].

(** Each event follows the previous one (at time [prev]) by less than
    the debounce window. *)
Fixpoint spaced {A : Type} (window prev : Z) (events : list (Z * A)) : Prop :=
  match events with
  | [] => True
  | e :: rest =>
      prev <= fst e < prev + window /\ spaced window (fst e) rest
  end.

(** The service, the stored fingerprint, the network and the effects
    are those of [w0]. *)
Definition sameSession (w0 w : World) : Prop :=
  service w = service w0 /\ lastSyncRef w = lastSyncRef w0
  /\ net w = net w0 /\ trace w = trace w0.

(** The dispatcher between two renders of a burst that started in [w0],
    after the render of [p] at time [t]: nothing has been sent, and one
    timer is pending for [p], due at [t + 500], exactly when the effect
    wanted a sync of [p]. *)
Definition Settled (w0 : World) (t : Z) (p : DailyTracker.Props) (w : World)
  : Prop :=
  sameSession w0 w
  /\ if wantsSync w0 p
     then exists id,
            timers w = [mkTimer id (t + 500) (SyncDailyJob (DailyTracker.closureOf p))]
            /\ syncTimeoutRef w = Some id /\ hasCleanup w = true
     else timers w = [] /\ hasCleanup w = false.

(** [syncFoods] is called with [foods] at time [t]. *)
Definition syncFoodsAt (w : World) (tf : Z * list Food.t) : World :=
  syncFoods (snd tf) (advance (fst tf) w).

Definition runFoods (calls : list (Z * list Food.t)) (w : World) : World :=
  fold_left syncFoodsAt calls w.

(** The world when DailyTracker mounts in the started App: the service
    is configured, nothing has been synced, no timer is pending. *)
Definition startWorld (network : Z -> Request -> FetchResult) : World :=
  mkWorld
    (GoogleSheetsService.initialize App.DEPLOYMENT_URL
       GoogleSheetsService.create)
    None None false 0 [] 1%positive network [].

(** The service between two calls of a burst of [syncFoods] that started
    in [w0], after the call with [foods] at time [t]: nothing has been
    sent, [foods] is the stored payload, and one timer is pending, due
    at [t + 1000]. *)
Definition SettledFoods (w0 : World) (t : Z) (foods : list Food.t)
  (w : World) : Prop :=
  trace w = trace w0 /\ net w = net w0
  /\ GoogleSheetsService.deploymentUrl (service w)
     = GoogleSheetsService.deploymentUrl (service w0)
  /\ GoogleSheetsService.lastFoodsPayload (service w) = Some foods
  /\ exists id,
       timers w = [mkTimer id (t + 1000) SyncFoodsJob]
       /\ GoogleSheetsService.syncFoodsTimeout (service w) = Some id.

(** ** More of the code

    The macro cards of DailyTracker, the catalogue effect of
    FoodManagement, the entry form, the goals modal, the id generator,
    the top list of Statistics and the tabs of the App. *)

(** *** MacroCard (components/DailyTracker.tsx) *)
Module MacroCard.

(** [Math.min((value / goal) * 100, 100)]. *)
Definition percent (value goal : JS.number) : JS.number :=
  JS.Math_min (value / goal * JS.of_Z 100)%js (JS.of_Z 100).

End MacroCard.

(** *** components/FoodManagement.tsx: the catalogue effect *)
Module FoodManagement.

(** [if (isConfigured() && foods.length > 0) syncFoods(foods)]. *)
Definition syncEffect (foods : list Food.t) (w : World) : World :=
  if GoogleSheetsService.isConfigured (service w)
     && (0 <? List.length foods)%nat
  then syncFoods foods w
  else w.

(** The component is rendered with a new [foods] at time [t]. *)
Definition renderAt (w : World) (tf : Z * list Food.t) : World :=
  syncEffect (snd tf) (advance (fst tf) w).

Definition run (events : list (Z * list Food.t)) (w : World) : World :=
  fold_left renderAt events w.

End FoodManagement.

(** *** components/FoodEntryForm.tsx: submitting the form *)
Module FoodEntryForm.

Record State := mk {
  foodInput : string;
  quantity : string;
  selectedFood : option Food.t;
  isAdding : bool;
  errors : option string
}.

(** [handleSubmit]: the state it sets, and the call
    [onAddLog(selectedFood.id, qty)] it schedules, if it schedules one.
    [parseFloat] is the runtime's. *)
Definition handleSubmit (parseFloat : string -> JS.number) (st : State)
  : State * option (string * JS.number) :=
  let cleared :=
    mk (foodInput st) (quantity st) (selectedFood st) (isAdding st) None in
  match selectedFood st with
  | None => (cleared, None)
  | Some food =>
      let qty := parseFloat (quantity st) in
      if negb (JS.truthy_string (quantity st)) || JS.le qty (JS.of_Z 0) then
        (mk (foodInput st) (quantity st) (selectedFood st) (isAdding st)
           (Some "Please enter a quantity greater than 0"),
         None)
      else
        (mk (foodInput st) (quantity st) (selectedFood st) true None,
         Some (Food.id food, qty))
  end.

End FoodEntryForm.

(** *** The goals modal (SettingsModal) *)
Module SettingsModal.

(** [Math.max(x, y)]: [NaN] when an operand is [NaN], and [+0] above
    [-0]. *)
Definition Math_max (x y : JS.number) : JS.number :=
  match SFcompare x y with
  | None => JS.NaN
  | Some Lt => y
  | Some Gt => x
  | Some Eq => match x with S754_zero false => x | _ => y end
  end.

(** The fields that [validateForm] marks. *)
Record Errors := mkErrors {
  e_calories : bool;
  e_protein : bool;
  e_carbs : bool;
  e_fat : bool
}.

Definition newErrors (formData : MacroGoals.t) : Errors :=
  mkErrors
    (JS.le (MacroGoals.calories formData) (JS.of_Z 0))
    (JS.lt (MacroGoals.protein formData) (JS.of_Z 0))
    (JS.lt (MacroGoals.carbs formData) (JS.of_Z 0))
    (JS.lt (MacroGoals.fat formData) (JS.of_Z 0)).

(** [Object.keys(newErrors).length === 0]. *)
Definition validateForm (formData : MacroGoals.t) : bool :=
  let e := newErrors formData in
  negb (e_calories e || e_protein e || e_carbs e || e_fat e).

(** [handleSave]: the calls of [googleSheetsService.updateSettings] it
    makes, in order, and the goals it hands to [onSave], if any. *)
Definition handleSave (formData : MacroGoals.t)
  : list (string * JS.number) * option MacroGoals.t :=
  if validateForm formData then
    ([ ("Daily Calories", MacroGoals.calories formData);
       ("Protein (g)", MacroGoals.protein formData);
       ("Carbs (g)", MacroGoals.carbs formData);
       ("Fat (g)", MacroGoals.fat formData) ],
     Some formData)
  else ([], None).

(** The [onChange] handlers: the typed number is clamped from below,
    [Math.max(0, Number(e.target.value))]. *)
Definition changeCalories (input : JS.number) (formData : MacroGoals.t)
  : MacroGoals.t :=
  MacroGoals.mk (Math_max (JS.of_Z 0) input) (MacroGoals.protein formData)
    (MacroGoals.carbs formData) (MacroGoals.fat formData).

Definition changeProtein (input : JS.number) (formData : MacroGoals.t)
  : MacroGoals.t :=
  MacroGoals.mk (MacroGoals.calories formData) (Math_max (JS.of_Z 0) input)
    (MacroGoals.carbs formData) (MacroGoals.fat formData).

Definition changeCarbs (input : JS.number) (formData : MacroGoals.t)
  : MacroGoals.t :=
  MacroGoals.mk (MacroGoals.calories formData) (MacroGoals.protein formData)
    (Math_max (JS.of_Z 0) input) (MacroGoals.fat formData).

Definition changeFat (input : JS.number) (formData : MacroGoals.t)
  : MacroGoals.t :=
  MacroGoals.mk (MacroGoals.calories formData) (MacroGoals.protein formData)
    (MacroGoals.carbs formData) (Math_max (JS.of_Z 0) input).

(** What the user does in the open modal. *)
Inductive Edit : Type :=
| Calories (input : JS.number)
| Protein (input : JS.number)
| Carbs (input : JS.number)
| Fat (input : JS.number)
| ResetDefaults.

Definition handleReset : MacroGoals.t :=
  MacroGoals.mk (JS.of_Z 2500) (JS.of_Z 150) (JS.of_Z 250) (JS.of_Z 80).

Definition edit (formData : MacroGoals.t) (e : Edit) : MacroGoals.t :=
  match e with
  | Calories input => changeCalories input formData
  | Protein input => changeProtein input formData
  | Carbs input => changeCarbs input formData
  | Fat input => changeFat input formData
  | ResetDefaults => handleReset
  end.

End SettingsModal.

(** *** utils/id.ts: [generateUUID] *)
Module Id.

Definition template : string := "xxxxxxxx-xxxx-4xxx-yxxx-xxxxxxxxxxxx".

(** [v.toString(16)] for [v] from 0 to 15. *)
Definition hexDigit (v : Z) : ascii :=
  if v <? 10 then ascii_of_nat (48 + Z.to_nat v)
  else ascii_of_nat (87 + Z.to_nat v).

(** The replacement function of [generateUUID] at the character [c],
    with [r] the value of [(Math.random() * 16) | 0]. *)
Definition replacement (c : ascii) (r : Z) : ascii :=
  let v := if Ascii.eqb c "x" then r else Z.lor (Z.land r 3) 8 in
  hexDigit v.

(** [s.replace(/[xy]/g, ...)]: every [x] and [y] is replaced, each with a
    draw of its own; [draw k] is the [k]-th value of
    [(Math.random() * 16) | 0], [k] counting from [next]. *)
Fixpoint replace (s : string) (draw : nat -> Z) (next : nat) : string :=
  match s with
  | EmptyString => EmptyString
  | String c rest =>
      if Ascii.eqb c "x" || Ascii.eqb c "y"
      then String (replacement c (draw next)) (replace rest draw (S next))
      else String c (replace rest draw next)
  end.

Definition generateUUID (draw : nat -> Z) : string :=
  replace template draw 0.

Definition isHex (c : ascii) : bool :=
  let n := nat_of_ascii c in
  ((48 <=? n) && (n <=? 57) || (97 <=? n) && (n <=? 102))%nat.

End Id.

(** *** The goals modal in the App

    The App renders the modal with [isOpen={settingsOpen}],
    [goals={goals}], [onClose={() => setSettingsOpen(false)}] and
    [onSave={(newGoals) => setGoals(newGoals)}]; the header button sets
    [settingsOpen].  The modal's effect on [[goals, isOpen]] copies the
    goals into the form whenever either changes, and a closed modal
    renders nothing, so no input can be edited then. *)
Module GoalsDialog.

Record State := mk {
  app : App.State;
  settingsOpen : bool;
  formData : MacroGoals.t
}.

Inductive Action : Type :=
| OpenSettings
| Change (e : SettingsModal.Edit)
| Save
| Close.

Definition start (st : App.State) : State := mk st false (App.goals st).

Definition step (s : State) (a : Action) : State :=
  match a with
  | OpenSettings =>
      if settingsOpen s then s else mk (app s) true (App.goals (app s))
  | Change e =>
      if settingsOpen s
      then mk (app s) true (SettingsModal.edit (formData s) e)
      else s
  | Save =>
      if settingsOpen s then
        match snd (SettingsModal.handleSave (formData s)) with
        | Some newGoals => mk (App.setGoals newGoals (app s)) false newGoals
        | None => s
        end
      else s
  | Close =>
      if settingsOpen s then mk (app s) false (App.goals (app s)) else s
  end.

Definition run (actions : list Action) (st : App.State) : State :=
  fold_left step actions (start st).

End GoalsDialog.

(** *** components/Statistics.tsx: the most logged foods *)
Module Statistics.

(** An element of [topFoods].  [count] starts at 1 and is incremented by
    one per entry: a natural number. *)
Record TopFood := mkTopFood {
  name : string;
  count : nat;
  calories : JS.number
}.

(** One step of the [reduce]: the first element of [acc] with the name
    of [log] is updated in place; without one, a new element is pushed. *)
Fixpoint tally (log : FoodLog.t) (acc : list TopFood) : list TopFood :=
  match acc with
  | [] => [mkTopFood (FoodLog.foodName log) 1 (FoodLog.calories log)]
  | f :: rest =>
      if String.eqb (name f) (FoodLog.foodName log)
      then mkTopFood (name f) (S (count f))
             (calories f + FoodLog.calories log)%js :: rest
      else f :: tally log rest
  end.

Definition grouped (logs : list FoodLog.t) : list TopFood :=
  fold_left (fun acc log => tally log acc) logs [].

(** [sort((a, b) => b.count - a.count)]: by count, the larger first; the
    sort is stable, so elements of equal count keep their order. *)
Fixpoint insertByCount (f : TopFood) (sorted : list TopFood) : list TopFood :=
  match sorted with
  | [] => [f]
  | g :: rest =>
      if (count g <=? count f)%nat then f :: sorted
      else g :: insertByCount f rest
  end.

Definition sortByCount (l : list TopFood) : list TopFood :=
  fold_right insertByCount [] l.

(** [.slice(0, 5)]. *)
Definition topFoods (logs : list FoodLog.t) : list TopFood :=
  firstn 5 (sortByCount (grouped logs)).

End Statistics.

(** *** The tabs of the App

    The App renders DailyTracker only while [activeTab === 'tracker'].
    Leaving the tab unmounts the component: the cleanup of its last sync
    effect runs, if there is one, and its two refs are gone; the next
    mount starts from [useRef(null)] and [useRef('')]. *)
Module Tabs.

Definition unmountTracker (w : World) : World :=
  let w1 := if hasCleanup w then DailyTracker.syncCleanup w else w in
  setHasCleanup false (setSyncTimeoutRef None (setLastSyncRef None w1)).

End Tabs.

(** ** More words for the properties *)

(** The macro goals are not negative. *)
Definition macrosNotNegative (g : MacroGoals.t) : Prop :=
  JS.lt (MacroGoals.protein g) (JS.of_Z 0) = false
  /\ JS.lt (MacroGoals.carbs g) (JS.of_Z 0) = false
  /\ JS.lt (MacroGoals.fat g) (JS.of_Z 0) = false.

(** Goals that [validateForm] accepts. *)
Definition validGoals (g : MacroGoals.t) : Prop :=
  JS.le (MacroGoals.calories g) (JS.of_Z 0) = false /\ macrosNotNegative g.

(** How many of the entries bear the food name [n]. *)
Definition timesLogged (n : string) (logs : list FoodLog.t) : nat :=
  List.length (filter (fun l => String.eqb (FoodLog.foodName l) n) logs).

(** The count a tally holds for the name [n]. *)
Definition countOf (n : string) (acc : list Statistics.TopFood) : nat :=
  match find (fun f => String.eqb (Statistics.name f) n) acc with
  | Some f => Statistics.count f
  | None => 0%nat
  end.

(** The elements are in descending order of count. *)
Definition byCountDescending : list Statistics.TopFood -> Prop :=
  StronglySorted
    (fun a b => (Statistics.count b <= Statistics.count a)%nat).

(* ===================================================================== *)
(** * Part II: the properties *)
(* ===================================================================== *)

(** ** Numbers *)

(** A number that is at most zero is not greater than zero. *)
Lemma le_zero_not_gt (x : JS.number) :
  JS.le x (JS.of_Z 0) = true -> JS.gt x (JS.of_Z 0) = false.
Proof.
  destruct x as [s | s | | s m e]; try destruct s; simpl; intros H;
    try reflexivity; discriminate H.
Qed.

(** [NaN] is not greater than zero either. *)
Lemma nan_not_gt : JS.gt JS.NaN (JS.of_Z 0) = false.
Proof. reflexivity. Qed.

Lemma IST_OFFSET_exact :
  Timezone.IST_OFFSET_number = JS.of_Z Timezone.IST_OFFSET.
Proof. vm_compute. reflexivity. Qed.

(** [Math.round] of a finite number is the nearest integer, a tie going
    up. *)
Lemma round_half_up_nearest (s : bool) (m : positive) (e : Z) :
  nearestInteger (fst (fraction s m e)) (snd (fraction s m e))
    (JS.round_half_up s m e).
Proof.
  unfold nearestInteger, fraction, JS.round_half_up.
  destruct e as [| p | p]; cbn [fst snd].
  - lia.
  - lia.
  - set (sm := cond_Zopp s (Z.pos m)).
    set (n := 2 ^ Z.pos p).
    assert (Hn : 0 < n) by (apply Z.pow_pos_nonneg; lia).
    pose proof (Z.div_mod (2 * sm + n) (2 * n) ltac:(lia)) as Hdm.
    pose proof (Z.mod_pos_bound (2 * sm + n) (2 * n) ltac:(lia)) as Hb.
    nia.
Qed.

Lemma Math_round_rounds (x : JS.number) :
  roundedToInteger x (JS.Math_round x).
Proof.
  destruct x as [s | s | | s m e]; simpl; try reflexivity.
  exists (JS.round_half_up s m e). split.
  - apply round_half_up_nearest.
  - reflexivity.
Qed.

(** [Math.round] at ties and around zero: 2.5 gives 3, -2.5 gives -2,
    0.2 gives 0 and -0.2 gives -0. *)
Example Math_round_ties :
  JS.Math_round (JS.dec 25 10) = JS.of_Z 3
  /\ JS.Math_round (JS.dec (-25) 10) = JS.of_Z (-2)
  /\ JS.Math_round (JS.dec 2 10) = S754_zero false
  /\ JS.Math_round (JS.dec (-2) 10) = S754_zero true
  /\ JS.Math_round JS.NaN = JS.NaN
  /\ JS.Math_round JS.Infinity = JS.Infinity.
Proof. repeat split; vm_compute; reflexivity. Qed.

Lemma round_tenths_rounds (x : JS.number) :
  roundedToOneDecimal x
    (JS.Math_round (x * JS.of_Z 10) / JS.of_Z 10)%js.
Proof.
  exists (JS.Math_round (x * JS.of_Z 10)%js). split.
  - apply Math_round_rounds.
  - reflexivity.
Qed.

(** ** The service *)

Section ServiceFacts.

Variable svc : GoogleSheetsService.t.

Lemma saveDailyData_unconfigured date foodLogs totals r :
  GoogleSheetsService.isConfigured svc = false ->
  GoogleSheetsService.saveDailyData svc date foodLogs totals r
  = (Normal false, [ConsoleWarn "Google Sheets URL not configured"]).
Proof.
  unfold GoogleSheetsService.isConfigured, GoogleSheetsService.saveDailyData.
  intros ->. reflexivity.
Qed.

Lemma loadDailyData_unconfigured date r :
  GoogleSheetsService.isConfigured svc = false ->
  GoogleSheetsService.loadDailyData svc date r
  = (Normal VNull, [ConsoleWarn "Google Sheets URL not configured"]).
Proof.
  unfold GoogleSheetsService.isConfigured, GoogleSheetsService.loadDailyData.
  intros ->. reflexivity.
Qed.

Hypothesis configured : GoogleSheetsService.isConfigured svc = true.

(** A configured [saveDailyData] always sends its request, and reports
    whether the request went through. *)
Lemma saveDailyData_configured date foodLogs totals r :
  GoogleSheetsService.saveDailyData svc date foodLogs totals r
  = (Normal (match r with FetchRejected => false | _ => true end),
     [ ConsoleLog "Syncing daily data:";
       Fetch (GoogleSheetsService.deploymentUrl svc)
         GoogleSheetsService.SHEET_AUTH_TOKEN
         (SaveDailyData date foodLogs totals);
       match r with
       | FetchRejected => ConsoleError "Error saving to Google Sheets:"
       | _ => ConsoleLog "Daily data synced"
       end ]).
Proof.
  unfold GoogleSheetsService.saveDailyData.
  unfold GoogleSheetsService.isConfigured in configured.
  rewrite configured. destruct r; reflexivity.
Qed.

Lemma saveDailySummary_configured date totals goal percent count r :
  GoogleSheetsService.saveDailySummary svc date totals goal percent count r
  = (Normal (match r with FetchRejected => false | _ => true end),
     [ Fetch (GoogleSheetsService.deploymentUrl svc)
         GoogleSheetsService.SHEET_AUTH_TOKEN
         (SaveDailySummary date totals goal percent count);
       match r with
       | FetchRejected => ConsoleError "Error saving daily summary:"
       | _ => ConsoleLog "Daily summary synced"
       end ]).
Proof.
  unfold GoogleSheetsService.saveDailySummary.
  unfold GoogleSheetsService.isConfigured in configured.
  rewrite configured. destruct r; reflexivity.
Qed.

Lemma saveStatistics_configured date c p cb f days r :
  GoogleSheetsService.saveStatistics svc date c p cb f days r
  = (Normal (match r with FetchRejected => false | _ => true end),
     [ Fetch (GoogleSheetsService.deploymentUrl svc)
         GoogleSheetsService.SHEET_AUTH_TOKEN
         (SaveStatistics date c p cb f days);
       match r with
       | FetchRejected => ConsoleError "Error saving statistics:"
       | _ => ConsoleLog "Statistics synced"
       end ]).
Proof.
  unfold GoogleSheetsService.saveStatistics.
  unfold GoogleSheetsService.isConfigured in configured.
  rewrite configured. destruct r; reflexivity.
Qed.

End ServiceFacts.

(** ** The calorie percentage and a goal of zero *)

(** The percentage [handleDeleteLog] computes is guarded: it is 0 for
    every goal that is zero or negative, and for a goal that is [NaN]. *)
Lemma deleteCaloriePercent_guarded totals goals :
  JS.le (MacroGoals.calories goals) (JS.of_Z 0) = true
  \/ MacroGoals.calories goals = JS.NaN ->
  App.deleteCaloriePercent totals goals = JS.of_Z 0.
Proof.
  intros [H | H]; unfold App.deleteCaloriePercent.
  - rewrite (le_zero_not_gt _ H). reflexivity.
  - rewrite H, nan_not_gt. reflexivity.
Qed.

(** C1 (a defect of the code): with a calorie goal of zero, the
    percentage DailyTracker computes, shows and sends with the daily
    summary is not 0.  It is [NaN] on a day without entries and 100 on a
    day with one 165 kcal entry, where the guarded computation of
    [handleDeleteLog] gives 0 on the same inputs. *)
Theorem caloriePercent_zero_goal_unguarded :
  let goals := MacroGoals.mk (JS.of_Z 0) (JS.of_Z 150) (JS.of_Z 250)
                 (JS.of_Z 80) in
  let entry := FoodLog.mk "a" "1" "Chicken Breast" (JS.of_Z 1) (JS.of_Z 165)
                 (JS.of_Z 31) (JS.of_Z 0) (JS.dec 36 10) 1735758000000 in
  JS.le (MacroGoals.calories goals) (JS.of_Z 0) = true
  /\ DailyTracker.caloriePercent (DailyTracker.mkProps [] goals "2025-01-01")
     = JS.NaN
  /\ DailyTracker.caloriePercent
       (DailyTracker.mkProps [entry] goals "2025-01-01")
     = JS.of_Z 100
  /\ App.deleteCaloriePercent (reduceTotals []) goals = JS.of_Z 0
  /\ App.deleteCaloriePercent (reduceTotals [entry]) goals = JS.of_Z 0.
Proof.
  cbv zeta. repeat split; vm_compute; reflexivity.
Qed.

(** ** The scenario of the specification *)

(** C2: with the default goals (2500, 150, 250, 80), logging quantity 1
    of the food (165, 31, 0, 3.6) and then quantity 2 of the food
    (130, 2.7, 28, 0.3) gives the totals 425, 36.4, 56 and 4.2, 17 per
    cent of the calorie goal, and no "over goal" flag, whatever the ids
    and the times of the two entries. *)
Theorem scenario_two_entries_aggregate :
  forall (uuid1 uuid2 : string) (t1 t2 now timezoneOffset : Z),
    let st0 := App.mount now timezoneOffset in
    let st1 := App.handleAddLog uuid1 t1 "1" (JS.of_Z 1) st0 in
    let st2 := App.handleAddLog uuid2 t2 "2" (JS.of_Z 2) st1 in
    let p := DailyTracker.mkProps (App.logs st2) (App.goals st2)
               (App.selectedDate st2) in
    App.goals st2
    = MacroGoals.mk (JS.of_Z 2500) (JS.of_Z 150) (JS.of_Z 250) (JS.of_Z 80)
    /\ List.length (App.logs st2) = 2%nat
    /\ DailyTracker.totals p
       = DailyMacros.mk (JS.of_Z 425) (JS.dec 364 10) (JS.of_Z 56)
           (JS.dec 42 10)
    /\ DailyTracker.caloriePercent p = JS.of_Z 17
    /\ DailyTracker.isOverGoal p = false.
Proof.
  intros. repeat split; vm_compute; reflexivity.
Qed.

(** ** Entries are scaled at creation and frozen afterwards *)

(** How a bound computation and a [try] complete normally. *)
Lemma bind_normal {A B : Type} (m : Eff A) (f : A -> Eff B) (b : B) :
  completion (bind m f) = Normal b ->
  exists a, completion m = Normal a /\ completion (f a) = Normal b.
Proof.
  unfold bind, completion. destruct m as [[a | e] t]; cbn.
  - destruct (f a) as [r t'] eqn:Hf. cbn. intros ->. exists a. now rewrite Hf.
  - discriminate.
Qed.

Lemma try_catch_normal {A : Type} (body : Eff A) (h : Exn -> Eff A) (a : A) :
  completion (try_catch body h) = Normal a ->
  completion body = Normal a
  \/ exists e, completion body = Throw e /\ completion (h e) = Normal a.
Proof.
  unfold try_catch, completion. destruct body as [[x | e] t]; cbn.
  - intros ->. now left.
  - destruct (h e) as [r t'] eqn:Hh. cbn. intros ->. right. exists e.
    now rewrite Hh.
Qed.

Lemma convertLog_imported (B : App.Builtins) (now : Z) (row : Value)
  (l : FoodLog.t) :
  completion (App.convertLog B now row) = Normal (Some l) ->
  FoodLog.foodId l = "imported".
Proof.
  unfold App.convertLog. intros H.
  repeat (apply bind_normal in H; destruct H as (? & _ & H)).
  cbn in H. injection H as H.
  repeat match type of H with
         | match ?x with _ => _ end = _ => destruct x; try discriminate H
         end.
  injection H as <-. reflexivity.
Qed.

Lemma convertLogs_imported (B : App.Builtins) (now : Z) (rows : list Value) :
  forall ls,
    completion (App.convertLogs B now rows) = Normal (Some ls) ->
    List.length ls = List.length rows
    /\ Forall (fun l => FoodLog.foodId l = "imported") ls.
Proof.
  induction rows as [| row rows IH]; intros ls H.
  - cbn in H. injection H as <-. split; [reflexivity | constructor].
  - cbn [App.convertLogs] in H.
    apply bind_normal in H. destruct H as (log & Hlog & H).
    apply bind_normal in H. destruct H as (logs & Hlogs & H).
    cbn in H. injection H as H.
    destruct log as [l |]; [| discriminate H].
    destruct logs as [ls' |]; [| discriminate H].
    injection H as <-. destruct (IH ls' Hlogs) as (Hlen & Hall).
    split; [cbn; now rewrite Hlen |].
    constructor; [eapply convertLog_imported; eauto | exact Hall].
Qed.

(** All a load of the spreadsheet App sets is the entry list, and the
    entries it sets are rows of the sheet: each bears the food id
    "imported". *)
Lemma loadFromSheets_result (B : App.Builtins) (now : Z) (r : FetchResult)
  (st st' : App.State) :
  completion (App.loadFromSheets B now r st) = Normal (Some st') ->
  st' = st
  \/ exists ls, st' = App.setLogs ls st
                /\ Forall (fun l => FoodLog.foodId l = "imported") ls.
Proof.
  intros H. unfold App.loadFromSheets in H.
  destruct (negb (GoogleSheetsService.isConfigured (App.sheets st))).
  { cbn in H. injection H as <-. now left. }
  apply try_catch_normal in H. destruct H as [H | (e & _ & H)].
  2:{ cbn in H. injection H as <-. now left. }
  apply bind_normal in H. destruct H as (data & _ & H).
  apply bind_normal in H. destruct H as (some & _ & H).
  destruct some.
  - apply bind_normal in H. destruct H as (_ & _ & H).
    apply bind_normal in H. destruct H as (foodLogs & _ & H).
    apply bind_normal in H. destruct H as (converted & Hconv & H).
    destruct converted as [ls |]; [| discriminate H].
    apply bind_normal in H. destruct H as (_ & _ & H).
    cbn in H. injection H as <-. right. exists ls. split; [reflexivity |].
    unfold App.mapFoodLogs in Hconv.
    destruct foodLogs; try discriminate Hconv.
    eapply convertLogs_imported; eauto.
  - apply bind_normal in H. destruct H as (_ & _ & H).
    cbn in H. injection H as <-. right. exists []. split; [reflexivity |].
    constructor.
Qed.

(** An event of the spreadsheet App that is no settled load yields a
    session, and the entries it leaves are the entries there were, less
    those a delete removes, with the entry an add puts in front. *)
Lemma step_logs (s : Actions.Session) (a : Actions.Action) :
  Actions.reloads a = false ->
  exists s',
    Actions.step s a = Some s'
    /\ (App.logs (Actions.app s') = App.logs (Actions.app s)
        \/ (exists logId r1 r2 r3,
              a = Actions.DeleteLog logId r1 r2 r3
              /\ App.logs (Actions.app s')
                 = filter (fun l => negb (String.eqb (FoodLog.id l) logId))
                     (App.logs (Actions.app s)))
        \/ (exists uuid now foodId quantity entry,
              a = Actions.AddLog uuid now foodId quantity
              /\ App.logs (Actions.app s')
                 = entry :: App.logs (Actions.app s)
              /\ Actions.creates a entry)).
Proof.
  intros Hr. destruct a; try discriminate Hr; cbn [Actions.step];
    eexists; (split; [reflexivity |]); cbn [Actions.after Actions.app].
  - destruct (find (fun f => String.eqb (Food.id f) foodId)
                (App.foods (Actions.app s))) as [food |] eqn:Hfind.
    + right. right. do 4 eexists.
      unfold App.handleAddLog at 1. rewrite Hfind. eexists.
      split; [reflexivity |]. split; [reflexivity |].
      exists (Actions.app s). unfold App.handleAddLog. rewrite Hfind.
      reflexivity.
    + left. unfold App.handleAddLog. rewrite Hfind. reflexivity.
  - right. left. repeat eexists.
  - now left.
  - now left.
  - now left.
  - now left.
  - left. unfold App.goToPreviousDay, App.goToDay.
    destruct (LocalTime.shifted _ _ _); reflexivity.
  - left. unfold App.goToNextDay, App.goToDay.
    destruct (LocalTime.shifted _ _ _); reflexivity.
  - now left.
Qed.

Lemma step_keeps_entry (s : Actions.Session) (a : Actions.Action)
  (e : FoodLog.t) :
  In e (App.logs (Actions.app s)) ->
  Actions.deletes (FoodLog.id e) a = false ->
  Actions.reloads a = false ->
  exists s', Actions.step s a = Some s' /\ In e (App.logs (Actions.app s')).
Proof.
  intros Hin Hdel Hr.
  destruct (step_logs s a Hr) as (s' & Hs & Hl). exists s'.
  split; [exact Hs |].
  destruct Hl as [-> | [(logId & r1 & r2 & r3 & -> & ->)
                        | (uuid & now & foodId & q & entry & _ & -> & _)]].
  - exact Hin.
  - apply filter_In. split; [exact Hin |]. cbn in Hdel. now rewrite Hdel.
  - now right.
Qed.

Lemma steps_keep_entry (acts : list Actions.Action) :
  forall (s : Actions.Session) (e : FoodLog.t),
    In e (App.logs (Actions.app s)) ->
    forallb (fun a => negb (Actions.deletes (FoodLog.id e) a)
                      && negb (Actions.reloads a)) acts = true ->
    exists s', Actions.run acts s = Some s'
               /\ In e (App.logs (Actions.app s')).
Proof.
  induction acts as [| a acts IH]; intros s e Hin Hall; cbn in *.
  - eauto.
  - apply andb_prop in Hall as [Ha Hrest].
    apply andb_prop in Ha as [Hd Hr].
    apply negb_true_iff in Hd. apply negb_true_iff in Hr.
    destruct (step_keeps_entry s a e Hin Hd Hr) as (s1 & -> & Hin1).
    now apply IH.
Qed.

(** Events that neither add an entry nor settle a load leave no entry
    in the store that was not there. *)
Lemma steps_invent_nothing (acts : list Actions.Action) :
  forall s : Actions.Session,
    forallb (fun a => negb (Actions.adds a) && negb (Actions.reloads a))
      acts = true ->
    exists s', Actions.run acts s = Some s'
               /\ incl (App.logs (Actions.app s')) (App.logs (Actions.app s)).
Proof.
  induction acts as [| a acts IH]; intros s Hall; cbn in *.
  - exists s. split; [reflexivity | apply incl_refl].
  - apply andb_prop in Hall as [Ha Hrest].
    apply andb_prop in Ha as [Hadd Hr].
    apply negb_true_iff in Hadd. apply negb_true_iff in Hr.
    destruct (step_logs s a Hr) as (s1 & -> & Hl).
    destruct (IH s1 Hrest) as (s' & Hrun & Hincl).
    exists s'. split; [exact Hrun |].
    eapply incl_tran; [exact Hincl |].
    destruct Hl as [-> | [(logId & r1 & r2 & r3 & _ & ->)
                          | (uuid & now & foodId & q & entry & -> & _)]].
    + apply incl_refl.
    + intros x Hx. apply filter_In in Hx. tauto.
    + discriminate Hadd.
Qed.

(** Where the entries of the store come from: after any events, settled
    loads included, an entry of the store was in the store before, or
    is a row of the sheet, or was created by an add among the events. *)
Lemma step_origin (s s' : Actions.Session) (a : Actions.Action)
  (e : FoodLog.t) :
  Actions.step s a = Some s' ->
  In e (App.logs (Actions.app s')) ->
  In e (App.logs (Actions.app s))
  \/ FoodLog.foodId e = "imported"
  \/ Actions.creates a e.
Proof.
  intros Hstep Hin.
  destruct (Actions.reloads a) eqn:Hr.
  - destruct a as [| | | | | | | | | B tnow r]; try discriminate Hr.
    cbn [Actions.step] in Hstep.
    destruct (Actions.loading s); [injection Hstep as <-; now left |].
    destruct (completion (App.loadFromSheets B tnow r (Actions.app s)))
      as [[st' |] | x] eqn:Hload; try discriminate Hstep.
    + injection Hstep as <-. cbn [Actions.app] in Hin.
      destruct (loadFromSheets_result _ _ _ _ _ Hload)
        as [-> | (ls & -> & Hall)]; [now left |].
      right. left. rewrite Forall_forall in Hall. now apply Hall.
    + injection Hstep as <-. now left.
  - destruct (step_logs s a Hr) as (s1 & Hs1 & Hl).
    rewrite Hstep in Hs1. injection Hs1 as <-.
    destruct Hl as [Hl | [(logId & r1 & r2 & r3 & _ & Hl)
                          | (uuid & now & foodId & q & entry & _ & Hl & Hc)]];
      rewrite Hl in Hin.
    + now left.
    + apply filter_In in Hin. left. tauto.
    + destruct Hin as [<- | Hin]; [right; right; exact Hc | now left].
Qed.

Lemma steps_origin (acts : list Actions.Action) :
  forall (s s' : Actions.Session) (e : FoodLog.t),
    Actions.run acts s = Some s' ->
    In e (App.logs (Actions.app s')) ->
    In e (App.logs (Actions.app s))
    \/ FoodLog.foodId e = "imported"
    \/ exists a, In a acts /\ Actions.creates a e.
Proof.
  induction acts as [| a acts IH]; intros s s' e Hrun Hin; cbn in Hrun.
  - injection Hrun as <-. now left.
  - destruct (Actions.step s a) as [s1 |] eqn:Hstep; [| discriminate].
    destruct (IH s1 s' e Hrun Hin) as [H | [H | (a' & Ha' & Hc)]].
    + destruct (step_origin s s1 a e Hstep H) as [H1 | [H1 | H1]].
      * now left.
      * right. now left.
      * right. right. exists a. split; [now left | exact H1].
    + right. now left.
    + right. right. exists a'. split; [now right | exact Hc].
Qed.

(** The same for the Firebase App. *)
Lemma firebase_step_logs (s : FirebaseActions.Session)
  (a : FirebaseActions.Action) :
  FirebaseActions.reloads a = false ->
  let s' := FirebaseActions.step s a in
  FirebaseApp.logs (FirebaseActions.app s')
  = FirebaseApp.logs (FirebaseActions.app s)
  \/ (exists logId ok,
        a = FirebaseActions.DeleteLog logId ok
        /\ FirebaseApp.logs (FirebaseActions.app s')
           = filter (fun l => negb (String.eqb (FoodLog.id l) logId))
               (FirebaseApp.logs (FirebaseActions.app s)))
  \/ (exists key now ok foodId quantity entry,
        a = FirebaseActions.AddLog key now ok foodId quantity
        /\ FirebaseApp.logs (FirebaseActions.app s')
           = entry :: FirebaseApp.logs (FirebaseActions.app s)
        /\ FirebaseActions.creates a entry).
Proof.
  intros Hr. cbv zeta.
  destruct a; try discriminate Hr; cbn [FirebaseActions.step];
    cbn [FirebaseActions.after FirebaseActions.app].
  - destruct (find (fun f => String.eqb (Food.id f) foodId)
                (FirebaseApp.foods (FirebaseActions.app s)))
      as [food |] eqn:Hfind.
    + destruct ok.
      * right. right. do 5 eexists.
        unfold FirebaseApp.handleAddLog at 1. rewrite Hfind. eexists.
        split; [reflexivity |]. split; [reflexivity |].
        exists (FirebaseActions.app s). unfold FirebaseApp.handleAddLog.
        rewrite Hfind. reflexivity.
      * left. unfold FirebaseApp.handleAddLog. rewrite Hfind. reflexivity.
    + left. unfold FirebaseApp.handleAddLog. rewrite Hfind. reflexivity.
  - destruct ok; [| now left]. right. left. repeat eexists.
  - left. destruct ok; reflexivity.
  - left. destruct ok; reflexivity.
  - left. destruct ok; reflexivity.
  - left. destruct ok; reflexivity.
  - left. unfold FirebaseApp.goToPreviousDay, FirebaseApp.goToDay.
    destruct (LocalTime.shifted _ _ _); reflexivity.
  - left. unfold FirebaseApp.goToNextDay, FirebaseApp.goToDay.
    destruct (LocalTime.shifted _ _ _); reflexivity.
  - now left.
  - left. destruct (FirebaseActions.loadingFoods s); [| reflexivity].
    destruct r as [| [data |]]; reflexivity.
  - left. destruct (FirebaseActions.loadingGoals s); [| reflexivity].
    destruct r as [| [g |]]; reflexivity.
Qed.

Lemma firebase_steps_keep_entry (acts : list FirebaseActions.Action) :
  forall (s : FirebaseActions.Session) (e : FoodLog.t),
    In e (FirebaseApp.logs (FirebaseActions.app s)) ->
    forallb (fun a => negb (FirebaseActions.deletes (FoodLog.id e) a)
                      && negb (FirebaseActions.reloads a)) acts = true ->
    In e (FirebaseApp.logs
            (FirebaseActions.app (FirebaseActions.run acts s))).
Proof.
  induction acts as [| a acts IH]; intros s e Hin Hall; cbn in *.
  - exact Hin.
  - apply andb_prop in Hall as [Ha Hrest].
    apply andb_prop in Ha as [Hd Hr].
    apply negb_true_iff in Hd. apply negb_true_iff in Hr.
    apply IH; [| exact Hrest].
    destruct (firebase_step_logs s a Hr)
      as [-> | [(logId & ok & -> & ->)
               | (key & now & ok & foodId & q & entry & _ & -> & _)]].
    + exact Hin.
    + apply filter_In. split; [exact Hin |]. cbn in Hd. now rewrite Hd.
    + now right.
Qed.

Lemma firebase_steps_invent_nothing (acts : list FirebaseActions.Action) :
  forall s : FirebaseActions.Session,
    forallb (fun a => negb (FirebaseActions.adds a)
                      && negb (FirebaseActions.reloads a)) acts = true ->
    incl (FirebaseApp.logs (FirebaseActions.app (FirebaseActions.run acts s)))
      (FirebaseApp.logs (FirebaseActions.app s)).
Proof.
  induction acts as [| a acts IH]; intros s Hall; cbn in *.
  - apply incl_refl.
  - apply andb_prop in Hall as [Ha Hrest].
    apply andb_prop in Ha as [Hadd Hr].
    apply negb_true_iff in Hadd. apply negb_true_iff in Hr.
    eapply incl_tran; [apply IH, Hrest |].
    destruct (firebase_step_logs s a Hr)
      as [-> | [(logId & ok & _ & ->)
               | (key & now & ok & foodId & q & entry & -> & _)]].
    + apply incl_refl.
    + intros x Hx. apply filter_In in Hx. tauto.
    + discriminate Hadd.
Qed.

Lemma firebase_step_origin (s : FirebaseActions.Session)
  (a : FirebaseActions.Action) (e : FoodLog.t) :
  In e (FirebaseApp.logs (FirebaseActions.app (FirebaseActions.step s a))) ->
  In e (FirebaseApp.logs (FirebaseActions.app s))
  \/ FirebaseActions.brings a e
  \/ FirebaseActions.creates a e.
Proof.
  intros Hin.
  destruct (FirebaseActions.reloads a) eqn:Hr.
  - destruct a; try discriminate Hr. cbn [FirebaseActions.step] in Hin.
    destruct (FirebaseActions.loadingLogs s); [now left |].
    destruct r as [| [data |]]; cbn in Hin; try contradiction.
    right. left. exact Hin.
  - destruct (firebase_step_logs s a Hr)
      as [Hl | [(logId & ok & _ & Hl)
               | (key & now & ok & foodId & q & entry & _ & Hl & Hc)]];
      rewrite Hl in Hin.
    + now left.
    + apply filter_In in Hin. left. tauto.
    + destruct Hin as [<- | Hin]; [right; right; exact Hc | now left].
Qed.

Lemma firebase_steps_origin (acts : list FirebaseActions.Action) :
  forall (s : FirebaseActions.Session) (e : FoodLog.t),
    In e (FirebaseApp.logs
            (FirebaseActions.app (FirebaseActions.run acts s))) ->
    In e (FirebaseApp.logs (FirebaseActions.app s))
    \/ exists a, In a acts
                 /\ (FirebaseActions.brings a e
                     \/ FirebaseActions.creates a e).
Proof.
  induction acts as [| a acts IH]; intros s e Hin; cbn in Hin.
  - now left.
  - destruct (IH _ e Hin) as [H | (a' & Ha' & Hc)].
    + destruct (firebase_step_origin s a e H) as [H1 | H1].
      * now left.
      * right. exists a. split; [now left | exact H1].
    + right. exists a'. split; [now right | exact Hc].
Qed.

Lemma sheets_handleAddLog_scaled (st : App.State) uuid now foodId quantity
  food :
  find (fun f => String.eqb (Food.id f) foodId) (App.foods st) = Some food ->
  exists entry,
    App.logs (App.handleAddLog uuid now foodId quantity st)
    = entry :: App.logs st
    /\ FoodLog.id entry = uuid
    /\ scaledFrom food quantity entry.
Proof.
  intros Hfind. unfold App.handleAddLog. rewrite Hfind.
  eexists. split; [reflexivity |]. split; [reflexivity |].
  unfold scaledFrom; cbn [FoodLog.quantity FoodLog.foodName FoodLog.calories
    FoodLog.protein FoodLog.carbs FoodLog.fat].
  repeat split;
    first [apply Math_round_rounds | apply round_tenths_rounds].
Qed.

Lemma firebase_handleAddLog_scaled (st : FirebaseApp.State) key now foodId
  quantity food :
  find (fun f => String.eqb (Food.id f) foodId) (FirebaseApp.foods st)
  = Some food ->
  exists entry,
    completion (FirebaseApp.handleAddLog key now true foodId quantity st)
    = Normal (FirebaseApp.setLogs (entry :: FirebaseApp.logs st) st)
    /\ FoodLog.id entry = key
    /\ scaledFrom food quantity entry.
Proof.
  intros Hfind. unfold FirebaseApp.handleAddLog. rewrite Hfind.
  eexists. split; [reflexivity |]. split; [reflexivity |].
  unfold scaledFrom, FirebaseLogsService.withId;
    cbn [FoodLog.quantity FoodLog.foodName FoodLog.calories
         FoodLog.protein FoodLog.carbs FoodLog.fat
         FirebaseLogsService.quantity FirebaseLogsService.foodName
         FirebaseLogsService.calories FirebaseLogsService.protein
         FirebaseLogsService.carbs FirebaseLogsService.fat].
  repeat split;
    first [apply Math_round_rounds | apply round_tenths_rounds].
Qed.



(** The entry of that witness, computed: 412.5 kcal rounds up to 413,
    77.5 g of protein and 9 g of fat; the food is then edited and
    deleted, the goals are saved, and the previous day and then today
    are selected (one more load starts) while the load of the first
    date is still in flight: the entry is in the store as it was. *)
Example handleAddLog_chicken_2_5 :
  let entry := FoodLog.mk "u" "1" "Chicken Breast" (JS.dec 25 10)
                 (JS.of_Z 413) (JS.dec 775 10) (JS.of_Z 0) (JS.of_Z 9)
                 1735758000000 in
  let s := Actions.mkSession
             (App.handleAddLog "u" 1735758000000 "1" (JS.dec 25 10)
                (App.mount 1735758000000 0)) 1 in
  let utc := LocalTime.mk (fun _ => Some 1735776000000)
               (fun ms k => ms + k * 86400000) in
  let acts := [ Actions.EditFood "1"
                  (App.mkFoodData "Chicken" (JS.of_Z 100) (JS.of_Z 20)
                     (JS.of_Z 0) (JS.of_Z 2));
                Actions.DeleteFood "1";
                Actions.SaveGoals App.DEFAULT_GOALS;
                Actions.GoToPreviousDay utc;
                Actions.GoToToday 1735758000000 ] in
  App.logs (Actions.app s) = [entry]
  /\ exists s', Actions.run acts s = Some s'
                /\ App.logs (Actions.app s') = [entry]
                /\ Actions.loading s' = 2%nat.
Proof.
  cbv zeta. split; [vm_compute; reflexivity |].
  eexists. split; [vm_compute; reflexivity |].
  split; reflexivity.
Qed.

(** For contrast, the one event that takes the entry away without a
    delete: the previous day is selected, and the load this starts
    settles with a response that is no JSON; the store is empty. *)
Example settled_load_replaces_the_store :
  let s := Actions.mkSession
             (App.handleAddLog "u" 1735758000000 "1" (JS.dec 25 10)
                (App.mount 1735758000000 0)) 0 in
  let utc := LocalTime.mk (fun _ => Some 1735776000000)
               (fun ms k => ms + k * 86400000) in
  let B := App.mkBuiltins (fun _ => JS.NaN) (fun _ => None) in
  exists s',
    Actions.run
      [ Actions.GoToPreviousDay utc;
        Actions.LoadSettles B 1735758001000 (FetchResolved None) ] s
    = Some s'
    /\ App.selectedDate (Actions.app s') = "2025-01-01"
    /\ App.logs (Actions.app s') = []
    /\ Actions.loading s' = 0%nat.
Proof.
  cbv zeta. eexists. split; [vm_compute; reflexivity |].
  repeat split.
Qed.

(** ** Deleting the last entries of a day *)

(** No event touches the service: in the started App it stays
    configured with the deployment URL. *)
Lemma started_app_is_configured (now timezoneOffset : Z)
  (acts : list Actions.Action) (s' : Actions.Session) :
  Actions.run acts (Actions.start now timezoneOffset) = Some s' ->
  GoogleSheetsService.isConfigured (App.sheets (Actions.app s')) = true.
Proof.
  assert (H : forall s s1,
             Actions.run acts s = Some s1 ->
             App.sheets (Actions.app s1) = App.sheets (Actions.app s)).
  { induction acts as [| a acts IH]; intros s s1 Hrun; cbn in Hrun.
    - now injection Hrun as <-.
    - destruct (Actions.step s a) as [s2 |] eqn:Hstep; [| discriminate].
      rewrite (IH _ _ Hrun). clear IH Hrun.
      destruct a; cbn [Actions.step] in Hstep;
        try (injection Hstep as <-; cbn [Actions.after Actions.app]).
      + unfold App.handleAddLog.
        destruct (find _ (App.foods (Actions.app s))); reflexivity.
      + reflexivity.
      + reflexivity.
      + reflexivity.
      + reflexivity.
      + reflexivity.
      + unfold App.goToPreviousDay, App.goToDay.
        destruct (LocalTime.shifted _ _ _); reflexivity.
      + unfold App.goToNextDay, App.goToDay.
        destruct (LocalTime.shifted _ _ _); reflexivity.
      + reflexivity.
      + destruct (Actions.loading s); [now injection Hstep as <- |].
        destruct (completion (App.loadFromSheets B now0 r (Actions.app s)))
          as [[st' |] | e] eqn:Hload; try discriminate Hstep.
        * injection Hstep as <-. cbn [Actions.app].
          destruct (loadFromSheets_result _ _ _ _ _ Hload)
            as [-> | (ls & -> & _)]; reflexivity.
        * now injection Hstep as <-. }
  intros Hrun. rewrite (H _ _ Hrun). reflexivity.
Qed.

Lemma handleDeleteLog_writes (st : App.State) logId r1 r2 r3 :
  GoogleSheetsService.isConfigured (App.sheets st) = true ->
  let updatedLogs :=
    filter (fun l => negb (String.eqb (FoodLog.id l) logId)) (App.logs st) in
  dailyWrites (effects (snd (App.handleDeleteLog logId r1 r2 r3 st)))
  = [SaveDailyData (App.selectedDate st) updatedLogs
       (reduceTotals updatedLogs)].
Proof.
  intros Hc updatedLogs. unfold App.handleDeleteLog. cbn [snd].
  fold updatedLogs.
  rewrite (saveDailyData_configured _ Hc).
  unfold bind at 1.
  rewrite (saveDailySummary_configured _ Hc).
  unfold bind at 1.
  rewrite (saveStatistics_configured _ Hc).
  destruct r1, r2, r3; reflexivity.
Qed.

Lemma handleDeleteLog_fetches (st : App.State) logId r1 r2 r3 :
  GoogleSheetsService.isConfigured (App.sheets st) = true ->
  let updatedLogs :=
    filter (fun l => negb (String.eqb (FoodLog.id l) logId)) (App.logs st) in
  In (Fetch (GoogleSheetsService.deploymentUrl (App.sheets st))
        GoogleSheetsService.SHEET_AUTH_TOKEN
        (SaveDailyData (App.selectedDate st) updatedLogs
           (reduceTotals updatedLogs)))
     (effects (snd (App.handleDeleteLog logId r1 r2 r3 st))).
Proof.
  intros Hc updatedLogs. unfold App.handleDeleteLog. cbn [snd].
  fold updatedLogs.
  rewrite (saveDailyData_configured _ Hc).
  unfold bind at 1.
  rewrite (saveDailySummary_configured _ Hc).
  unfold bind at 1.
  rewrite (saveStatistics_configured _ Hc).
  destruct r1, r2, r3; cbn; auto.
Qed.

Lemma handleDeleteLog_logs (st : App.State) logId r1 r2 r3 :
  App.logs (fst (App.handleDeleteLog logId r1 r2 r3 st))
  = filter (fun l => negb (String.eqb (FoodLog.id l) logId)) (App.logs st).
Proof. reflexivity. Qed.

(** C6: deleting the only two entries of a day, one after the other,
    leaves the entry list empty with totals of zero, and the second
    deletion sends exactly one daily write, whose entries are the empty
    list and whose totals are zero: the write is made, not skipped.
    (The service is configured, as it is once the App has started.) *)
Theorem delete_last_two_entries_writes_empty :
  forall (st : App.State) (a b : FoodLog.t)
         (r1 r2 r3 r4 r5 r6 : FetchResult),
    App.logs st = [a; b] ->
    GoogleSheetsService.isConfigured (App.sheets st) = true ->
    let del1 := App.handleDeleteLog (FoodLog.id a) r1 r2 r3 st in
    let del2 := App.handleDeleteLog (FoodLog.id b) r4 r5 r6 (fst del1) in
    App.logs (fst del2) = []
    /\ reduceTotals (App.logs (fst del2)) = zeroTotals
    /\ DailyTracker.totals (App.trackerProps (fst del2)) = zeroTotals
    /\ dailyWrites (effects (snd del2))
       = [SaveDailyData (App.selectedDate st) [] zeroTotals]
    /\ In (Fetch (GoogleSheetsService.deploymentUrl (App.sheets st))
             GoogleSheetsService.SHEET_AUTH_TOKEN
             (SaveDailyData (App.selectedDate st) [] zeroTotals))
          (effects (snd del2)).
Proof.
  intros st a b r1 r2 r3 r4 r5 r6 Hlogs Hc del1 del2.
  assert (Hc1 : GoogleSheetsService.isConfigured (App.sheets (fst del1))
                = true) by exact Hc.
  assert (Hempty :
            filter (fun l => negb (String.eqb (FoodLog.id l) (FoodLog.id b)))
              (App.logs (fst del1)) = []).
  { subst del1. rewrite handleDeleteLog_logs, Hlogs. cbn [filter].
    rewrite String.eqb_refl. cbn [negb].
    destruct (String.eqb (FoodLog.id b) (FoodLog.id a)); cbn [negb filter];
      [reflexivity |].
    rewrite String.eqb_refl. reflexivity. }
  pose proof (handleDeleteLog_writes (fst del1) (FoodLog.id b) r4 r5 r6 Hc1)
    as Hw.
  pose proof (handleDeleteLog_fetches (fst del1) (FoodLog.id b) r4 r5 r6 Hc1)
    as Hf.
  cbv zeta in Hw, Hf. rewrite Hempty in Hw, Hf.
  fold del2 in Hw, Hf.
  assert (Hlogs2 : App.logs (fst del2) = [])
    by (subst del2; rewrite handleDeleteLog_logs; exact Hempty).
  repeat split.
  - exact Hlogs2.
  - rewrite Hlogs2. reflexivity.
  - unfold DailyTracker.totals, App.trackerProps, App.todaysLogs.
    cbn [DailyTracker.logs]. rewrite Hlogs2. reflexivity.
  - exact Hw.
  - exact Hf.
Qed.

(** Two entries with distinct ids, every request but the last write
    going through. *)
Lemma delete_last_two_entries_writes_empty_witness :
  let a := FoodLog.mk "a" "1" "Chicken Breast" (JS.of_Z 1) (JS.of_Z 165)
             (JS.of_Z 31) (JS.of_Z 0) (JS.dec 36 10) 1735758000000 in
  let b := FoodLog.mk "b" "2" "Rice" (JS.of_Z 2) (JS.of_Z 260)
             (JS.dec 54 10) (JS.of_Z 56) (JS.dec 6 10) 1735758060000 in
  let st := App.setLogs [a; b] (App.mount 1735758000000 0) in
  let ok := FetchResolved None in
  let del1 := App.handleDeleteLog "a" ok ok ok st in
  let del2 := App.handleDeleteLog "b" FetchRejected ok ok (fst del1) in
  App.logs (fst del2) = []
  /\ reduceTotals (App.logs (fst del2)) = zeroTotals
  /\ DailyTracker.totals (App.trackerProps (fst del2)) = zeroTotals
  /\ dailyWrites (effects (snd del2))
     = [SaveDailyData (App.selectedDate st) [] zeroTotals]
  /\ In (Fetch (GoogleSheetsService.deploymentUrl (App.sheets st))
           GoogleSheetsService.SHEET_AUTH_TOKEN
           (SaveDailyData (App.selectedDate st) [] zeroTotals))
        (effects (snd del2)).
Proof.
  intros a b st ok.
  apply (delete_last_two_entries_writes_empty st a b ok ok ok FetchRejected
           ok ok); reflexivity.
Defined.

(** ** One timezone for the date of an entry? *)

(** The date [mount] selects is the date of the clock shifted by the
    browser's offset and by five and a half hours; the date the render
    compares an entry with is the UTC date of its timestamp. *)
Lemma mount_selectedDate (now timezoneOffset : Z) :
  App.selectedDate (App.mount now timezoneOffset)
  = Date.isoDate (now + timezoneOffset * 60 * 1000 + 19800000).
Proof. reflexivity. Qed.

Lemma todaysLogs_by_utc_date (st : App.State) (log : FoodLog.t) :
  In log (App.todaysLogs st) <->
  In log (App.logs st)
  /\ Date.isoDate (FoodLog.timestamp log) = App.selectedDate st.
Proof.
  unfold App.todaysLogs. rewrite filter_In, String.eqb_eq. reflexivity.
Qed.

(** C8 (a defect of the code): at 2025-01-01T19:00:00.000Z in a browser
    whose timezone is UTC, the App starts on the date 2025-01-02 (the
    date in IST), while the date of an entry logged at that moment is
    2025-01-01 (the UTC date of its timestamp): the entry is not among
    the entries of the selected day, and the App does not take the
    selected day for today.  ([getCurrentDateIST] itself depends on the
    browser: where the offset is -330 minutes, in India, it returns the
    UTC date.) *)
Theorem entry_date_utc_selected_date_ist :
  let now := 1735758000000 in
  let st := App.handleAddLog "u" now "1" (JS.of_Z 1) (App.mount now 0) in
  Date.toISOString now = "2025-01-01T19:00:00.000Z"
  /\ App.selectedDate st = "2025-01-02"
  /\ map (fun log => Date.isoDate (FoodLog.timestamp log)) (App.logs st)
     = ["2025-01-01"]
  /\ App.todaysLogs st = []
  /\ App.isToday now st = false
  /\ App.selectedDate (App.goToToday now st) = "2025-01-01"
  /\ Timezone.getCurrentDateIST now (-330) = "2025-01-01".
Proof.
  cbv zeta. repeat split; vm_compute; reflexivity.
Qed.

(** ** Without a deployment URL *)

(** C10: when no deployment URL is configured, [saveDailyData] returns
    false and [loadDailyData] returns null, whatever their arguments and
    whatever the network would answer; all either does is one console
    warning, so no request is issued and nothing is changed; and the
    App's loader returns before calling the service, leaving the state
    as it is. *)
Theorem unconfigured_service_sends_nothing :
  forall (svc : GoogleSheetsService.t) (date : string)
         (foodLogs : list FoodLog.t) (totals : DailyMacros.t)
         (r : FetchResult),
    GoogleSheetsService.isConfigured svc = false ->
    GoogleSheetsService.saveDailyData svc date foodLogs totals r
    = (Normal false, [ConsoleWarn "Google Sheets URL not configured"])
    /\ GoogleSheetsService.loadDailyData svc date r
       = (Normal VNull, [ConsoleWarn "Google Sheets URL not configured"])
    /\ requests
         (effects
            (GoogleSheetsService.saveDailyData svc date foodLogs totals r))
       = []
    /\ requests (effects (GoogleSheetsService.loadDailyData svc date r)) = []
    /\ forall (B : App.Builtins) (now : Z) (st : App.State),
         App.sheets st = svc ->
         App.loadFromSheets B now r st = (Normal (Some st), []).
Proof.
  intros svc date foodLogs totals r Hc.
  rewrite (saveDailyData_unconfigured svc date foodLogs totals r Hc).
  rewrite (loadDailyData_unconfigured svc date r Hc).
  repeat split.
  intros B now st Hst. unfold App.loadFromSheets.
  rewrite Hst, Hc. reflexivity.
Qed.

(** The service as it is created, asked to save one entry while the
    network is down. *)
Lemma unconfigured_service_sends_nothing_witness :
  let svc := GoogleSheetsService.create in
  let entry := FoodLog.mk "a" "1" "Chicken Breast" (JS.of_Z 1) (JS.of_Z 165)
                 (JS.of_Z 31) (JS.of_Z 0) (JS.dec 36 10) 1735758000000 in
  GoogleSheetsService.isConfigured svc = false
  /\ (GoogleSheetsService.saveDailyData svc "2025-01-01" [entry]
        (reduceTotals [entry]) FetchRejected
      = (Normal false, [ConsoleWarn "Google Sheets URL not configured"])
      /\ GoogleSheetsService.loadDailyData svc "2025-01-01" FetchRejected
         = (Normal VNull, [ConsoleWarn "Google Sheets URL not configured"])
      /\ requests
           (effects
              (GoogleSheetsService.saveDailyData svc "2025-01-01" [entry]
                 (reduceTotals [entry]) FetchRejected))
         = []
      /\ requests
           (effects
              (GoogleSheetsService.loadDailyData svc "2025-01-01"
                 FetchRejected)) = []
      /\ forall (B : App.Builtins) (now : Z) (st : App.State),
           App.sheets st = svc ->
           App.loadFromSheets B now FetchRejected st = (Normal (Some st), [])).
Proof.
  intros svc entry. split; [reflexivity |].
  apply (unconfigured_service_sends_nothing svc "2025-01-01" [entry]
           (reduceTotals [entry]) FetchRejected).
  reflexivity.
Defined.

(** ** Loads that fail *)

(** Whatever the network does, [loadDailyData] completes normally. *)
Lemma loadDailyData_total (svc : GoogleSheetsService.t) (date : string)
  (r : FetchResult) :
  exists v : Value,
    completion (GoogleSheetsService.loadDailyData svc date r) = Normal v.
Proof.
  unfold GoogleSheetsService.loadDailyData.
  destruct (negb (JS.truthy_string (GoogleSheetsService.deploymentUrl svc))).
  - eexists. reflexivity.
  - destruct r as [| [data |]]; try (eexists; reflexivity).
    destruct data as [| | b | n | s | items | props];
      try (eexists; reflexivity).
    + cbn. destruct (Val.truthy (Val.lookup "error" props)); cbn;
        eexists; reflexivity.
Qed.

(** A load that brings no data returns null, after logging the error. *)
Lemma loadDailyData_noData (svc : GoogleSheetsService.t) (date : string)
  (r : FetchResult) :
  GoogleSheetsService.isConfigured svc = true ->
  NoData r ->
  exists es : list Effect,
    GoogleSheetsService.loadDailyData svc date r = (Normal VNull, es)
    /\ In (ConsoleError "Error loading from Google Sheets:") es
    /\ requests es = [LoadDailyData date].
Proof.
  unfold GoogleSheetsService.isConfigured, GoogleSheetsService.loadDailyData.
  intros -> Hr. destruct Hr as [| | | props Herr]; cbn.
  - eexists. split; [reflexivity |]. split; cbn; auto.
  - eexists. split; [reflexivity |]. split; cbn; auto.
  - eexists. split; [reflexivity |]. split; cbn; auto.
  - rewrite Herr. eexists. split; [reflexivity |]. split; cbn; auto.
Qed.

(** The loader of the spreadsheet App falls back to an empty store when
    the load brings no data. *)
Lemma loadFromSheets_noData (B : App.Builtins) (now : Z) (r : FetchResult)
  (st : App.State) :
  GoogleSheetsService.isConfigured (App.sheets st) = true ->
  NoData r ->
  exists es : list Effect,
    App.loadFromSheets B now r st = (Normal (Some (App.setLogs [] st)), es)
    /\ In (ConsoleError "Error loading from Google Sheets:") es.
Proof.
  intros Hc Hr. unfold App.loadFromSheets. rewrite Hc. cbn [negb].
  destruct (loadDailyData_noData (App.sheets st) (App.selectedDate st) r
              Hc Hr) as (es & -> & Hin & _).
  cbn. eexists. split; [reflexivity |].
  apply in_or_app. now left.
Qed.

(** C7: when the load of a date fails (the request fails, the response
    does not parse, or it bears an error), the failure is not fatal: the
    loader completes normally, the error is logged, and the log store is
    empty afterwards.  This holds for the loader of the spreadsheet App
    (whose service is configured) and for the loader of the Firebase
    App, when its read is rejected. *)
Theorem failed_load_leaves_store_empty :
  forall (B : App.Builtins) (now : Z) (r : FetchResult) (st : App.State)
         (fb : FirebaseApp.State),
    GoogleSheetsService.isConfigured (App.sheets st) = true ->
    NoData r ->
    (exists es : list Effect,
       App.loadFromSheets B now r st
       = (Normal (Some (App.setLogs [] st)), es)
       /\ App.logs (App.setLogs [] st) = []
       /\ In (ConsoleError "Error loading from Google Sheets:") es)
    /\ FirebaseApp.loadLogs FirebaseLogsService.GetRejected fb
       = (Normal (FirebaseApp.setLogs [] fb),
          [ Firebase "get" ("logs/" ++ FirebaseApp.selectedDate fb);
            ConsoleError "Failed to load logs from Firebase:" ])
    /\ FirebaseApp.logs (FirebaseApp.setLogs [] fb) = [].
Proof.
  intros B now r st fb Hc Hr. split; [| split; reflexivity].
  destruct (loadFromSheets_noData B now r st Hc Hr) as (es & Heq & Hin).
  exists es. repeat split; assumption.
Qed.

(** A started App that shows one entry, and a response that is not
    JSON. *)
Lemma failed_load_leaves_store_empty_witness :
  let B := App.mkBuiltins (fun _ => JS.NaN) (fun _ => None) in
  let entry := FoodLog.mk "a" "1" "Chicken Breast" (JS.of_Z 1) (JS.of_Z 165)
                 (JS.of_Z 31) (JS.of_Z 0) (JS.dec 36 10) 1735758000000 in
  let st := App.setLogs [entry] (App.mount 1735758000000 0) in
  let fb := FirebaseApp.mk App.DEMO_FOODS [entry] App.DEFAULT_GOALS
              "2025-01-01" in
  (exists es : list Effect,
     App.loadFromSheets B 1735758000000 (FetchResolved None) st
     = (Normal (Some (App.setLogs [] st)), es)
     /\ App.logs (App.setLogs [] st) = []
     /\ In (ConsoleError "Error loading from Google Sheets:") es)
  /\ FirebaseApp.loadLogs FirebaseLogsService.GetRejected fb
     = (Normal (FirebaseApp.setLogs [] fb),
        [ Firebase "get" ("logs/" ++ FirebaseApp.selectedDate fb);
          ConsoleError "Failed to load logs from Firebase:" ])
  /\ FirebaseApp.logs (FirebaseApp.setLogs [] fb) = [].
Proof.
  intros B entry st fb.
  apply (failed_load_leaves_store_empty B 1735758000000 (FetchResolved None)
           st fb).
  - reflexivity.
  - exact Unparsable.
Defined.




(** For contrast: a response that parses to a value of another shape (a
    number, an object without [foodLogs]) bears no error; it is returned
    as it is, and the loader finds no entries in it. *)
Example loadDailyData_other_shape :
  let svc := GoogleSheetsService.initialize App.DEPLOYMENT_URL
               GoogleSheetsService.create in
  completion
    (GoogleSheetsService.loadDailyData svc "2025-01-01"
       (FetchResolved (Some (VNum (JS.of_Z 42)))))
  = Normal (VNum (JS.of_Z 42))
  /\ forall B now st,
       App.sheets st = svc ->
       completion
         (App.loadFromSheets B now
            (FetchResolved (Some (VNum (JS.of_Z 42)))) st)
       = Normal (Some (App.setLogs [] st)).
Proof.
  split; [reflexivity |].
  intros B now st Hs. unfold App.loadFromSheets. rewrite Hs. reflexivity.
Qed.

(** And a load that succeeds with a row the loader cannot convert (a
    null row) is no failed load either: the conversion throws, the
    loader logs it and keeps the entries it had. *)
Example loadFromSheets_null_row :
  forall (B : App.Builtins) (now : Z) (st : App.State),
    App.sheets st
    = GoogleSheetsService.initialize App.DEPLOYMENT_URL
        GoogleSheetsService.create ->
    App.loadFromSheets B now
      (FetchResolved (Some (VObj [("foodLogs", VArr [VNull])]))) st
    = (Normal (Some st),
       [ Fetch App.DEPLOYMENT_URL GoogleSheetsService.SHEET_AUTH_TOKEN
           (LoadDailyData (App.selectedDate st));
         ConsoleLog "Loaded from Google Sheets:";
         ConsoleError "Failed to load from Google Sheets:" ]).
Proof.
  intros B now st Hs. unfold App.loadFromSheets. rewrite Hs.
  vm_compute. reflexivity.
Qed.

(** ** The debounced dispatcher of DailyTracker *)

(** From a state without pending timer, the sync effect leaves the
    dispatcher settled on the props it ran with. *)
Lemma syncEffect_settles w0 p w :
  sameSession w0 w -> timers w = [] ->
  Settled w0 (now w) p (DailyTracker.syncEffect p w).
Proof.
  intros (Hs & Hl & Hn & Ht) Htm.
  unfold Settled, sameSession, wantsSync, DailyTracker.syncEffect.
  rewrite <- Hs, <- Hl, <- Hn, <- Ht.
  destruct (GoogleSheetsService.isConfigured (service w)); cbn [negb orb andb].
  2:{ cbn. tauto. }
  destruct (List.length (DailyTracker.logs p) =? 0)%nat; cbn [negb orb andb].
  { cbn. tauto. }
  destruct (DailyTracker.sameFingerprint _ _); cbn [negb orb andb].
  { cbn. tauto. }
  destruct w as [svc last ref cl nw tms nxt nt tr]. cbn in *. subst.
  destruct ref; cbn; repeat split; eauto.
Qed.

(** The cleanup of a settled dispatcher, when there is one, clears the
    pending timer. *)
Lemma cleanup_clears w0 t p w :
  Settled w0 t p w ->
  let w1 := if hasCleanup w then DailyTracker.syncCleanup w else w in
  sameSession w0 w1 /\ now w1 = now w /\ timers w1 = [].
Proof.
  intros ((Hs & Hl & Hn & Ht) & Hshape). cbv zeta. unfold sameSession.
  destruct (wantsSync w0 p).
  - destruct Hshape as (id & Htm & Href & ->).
    unfold DailyTracker.syncCleanup. rewrite Href. cbn.
    rewrite Htm. cbn. rewrite Pos.eqb_refl. cbn. tauto.
  - destruct Hshape as (Htm & ->). tauto.
Qed.

(** Before the window has elapsed, time passes without the timer
    firing. *)
Lemma advance_within_window w0 t p w t' :
  Settled w0 t p w -> t' < t + 500 ->
  Settled w0 t p (advance t' w) /\ now (advance t' w) = t'.
Proof.
  intros ((Hs & Hl & Hn & Ht) & Hshape) Hlt.
  unfold Settled, sameSession, advance.
  destruct (wantsSync w0 p).
  - destruct Hshape as (id & Htm & Href & Hcl). rewrite Htm. cbn.
    assert (Hd : (t + 500 <=? t') = false) by lia.
    rewrite Hd. cbn. repeat split; eauto.
  - destruct Hshape as (Htm & Hcl). rewrite Htm. cbn. tauto.
Qed.

(** A render inside the window replaces what was pending. *)
Lemma renderAt_settles w0 t p w t' p' :
  Settled w0 t p w -> t' < t + 500 ->
  Settled w0 t' p' (DailyTracker.renderAt w (t', p')).
Proof.
  intros HS Hlt.
  destruct (advance_within_window w0 t p w t' HS Hlt) as (HS' & Hnow).
  destruct (cleanup_clears w0 t p _ HS') as (Hsame & Hnow' & Htm).
  unfold DailyTracker.renderAt, DailyTracker.render. cbn [fst snd].
  pose proof (syncEffect_settles w0 p' _ Hsame Htm) as H.
  rewrite Hnow', Hnow in H. exact H.
Qed.

(** The first render of a burst, from a state without pending timer. *)
Lemma first_render_settles w t p :
  timers w = [] -> Settled w t p (DailyTracker.renderAt w (t, p)).
Proof.
  intros Htm.
  unfold DailyTracker.renderAt, DailyTracker.render. cbn [fst snd].
  set (w1 := advance t w).
  assert (H1 : sameSession w w1 /\ now w1 = t /\ timers w1 = []
               /\ hasCleanup w1 = hasCleanup w
               /\ syncTimeoutRef w1 = syncTimeoutRef w).
  { subst w1. unfold advance, sameSession. rewrite Htm. cbn. repeat split. }
  destruct H1 as (Hsame & Hnow & Htm1 & _ & _). clearbody w1.
  set (w2 := if hasCleanup w1 then DailyTracker.syncCleanup w1 else w1).
  assert (H2 : sameSession w w2 /\ now w2 = t /\ timers w2 = []).
  { subst w2. destruct (hasCleanup w1); [| tauto].
    unfold DailyTracker.syncCleanup, sameSession in *.
    destruct Hsame as (? & ? & ? & ?).
    destruct (syncTimeoutRef w1); cbn; rewrite ?Htm1; cbn;
      repeat split; assumption. }
  destruct H2 as (Hsame2 & Hnow2 & Htm2).
  pose proof (syncEffect_settles w p w2 Hsame2 Htm2) as H.
  rewrite Hnow2 in H. exact H.
Qed.

Lemma last_cons_default {A : Type} (l : list A) (a d : A) :
  last (a :: l) d = last l a.
Proof.
  revert a d. induction l as [| b l IH]; intros a d; [reflexivity |].
  change (last (a :: b :: l) d) with (last (b :: l) d).
  rewrite (IH b d), (IH b a). reflexivity.
Qed.

(** Through a whole burst the dispatcher stays settled, on the props
    of the last render. *)
Lemma run_settles rest :
  forall w0 t p w,
    Settled w0 t p w -> spaced 500 t rest ->
    Settled w0 (fst (last rest (t, p))) (snd (last rest (t, p)))
      (DailyTracker.run rest w).
Proof.
  induction rest as [| [t' p'] rest IH]; intros w0 t p w HS Hsp.
  - exact HS.
  - destruct Hsp as ((_ & Hlt) & Hsp). cbn [fst] in *.
    change (DailyTracker.run ((t', p') :: rest) w)
      with (DailyTracker.run rest (DailyTracker.renderAt w (t', p'))).
    rewrite last_cons_default.
    apply IH; [| exact Hsp]. eapply renderAt_settles; eauto.
Qed.

(** When the window elapses after a render, the pending callback (if
    there is one) runs: it stores the fingerprint, then sends the three
    requests of the rendered state. *)
Lemma window_elapses w0 t p w :
  Settled w0 t p w ->
  let w' := advance (t + 500) w in
  timers w' = []
  /\ if wantsSync w0 p
     then lastSyncRef w' = Some (JSON_stringify (DailyTracker.logs p))
          /\ exists es, trace w' = (trace w0 ++ SetLastSyncRef (JSON_stringify (DailyTracker.logs p)) :: es)%list
                        /\ requests es = syncRequests (DailyTracker.closureOf p)
     else lastSyncRef w' = lastSyncRef w0 /\ trace w' = trace w0.
Proof.
  intros ((Hs & Hl & Hn & Ht) & Hshape). cbv zeta.
  unfold wantsSync in *.
  destruct (GoogleSheetsService.isConfigured (service w0)) eqn:Hc; cbn [andb] in *.
  2:{ destruct Hshape as (Htm & _). unfold advance. rewrite Htm. cbn. tauto. }
  destruct (negb (Datatypes.length (DailyTracker.logs p) =? 0)%nat && _).
  2:{ destruct Hshape as (Htm & _). unfold advance. rewrite Htm. cbn. tauto. }
  destruct Hshape as (id & Htm & Href & Hcl).
  unfold advance. rewrite Htm. cbn [filter timer_due].
  rewrite Z.leb_refl. cbn [negb sortByDue fold_left insertByDue].
  unfold fire. cbn [timer_job timer_due runJob].
  unfold syncDailyCallback.
  cbn [service setLastSyncRef perform setNow setTimers now net timers lastSyncRef trace DailyTracker.closureOf c_logsHash c_logs c_currentDate c_totals c_goalCalories c_caloriePercent].
  rewrite Hs.
  rewrite (saveDailyData_configured _ Hc), (saveDailySummary_configured _ Hc),
    (saveStatistics_configured _ Hc).
  split; [reflexivity |]. split; [reflexivity |].
  rewrite Ht. rewrite <- app_assoc. eexists. split; [reflexivity |].
  repeat match goal with
         | |- context [net ?a ?b ?q] => destruct (net a b q)
         end; reflexivity.
Qed.

(** C4, as the code has it: take any burst of renders of DailyTracker
    (one per mutation of the log store), each less than 500 ms after
    the previous one, starting with no timer pending.  Once 500 ms have
    passed after the last render, the dispatcher has sent exactly one
    daily write, carrying the entries, date and totals of the last
    render (with its summary and statistics requests), if the service is
    configured, the last entry list is not empty and its fingerprint is
    not the one stored before the burst; otherwise it has sent nothing.
    Nothing of an earlier render of the burst is ever sent. *)
Theorem debounce_sends_final_state_once :
  forall (w : World) (first : Z * DailyTracker.Props)
         (rest : list (Z * DailyTracker.Props)),
    timers w = [] ->
    spaced 500 (fst first) rest ->
    let final := snd (last rest first) in
    let w' :=
      advance (fst (last rest first) + 500)
        (DailyTracker.run (first :: rest) w) in
    exists es : list Effect,
      trace w' = (trace w ++ es)%list
      /\ timers w' = []
      /\ requests es
         = (if wantsSync w final then syncRequests (DailyTracker.closureOf final) else [])
      /\ dailyWrites es
         = (if wantsSync w final
            then [SaveDailyData (DailyTracker.currentDate final)
                    (DailyTracker.logs final) (DailyTracker.totals final)]
            else []).
Proof.
  intros w [t p] rest Htm Hsp. cbv zeta.
  change (DailyTracker.run ((t, p) :: rest) w)
    with (DailyTracker.run rest (DailyTracker.renderAt w (t, p))).
  pose proof (first_render_settles w t p Htm) as H1.
  pose proof (run_settles rest w t p _ H1 Hsp) as H2.
  destruct (window_elapses _ _ _ _ H2) as (Hempty & Hout).
  destruct (wantsSync w (snd (last rest (t, p)))).
  - destruct Hout as (_ & es & Htr & Hreq).
    exists (SetLastSyncRef (JSON_stringify
              (DailyTracker.logs (snd (last rest (t, p))))) :: es).
    split; [exact Htr |]. split; [exact Hempty |].
    unfold dailyWrites. cbn [requests flat_map app].
    fold (requests es). rewrite Hreq. split; reflexivity.
  - destruct Hout as (_ & Htr). exists [].
    rewrite app_nil_r. repeat split; assumption.
Qed.

(** Three entries logged 200 and 250 ms apart: one write, of all
    three. *)
Lemma debounce_sends_final_state_once_witness :
  let e1 := FoodLog.mk "a" "1" "Chicken Breast" (JS.of_Z 1) (JS.of_Z 165)
              (JS.of_Z 31) (JS.of_Z 0) (JS.dec 36 10) 1735758000000 in
  let e2 := FoodLog.mk "b" "2" "Rice" (JS.of_Z 2) (JS.of_Z 260)
              (JS.dec 54 10) (JS.of_Z 56) (JS.dec 6 10) 1735758000200 in
  let e3 := FoodLog.mk "c" "4" "Apple" (JS.of_Z 1) (JS.of_Z 52)
              (JS.dec 3 10) (JS.of_Z 14) (JS.dec 2 10) 1735758000450 in
  let props logs := DailyTracker.mkProps logs App.DEFAULT_GOALS "2025-01-01" in
  let w := startWorld (fun _ _ => FetchResolved None) in
  let w' :=
    advance 950
      (DailyTracker.run
         [(0, props [e1]); (200, props [e2; e1]); (450, props [e3; e2; e1])]
         w) in
  timers w = []
  /\ spaced 500 0 [(200, props [e2; e1]); (450, props [e3; e2; e1])]
  /\ exists es : list Effect,
       trace w' = (trace w ++ es)%list
       /\ timers w' = []
       /\ requests es = syncRequests (DailyTracker.closureOf (props [e3; e2; e1]))
       /\ dailyWrites es
          = [SaveDailyData "2025-01-01" [e3; e2; e1]
               (reduceTotals [e3; e2; e1])].
Proof.
  intros e1 e2 e3 props w.
  assert (Hsp : spaced 500 0
                  [(200, props [e2; e1]); (450, props [e3; e2; e1])])
    by (cbn; lia).
  split; [reflexivity |]. split; [exact Hsp |].
  exact (debounce_sends_final_state_once w (0, props [e1])
           [(200, props [e2; e1]); (450, props [e3; e2; e1])] eq_refl Hsp).
Defined.

(** C4 as stated fails: an entry is added and, 100 ms later, deleted
    again.  Both renders fall in one window, and when the window has
    elapsed the dispatcher has sent no write at all, where the claim
    promises exactly one: the effect returns before scheduling when the
    entry list is empty. *)
Lemma debounce_empty_final_state_sends_nothing :
  let e1 := FoodLog.mk "a" "1" "Chicken Breast" (JS.of_Z 1) (JS.of_Z 165)
              (JS.of_Z 31) (JS.of_Z 0) (JS.dec 36 10) 1735758000000 in
  let props logs := DailyTracker.mkProps logs App.DEFAULT_GOALS "2025-01-01" in
  let w := startWorld (fun _ _ => FetchResolved None) in
  let w' := advance 600 (DailyTracker.run [(0, props [e1]); (100, props [])] w) in
  GoogleSheetsService.isConfigured (service w) = true
  /\ spaced 500 0 [(100, props [])]
  /\ timers w' = []
  /\ requests (trace w') = []
  /\ List.length (dailyWrites (trace w')) <> 1%nat.
Proof.
  cbv zeta. split; [reflexivity |]. split; [cbn; lia |].
  split; [vm_compute; reflexivity |]. split; [vm_compute; reflexivity |].
  vm_compute. discriminate.
Qed.

(** ** The catalogue sync of the service *)

(** The same invariant for the catalogue: a call of [syncFoods] without
    pending timer, a call inside the window, a whole burst. *)
Lemma syncFoods_settles w0 w foods :
  GoogleSheetsService.isConfigured (service w0) = true ->
  trace w = trace w0 -> net w = net w0 ->
  GoogleSheetsService.deploymentUrl (service w)
  = GoogleSheetsService.deploymentUrl (service w0) ->
  timers w = [] ->
  SettledFoods w0 (now w) foods (syncFoods foods w).
Proof.
  unfold GoogleSheetsService.isConfigured.
  intros Hc Ht Hn Hu Htm. unfold SettledFoods, syncFoods.
  rewrite Hu, Hc. cbn [negb].
  destruct w as [svc last ref cl nw tms nxt nt tr]. cbn in *. subst.
  destruct (GoogleSheetsService.syncFoodsTimeout svc); cbn;
    repeat split; eauto.
Qed.

Lemma syncFoodsAt_settles w0 t foods w t' foods' :
  GoogleSheetsService.isConfigured (service w0) = true ->
  SettledFoods w0 t foods w -> t' < t + 1000 ->
  SettledFoods w0 t' foods' (syncFoodsAt w (t', foods')).
Proof.
  unfold GoogleSheetsService.isConfigured.
  intros Hc (Ht & Hn & Hu & Hp & id & Htm & Href) Hlt.
  unfold syncFoodsAt, SettledFoods, syncFoods, advance. cbn [fst snd].
  rewrite Htm. cbn [filter timer_due].
  assert (Hd : (t + 1000 <=? t') = false) by lia.
  rewrite Hd. cbn [negb sortByDue fold_left setTimers setNow service].
  rewrite Hu, Hc, Href. cbn [negb].
  destruct w as [svc last ref cl nw tms nxt nt tr]. cbn in *. subst.
  rewrite Pos.eqb_refl. cbn. repeat split; eauto.
Qed.

Lemma first_syncFoods_settles w t foods :
  GoogleSheetsService.isConfigured (service w) = true ->
  timers w = [] ->
  SettledFoods w t foods (syncFoodsAt w (t, foods)).
Proof.
  intros Hc Htm. unfold syncFoodsAt. cbn [fst snd].
  assert (H : trace (advance t w) = trace w /\ net (advance t w) = net w
              /\ service (advance t w) = service w
              /\ timers (advance t w) = [] /\ now (advance t w) = t).
  { unfold advance. rewrite Htm. cbn. repeat split. }
  destruct H as (Ht & Hn & Hs & Htm' & Hnow).
  pose proof (syncFoods_settles w (advance t w) foods Hc Ht Hn
                ltac:(now rewrite Hs) Htm') as H.
  rewrite Hnow in H. exact H.
Qed.

Lemma runFoods_settles rest :
  forall w0 t foods w,
    GoogleSheetsService.isConfigured (service w0) = true ->
    SettledFoods w0 t foods w -> spaced 1000 t rest ->
    SettledFoods w0 (fst (last rest (t, foods))) (snd (last rest (t, foods)))
      (runFoods rest w).
Proof.
  induction rest as [| [t' foods'] rest IH]; intros w0 t foods w Hc HS Hsp.
  - exact HS.
  - destruct Hsp as ((_ & Hlt) & Hsp). cbn [fst] in *.
    change (runFoods ((t', foods') :: rest) w)
      with (runFoods rest (syncFoodsAt w (t', foods'))).
    rewrite last_cons_default.
    apply IH; [exact Hc | | exact Hsp]. eapply syncFoodsAt_settles; eauto.
Qed.

(** The catalogue sync of the service coalesces without condition: a
    burst of calls of a configured [syncFoods], each less than a second
    after the previous one, sends one request, with the foods of the
    last call. *)
Lemma syncFoods_coalesces :
  forall (w : World) (first : Z * list Food.t) (rest : list (Z * list Food.t)),
    GoogleSheetsService.isConfigured (service w) = true ->
    timers w = [] ->
    spaced 1000 (fst first) rest ->
    let w' := advance (fst (last rest first) + 1000) (runFoods (first :: rest) w) in
    exists es, trace w' = (trace w ++ es)%list
      /\ timers w' = []
      /\ requests es = [SyncFoods (Some (snd (last rest first)))].
Proof.
  intros w [t foods] rest Hc Htm Hsp. cbv zeta.
  change (runFoods ((t, foods) :: rest) w)
    with (runFoods rest (syncFoodsAt w (t, foods))).
  pose proof (first_syncFoods_settles w t foods Hc Htm) as H1.
  pose proof (runFoods_settles rest w t foods _ Hc H1 Hsp) as H2.
  destruct H2 as (Ht & Hn & Hu & Hp & id & Htm' & Href).
  unfold advance. rewrite Htm'. cbn [filter timer_due].
  rewrite Z.leb_refl. cbn [negb sortByDue fold_left insertByDue].
  unfold fire. cbn [timer_job timer_due runJob].
  unfold syncFoodsCallback.
  cbn [service setLastSyncRef perform setNow setTimers now net timers lastSyncRef trace].
  rewrite Hp, Ht. eexists. split; [reflexivity |]. split; [reflexivity |].
  unfold GoogleSheetsService.fetch.
  destruct (net _ _ _); reflexivity.
Qed.

(** ** The stored fingerprint and the acknowledgement *)

(** C5, as the code has it: when the debounce timer fires, the callback
    first stores the fingerprint of the entry list it is about to send
    in [lastSyncRef], and only then issues the daily write (with the
    summary and statistics requests), which it does not await.  The
    stored fingerprint is that of the dispatched entries whatever the
    network does with the write: acknowledged, rejected or still in
    flight. *)
Theorem fingerprint_stored_before_write_is_sent (c : SyncClosure)
  (w : World) :
  let w' := syncDailyCallback c w in
  lastSyncRef w' = Some (c_logsHash c)
  /\ timers w' = timers w
  /\ exists es : list Effect,
       trace w' = (trace w ++ SetLastSyncRef (c_logsHash c) :: es)%list
       /\ requests es
          = if GoogleSheetsService.isConfigured (service w)
            then syncRequests c else [].
Proof.
  cbv zeta. unfold syncDailyCallback.
  cbn [service setLastSyncRef perform now net timers lastSyncRef trace].
  split; [reflexivity |]. split; [reflexivity |].
  rewrite <- app_assoc. eexists. split; [reflexivity |].
  destruct (GoogleSheetsService.isConfigured (service w)) eqn:Hc.
  - rewrite (saveDailyData_configured _ Hc),
      (saveDailySummary_configured _ Hc), (saveStatistics_configured _ Hc).
    repeat match goal with
           | |- context [net ?a ?b ?q] => destruct (net a b q)
           end; reflexivity.
  - unfold GoogleSheetsService.saveDailyData,
      GoogleSheetsService.saveDailySummary,
      GoogleSheetsService.saveStatistics.
    unfold GoogleSheetsService.isConfigured in Hc. rewrite Hc. reflexivity.
Qed.

(** C5 as stated fails: the network rejects every request.  One entry
    is rendered and the window elapses: the write of the entry is sent
    and fails (the service logs the error, nothing is acknowledged), and
    yet the stored fingerprint is the fingerprint of that entry list; it
    was stored before the request went out. *)
Lemma fingerprint_stored_though_write_failed :
  let e1 := FoodLog.mk "a" "1" "Chicken Breast" (JS.of_Z 1) (JS.of_Z 165)
              (JS.of_Z 31) (JS.of_Z 0) (JS.dec 36 10) 1735758000000 in
  let p := DailyTracker.mkProps [e1] App.DEFAULT_GOALS "2025-01-01" in
  let w := startWorld (fun _ _ => FetchRejected) in
  let w' := advance 500 (DailyTracker.run [(0, p)] w) in
  lastSyncRef w = None
  /\ lastSyncRef w' = Some (JSON_stringify [e1])
  /\ firstn 3 (trace w')
     = [ SetLastSyncRef (JSON_stringify [e1]);
         ConsoleLog "Syncing daily data:";
         Fetch App.DEPLOYMENT_URL GoogleSheetsService.SHEET_AUTH_TOKEN
           (SaveDailyData "2025-01-01" [e1] (reduceTotals [e1])) ]
  /\ skipn 5 (trace w')
     = [ ConsoleLog "Synced with Google Sheets (debounced):";
         ConsoleError "Error saving to Google Sheets:";
         ConsoleError "Error saving daily summary:";
         ConsoleError "Error saving statistics:" ]
  /\ ~ In (ConsoleLog "Daily data synced") (trace w').
Proof.
  cbv zeta. split; [reflexivity |].
  split; [vm_compute; reflexivity |]. split; [vm_compute; reflexivity |].
  split; [vm_compute; reflexivity |].
  vm_compute. intros H.
  repeat (destruct H as [H | H]; [discriminate H |]). exact H.
Qed.

(* ===================================================================== *)
(** * Part III: more of the code *)
(* ===================================================================== *)

(** ** Percentages and NaN *)

Lemma not_le_zero_gt_or_nan (x : JS.number) :
  JS.le x (JS.of_Z 0) = false -> JS.gt x (JS.of_Z 0) = true \/ x = JS.NaN.
Proof.
  destruct x as [s | s | | s m e]; try destruct s; cbn; intros H;
    try discriminate H; auto.
Qed.

Lemma add_nan_l (y : JS.number) : (JS.NaN + y)%js = JS.NaN.
Proof. destruct y; reflexivity. Qed.

Lemma add_nan_r (x : JS.number) : (x + JS.NaN)%js = JS.NaN.
Proof. destruct x; reflexivity. Qed.

Lemma mul_nan_r (x : JS.number) : (x * JS.NaN)%js = JS.NaN.
Proof. destruct x; reflexivity. Qed.

Lemma Math_min_at_most (x : JS.number) :
  JS.Math_min x (JS.of_Z 100) = JS.NaN
  \/ JS.le (JS.Math_min x (JS.of_Z 100)) (JS.of_Z 100) = true.
Proof.
  unfold JS.Math_min.
  destruct (SFcompare x (JS.of_Z 100)) as [[| |] |] eqn:E.
  - right. destruct x as [[|] | | |]; reflexivity.
  - right. unfold JS.le, SFleb. rewrite E. reflexivity.
  - right. reflexivity.
  - now left.
Qed.

(** X1: every percentage the program computes for a progress bar or a
    daily summary (the calorie percentage of DailyTracker, the one
    [handleDeleteLog] sends, and the percentage of a macro card) is at
    most 100 or is [NaN], whatever the totals and the goal are: zero,
    negative or infinite. *)
Theorem percentages_never_exceed_100 :
  forall (p : DailyTracker.Props) (totals : DailyMacros.t)
         (goals : MacroGoals.t) (value goal : JS.number),
    (DailyTracker.caloriePercent p = JS.NaN
     \/ JS.le (DailyTracker.caloriePercent p) (JS.of_Z 100) = true)
    /\ (App.deleteCaloriePercent totals goals = JS.NaN
        \/ JS.le (App.deleteCaloriePercent totals goals) (JS.of_Z 100) = true)
    /\ (MacroCard.percent value goal = JS.NaN
        \/ JS.le (MacroCard.percent value goal) (JS.of_Z 100) = true).
Proof.
  intros. split; [apply Math_min_at_most |]. split; [| apply Math_min_at_most].
  unfold App.deleteCaloriePercent.
  destruct (JS.gt _ _); [apply Math_min_at_most | now right].
Qed.

Lemma fold_totals_nan (logs : list FoodLog.t) :
  forall acc, DailyMacros.calories acc = JS.NaN ->
    DailyMacros.calories (fold_left addLogToTotals logs acc) = JS.NaN.
Proof.
  induction logs as [| l logs IH]; intros acc H; [exact H |].
  cbn [fold_left]. apply IH. cbn. rewrite H. apply add_nan_l.
Qed.

Lemma reduceTotals_nan (logs : list FoodLog.t) (e : FoodLog.t) :
  In e logs -> FoodLog.calories e = JS.NaN ->
  DailyMacros.calories (reduceTotals logs) = JS.NaN.
Proof.
  unfold reduceTotals. generalize zeroTotals.
  induction logs as [| l logs IH]; intros acc Hin He; [contradiction |].
  cbn [fold_left]. destruct Hin as [-> | Hin].
  - apply fold_totals_nan. cbn. rewrite He. apply add_nan_r.
  - now apply IH.
Qed.

(** X2: one entry whose calories are [NaN] makes the calorie total of
    its day [NaN], wherever it stands in the list and whatever the
    other entries hold; the calorie percentage is then [NaN] for every
    goal, the day never counts as over the goal, and the percentage
    [handleDeleteLog] sends is [NaN] under a positive goal. *)
Theorem nan_entry_poisons_the_day :
  forall (p : DailyTracker.Props) (e : FoodLog.t),
    In e (DailyTracker.logs p) ->
    FoodLog.calories e = JS.NaN ->
    DailyMacros.calories (DailyTracker.totals p) = JS.NaN
    /\ DailyTracker.caloriePercent p = JS.NaN
    /\ DailyTracker.isOverGoal p = false
    /\ App.deleteCaloriePercent (DailyTracker.totals p) (DailyTracker.goals p)
       = (if JS.gt (MacroGoals.calories (DailyTracker.goals p)) (JS.of_Z 0)
          then JS.NaN else JS.of_Z 0).
Proof.
  intros p e Hin He.
  pose proof (reduceTotals_nan _ _ Hin He) as Ht.
  unfold DailyTracker.caloriePercent, DailyTracker.isOverGoal,
    App.deleteCaloriePercent, DailyTracker.totals in *.
  rewrite Ht. split; [reflexivity |]. split; [| split].
  - destruct (MacroGoals.calories (DailyTracker.goals p)); reflexivity.
  - unfold JS.gt, SFltb.
    destruct (MacroGoals.calories (DailyTracker.goals p)); reflexivity.
  - destruct (JS.gt _ _); [| reflexivity].
    destruct (MacroGoals.calories (DailyTracker.goals p)); reflexivity.
Qed.

(** A day of three entries, the second with [NaN] calories. *)
Lemma nan_entry_poisons_the_day_witness :
  let a := FoodLog.mk "a" "1" "Chicken Breast" (JS.of_Z 1) (JS.of_Z 165)
             (JS.of_Z 31) (JS.of_Z 0) (JS.dec 36 10) 1735758000000 in
  let b := FoodLog.mk "b" "2" "Rice" JS.NaN JS.NaN JS.NaN JS.NaN JS.NaN
             1735758060000 in
  let c := FoodLog.mk "c" "3" "Egg" (JS.of_Z 1) (JS.of_Z 155) (JS.of_Z 13)
             (JS.dec 11 10) (JS.of_Z 11) 1735758120000 in
  let p := DailyTracker.mkProps [a; b; c] App.DEFAULT_GOALS "2025-01-01" in
  DailyMacros.calories (DailyTracker.totals p) = JS.NaN
  /\ DailyTracker.caloriePercent p = JS.NaN
  /\ DailyTracker.isOverGoal p = false
  /\ App.deleteCaloriePercent (DailyTracker.totals p) (DailyTracker.goals p)
     = (if JS.gt (MacroGoals.calories (DailyTracker.goals p)) (JS.of_Z 0)
        then JS.NaN else JS.of_Z 0).
Proof.
  intros a b c p.
  apply (nan_entry_poisons_the_day p b); [cbn; tauto | reflexivity].
Defined.

(** ** The entry form *)

(** X3: whenever [handleSubmit] of the entry form calls [onAddLog], a
    food is selected, the quantity field is not empty, and the quantity
    passed is the parsed field and is not at most zero: it is greater
    than zero or it is [NaN]. *)
Theorem form_never_submits_nonpositive_quantity :
  forall (parseFloat : string -> JS.number) (st : FoodEntryForm.State)
         (foodId : string) (qty : JS.number),
    snd (FoodEntryForm.handleSubmit parseFloat st) = Some (foodId, qty) ->
    (JS.gt qty (JS.of_Z 0) = true \/ qty = JS.NaN)
    /\ JS.le qty (JS.of_Z 0) = false
    /\ FoodEntryForm.quantity st <> ""
    /\ qty = parseFloat (FoodEntryForm.quantity st)
    /\ exists food, FoodEntryForm.selectedFood st = Some food
                    /\ foodId = Food.id food.
Proof.
  intros parseFloat st foodId qty. unfold FoodEntryForm.handleSubmit.
  destruct (FoodEntryForm.selectedFood st) as [food |]; [| discriminate].
  destruct (FoodEntryForm.quantity st) as [| c q] eqn:Hq;
    cbn [JS.truthy_string negb orb]; [discriminate |].
  destruct (JS.le _ _) eqn:Hle; cbn [snd]; [discriminate |].
  intros H. injection H as <- <-.
  split; [now apply not_le_zero_gt_or_nan |]. split; [exact Hle |].
  split; [discriminate |]. split; [reflexivity |]. now exists food.
Qed.

(** The form with rice selected and the quantity 2.5. *)
Lemma form_never_submits_nonpositive_quantity_witness :
  let rice := Food.mk "2" "Rice" (JS.of_Z 130) (JS.dec 27 10) (JS.of_Z 28)
                (JS.dec 3 10) in
  let parseFloat := fun _ : string => JS.dec 25 10 in
  let st := FoodEntryForm.mk "Rice" "2.5" (Some rice) false None in
  (JS.gt (JS.dec 25 10) (JS.of_Z 0) = true \/ JS.dec 25 10 = JS.NaN)
  /\ JS.le (JS.dec 25 10) (JS.of_Z 0) = false
  /\ FoodEntryForm.quantity st <> ""
  /\ JS.dec 25 10 = parseFloat (FoodEntryForm.quantity st)
  /\ exists food, FoodEntryForm.selectedFood st = Some food
                  /\ "2" = Food.id food.
Proof.
  intros rice parseFloat st.
  apply (form_never_submits_nonpositive_quantity parseFloat st "2"
           (JS.dec 25 10)).
  reflexivity.
Defined.

(** X4: a quantity field that is not empty and does not parse (the
    parse is [NaN]) passes the form's check, and the App then stores an
    entry of the selected food whose calories, protein, carbs and fat
    are all [NaN]. *)
Theorem unparsable_quantity_is_logged_as_nan :
  forall (parseFloat : string -> JS.number) (form : FoodEntryForm.State)
         (food : Food.t) (st : App.State) (uuid : string) (now : Z),
    FoodEntryForm.selectedFood form = Some food ->
    FoodEntryForm.quantity form <> "" ->
    parseFloat (FoodEntryForm.quantity form) = JS.NaN ->
    In food (App.foods st) ->
    snd (FoodEntryForm.handleSubmit parseFloat form)
    = Some (Food.id food, JS.NaN)
    /\ exists entry,
         App.logs (App.handleAddLog uuid now (Food.id food) JS.NaN st)
         = entry :: App.logs st
         /\ FoodLog.calories entry = JS.NaN
         /\ FoodLog.protein entry = JS.NaN
         /\ FoodLog.carbs entry = JS.NaN
         /\ FoodLog.fat entry = JS.NaN.
Proof.
  intros parseFloat form food st uuid now Hsel Hq Hnan Hin. split.
  - unfold FoodEntryForm.handleSubmit. rewrite Hsel, Hnan.
    destruct (FoodEntryForm.quantity form); [contradiction |]. reflexivity.
  - unfold App.handleAddLog.
    destruct (find (fun f => Food.id f =? Food.id food)%string (App.foods st))
      as [found |] eqn:Hfind.
    + eexists. split; [reflexivity |].
      cbn [FoodLog.calories FoodLog.protein FoodLog.carbs FoodLog.fat].
      rewrite !mul_nan_r. repeat split; reflexivity.
    + exfalso. apply (find_none _ _ Hfind) in Hin.
      rewrite String.eqb_refl in Hin. discriminate.
Qed.

(** Rice is selected in the started App and the field holds "abc". *)
Lemma unparsable_quantity_is_logged_as_nan_witness :
  let rice := Food.mk "2" "Rice" (JS.of_Z 130) (JS.dec 27 10) (JS.of_Z 28)
                (JS.dec 3 10) in
  let parseFloat := fun _ : string => JS.NaN in
  let form := FoodEntryForm.mk "Rice" "abc" (Some rice) false None in
  let st := App.mount 1735758000000 0 in
  snd (FoodEntryForm.handleSubmit parseFloat form)
  = Some (Food.id rice, JS.NaN)
  /\ exists entry,
       App.logs (App.handleAddLog "u" 1735758000000 (Food.id rice) JS.NaN st)
       = entry :: App.logs st
       /\ FoodLog.calories entry = JS.NaN
       /\ FoodLog.protein entry = JS.NaN
       /\ FoodLog.carbs entry = JS.NaN
       /\ FoodLog.fat entry = JS.NaN.
Proof.
  intros rice parseFloat form st.
  apply (unparsable_quantity_is_logged_as_nan parseFloat form rice st "u"
           1735758000000).
  - reflexivity.
  - discriminate.
  - reflexivity.
  - vm_compute. tauto.
Defined.

(** ** Deleting an entry *)

Lemma filter_all {A : Type} (f : A -> bool) (l : list A) :
  (forall x, In x l -> f x = true) -> filter f l = l.
Proof.
  induction l as [| a l IH]; intros H; [reflexivity |].
  cbn. rewrite (H a (or_introl eq_refl)). f_equal. apply IH.
  intros x Hx. apply H. now right.
Qed.

(** X5: the immediate sync of [handleDeleteLog] with a configured
    service always completes; it sends the daily write of the remaining
    entries first, then a summary and a statistics request, whatever
    happens to each; it alerts the user that the sync failed exactly
    when the daily write is rejected (a failed summary or statistics
    request, or any answer of the server, goes unreported); and the
    alert of its [catch] branch is never raised. *)
Theorem handleDeleteLog_sync_report :
  forall (st : App.State) (logId : string) (r1 r2 r3 : FetchResult),
    GoogleSheetsService.isConfigured (App.sheets st) = true ->
    let updatedLogs :=
      filter (fun l => negb (FoodLog.id l =? logId)%string) (App.logs st) in
    let sync := snd (App.handleDeleteLog logId r1 r2 r3 st) in
    completion sync = Normal tt
    /\ App.logs (fst (App.handleDeleteLog logId r1 r2 r3 st)) = updatedLogs
    /\ (exists summary statistics,
          requests (effects sync)
          = [ SaveDailyData (App.selectedDate st) updatedLogs
                (reduceTotals updatedLogs); summary; statistics ])
    /\ (In (Alert "Failed to sync deleted log to Google Sheets. Please check your connection.")
          (effects sync) <-> r1 = FetchRejected)
    /\ ~ In (Alert "Error syncing with Google Sheets after deleting log. Please try again.")
           (effects sync).
Proof.
  intros st logId r1 r2 r3 Hc updatedLogs sync. subst sync.
  unfold App.handleDeleteLog. cbn [snd fst App.logs App.setLogs].
  fold updatedLogs.
  rewrite (saveDailyData_configured _ Hc).
  unfold bind at 1.
  rewrite (saveDailySummary_configured _ Hc).
  unfold bind at 1.
  rewrite (saveStatistics_configured _ Hc).
  destruct r1, r2, r3; cbn; (split; [reflexivity |]); (split; [reflexivity |]);
    (split; [eauto |]); split;
    try (split; [intros H | intros H; try discriminate H; auto];
         repeat (destruct H as [H | H]; [try discriminate H |]); tauto);
    try (intros H; repeat (destruct H as [H | H]; [discriminate H |]); exact H).
Qed.

(** One of two entries is deleted in the started App; the daily write
    goes through, the summary is rejected. *)
Lemma handleDeleteLog_sync_report_witness :
  let a := FoodLog.mk "a" "1" "Chicken Breast" (JS.of_Z 1) (JS.of_Z 165)
             (JS.of_Z 31) (JS.of_Z 0) (JS.dec 36 10) 1735758000000 in
  let b := FoodLog.mk "b" "2" "Rice" (JS.of_Z 2) (JS.of_Z 260)
             (JS.dec 54 10) (JS.of_Z 56) (JS.dec 6 10) 1735758060000 in
  let st := App.setLogs [a; b] (App.mount 1735758000000 0) in
  let r1 := FetchResolved None in
  let r2 := FetchRejected in
  let r3 := FetchResolved None in
  let updatedLogs :=
    filter (fun l => negb (FoodLog.id l =? "a")%string) (App.logs st) in
  let sync := snd (App.handleDeleteLog "a" r1 r2 r3 st) in
  completion sync = Normal tt
  /\ App.logs (fst (App.handleDeleteLog "a" r1 r2 r3 st)) = updatedLogs
  /\ (exists summary statistics,
        requests (effects sync)
        = [ SaveDailyData (App.selectedDate st) updatedLogs
              (reduceTotals updatedLogs); summary; statistics ])
  /\ (In (Alert "Failed to sync deleted log to Google Sheets. Please check your connection.")
        (effects sync) <-> r1 = FetchRejected)
  /\ ~ In (Alert "Error syncing with Google Sheets after deleting log. Please try again.")
         (effects sync).
Proof.
  intros a b st r1 r2 r3.
  apply (handleDeleteLog_sync_report st "a" r1 r2 r3). reflexivity.
Defined.

(** X6: deleting an id that no entry bears leaves the state of the App
    as it was, and still sends one daily write to the configured
    service: the whole unchanged list of the selected date with its
    totals. *)
Theorem delete_absent_id_keeps_store_and_still_writes :
  forall (st : App.State) (logId : string) (r1 r2 r3 : FetchResult),
    GoogleSheetsService.isConfigured (App.sheets st) = true ->
    (forall l, In l (App.logs st) -> FoodLog.id l <> logId) ->
    fst (App.handleDeleteLog logId r1 r2 r3 st) = st
    /\ dailyWrites (effects (snd (App.handleDeleteLog logId r1 r2 r3 st)))
       = [SaveDailyData (App.selectedDate st) (App.logs st)
            (reduceTotals (App.logs st))].
Proof.
  intros st logId r1 r2 r3 Hc Habs.
  assert (Hf : filter (fun l => negb (FoodLog.id l =? logId)%string)
                 (App.logs st) = App.logs st).
  { apply filter_all. intros l Hl. apply negb_true_iff, String.eqb_neq.
    now apply Habs. }
  split.
  - unfold App.handleDeleteLog. cbn [fst]. rewrite Hf. now destruct st.
  - rewrite (handleDeleteLog_writes st logId r1 r2 r3 Hc). cbv zeta.
    rewrite Hf. reflexivity.
Qed.

(** The id "zzz" is deleted from a store that holds the entry "a". *)
Lemma delete_absent_id_keeps_store_and_still_writes_witness :
  let a := FoodLog.mk "a" "1" "Chicken Breast" (JS.of_Z 1) (JS.of_Z 165)
             (JS.of_Z 31) (JS.of_Z 0) (JS.dec 36 10) 1735758000000 in
  let st := App.setLogs [a] (App.mount 1735758000000 0) in
  let ok := FetchResolved None in
  fst (App.handleDeleteLog "zzz" ok ok ok st) = st
  /\ dailyWrites (effects (snd (App.handleDeleteLog "zzz" ok ok ok st)))
     = [SaveDailyData (App.selectedDate st) (App.logs st)
          (reduceTotals (App.logs st))].
Proof.
  intros a st ok.
  apply (delete_absent_id_keeps_store_and_still_writes st "zzz" ok ok ok).
  - reflexivity.
  - intros l [<- | []]. discriminate.
Defined.

(** X7: in the Firebase variant the store follows the database: a
    delete changes the list exactly when [remove] resolves, an add
    changes it only when [set] resolves; a rejected write is caught and
    logged, the handler completes with the state it started from; and
    adding an unknown food touches neither the database nor the
    state. *)
Theorem firebase_store_changes_only_after_the_write :
  forall (st : FirebaseApp.State) (key logId foodId : string) (now : Z)
         (quantity : JS.number) (ok : bool),
    completion (FirebaseApp.handleDeleteLog logId ok st)
    = Normal (if ok
              then FirebaseApp.setLogs
                     (filter (fun l => negb (FoodLog.id l =? logId)%string)
                        (FirebaseApp.logs st)) st
              else st)
    /\ (In (ConsoleError "Failed to delete log from Firebase:")
          (effects (FirebaseApp.handleDeleteLog logId ok st)) <-> ok = false)
    /\ (exists st',
          completion (FirebaseApp.handleAddLog key now ok foodId quantity st)
          = Normal st'
          /\ (ok = false -> st' = st)
          /\ (In (ConsoleError "Failed to add log to Firebase:")
                (effects
                   (FirebaseApp.handleAddLog key now ok foodId quantity st))
              -> ok = false))
    /\ (find (fun f => Food.id f =? foodId)%string (FirebaseApp.foods st)
        = None ->
        FirebaseApp.handleAddLog key now ok foodId quantity st
        = (Normal st, [])).
Proof.
  intros st key logId foodId now quantity ok. split; [| split; [| split]].
  - destruct ok; reflexivity.
  - destruct ok; cbn; split; intros H; try discriminate H; try tauto.
    repeat (destruct H as [H | H]; [discriminate H |]). contradiction.
  - unfold FirebaseApp.handleAddLog.
    destruct (find _ (FirebaseApp.foods st)); destruct ok; cbn;
      eexists; (split; [reflexivity |]); split; intros H;
      try discriminate H; try reflexivity;
      repeat (destruct H as [H | H]; [discriminate H |]); contradiction.
  - intros Hnone. unfold FirebaseApp.handleAddLog. rewrite Hnone.
    reflexivity.
Qed.

(** ** The catalogue sync *)

(** Through a burst of renders of FoodManagement with catalogues that
    are not empty, the service stays settled on the last one. *)
Lemma foodManagement_run_settles rest :
  forall w0 t foods w,
    GoogleSheetsService.isConfigured (service w0) = true ->
    SettledFoods w0 t foods w ->
    spaced 1000 t rest ->
    Forall (fun tf => snd tf <> []) rest ->
    SettledFoods w0 (fst (last rest (t, foods))) (snd (last rest (t, foods)))
      (FoodManagement.run rest w).
Proof.
  induction rest as [| [t' foods'] rest IH];
    intros w0 t foods w Hc HS Hsp Hne.
  - exact HS.
  - destruct Hsp as ((_ & Hlt) & Hsp). cbn [fst] in *.
    inversion Hne as [| ? ? Hhd Htl]; subst. cbn [snd] in Hhd.
    change (FoodManagement.run ((t', foods') :: rest) w)
      with (FoodManagement.run rest (FoodManagement.renderAt w (t', foods'))).
    rewrite last_cons_default.
    apply IH; [exact Hc | | exact Hsp | exact Htl].
    assert (Heq : FoodManagement.renderAt w (t', foods')
                  = syncFoodsAt w (t', foods')).
    { unfold FoodManagement.renderAt, FoodManagement.syncEffect, syncFoodsAt.
      cbn [fst snd].
      assert (Hs : GoogleSheetsService.isConfigured (service (advance t' w))
                   = true).
      { destruct HS as (_ & _ & Hu & _ & id & Htm & _).
        unfold advance. rewrite Htm. cbn [filter timer_due].
        assert (Hd : (t + 1000 <=? t') = false) by lia. rewrite Hd.
        cbn. unfold GoogleSheetsService.isConfigured in *. now rewrite Hu. }
      rewrite Hs. destruct foods'; [contradiction | reflexivity]. }
    rewrite Heq. eapply syncFoodsAt_settles; eauto.
Qed.

Lemma foodManagement_burst_settles (w : World) (t : Z) (foods : list Food.t)
  (rest : list (Z * list Food.t)) :
  GoogleSheetsService.isConfigured (service w) = true ->
  timers w = [] ->
  foods <> [] ->
  Forall (fun tf => snd tf <> []) rest ->
  spaced 1000 t rest ->
  SettledFoods w (fst (last rest (t, foods))) (snd (last rest (t, foods)))
    (FoodManagement.run ((t, foods) :: rest) w).
Proof.
  intros Hc Htm Hne Hall Hsp.
  change (FoodManagement.run ((t, foods) :: rest) w)
    with (FoodManagement.run rest (FoodManagement.renderAt w (t, foods))).
  apply foodManagement_run_settles; [exact Hc | | exact Hsp | exact Hall].
  assert (Heq : FoodManagement.renderAt w (t, foods)
                = syncFoodsAt w (t, foods)).
  { unfold FoodManagement.renderAt, FoodManagement.syncEffect, syncFoodsAt.
    cbn [fst snd].
    assert (Hs : service (advance t w) = service w).
    { unfold advance. rewrite Htm. reflexivity. }
    rewrite Hs, Hc. destruct foods; [contradiction | reflexivity]. }
  rewrite Heq. now apply first_syncFoods_settles.
Qed.

(** When the window of the settled service elapses, the pending callback
    sends the stored catalogue. *)
Lemma foods_window_elapses (w0 : World) (t : Z) (foods : list Food.t)
  (w : World) :
  SettledFoods w0 t foods w ->
  let w' := advance (t + 1000) w in
  exists es : list Effect,
    trace w' = (trace w0 ++ es)%list
    /\ timers w' = []
    /\ requests es = [SyncFoods (Some foods)].
Proof.
  intros (Ht & Hn & Hu & Hp & id & Htm & Href). cbv zeta.
  unfold advance. rewrite Htm. cbn [filter timer_due].
  rewrite Z.leb_refl. cbn [negb sortByDue fold_left insertByDue].
  unfold fire. cbn [timer_job timer_due runJob].
  unfold syncFoodsCallback.
  cbn [service setLastSyncRef perform setNow setTimers now net timers
       lastSyncRef trace].
  rewrite Hp, Ht. eexists. split; [reflexivity |]. split; [reflexivity |].
  unfold GoogleSheetsService.fetch.
  destruct (net _ _ _); reflexivity.
Qed.

(** X8: the catalogue effect of FoodManagement on top of the debounce
    of the service.  A burst of renders with catalogues that are not
    empty, each less than a second after the previous one, starting
    with no timer pending, sends exactly one [syncFoods] request once a
    second has passed after the last render, and the request carries
    the catalogue of the last render; no earlier catalogue is sent. *)
Theorem catalogue_burst_sends_last_catalogue_once :
  forall (w : World) (t : Z) (foods : list Food.t)
         (rest : list (Z * list Food.t)),
    GoogleSheetsService.isConfigured (service w) = true ->
    timers w = [] ->
    foods <> [] ->
    Forall (fun tf => snd tf <> []) rest ->
    spaced 1000 t rest ->
    let tLast := fst (last rest (t, foods)) in
    let lastFoods := snd (last rest (t, foods)) in
    let w' :=
      advance (tLast + 1000) (FoodManagement.run ((t, foods) :: rest) w) in
    exists es : list Effect,
      trace w' = (trace w ++ es)%list
      /\ timers w' = []
      /\ requests es = [SyncFoods (Some lastFoods)].
Proof.
  intros w t foods rest Hc Htm Hne Hall Hsp. cbv zeta.
  apply (foods_window_elapses w).
  now apply foodManagement_burst_settles.
Qed.

(** The catalogue holds rice and the egg is added after 400 ms. *)
Lemma catalogue_burst_sends_last_catalogue_once_witness :
  let w := startWorld (fun _ _ => FetchResolved None) in
  let rice := Food.mk "2" "Rice" (JS.of_Z 130) (JS.dec 27 10) (JS.of_Z 28)
                (JS.dec 3 10) in
  let egg := Food.mk "3" "Egg" (JS.of_Z 155) (JS.of_Z 13) (JS.dec 11 10)
               (JS.of_Z 11) in
  let w' :=
    advance 1400
      (FoodManagement.run ((0, [rice]) :: [(400, [rice; egg])]) w) in
  exists es : list Effect,
    trace w' = (trace w ++ es)%list
    /\ timers w' = []
    /\ requests es = [SyncFoods (Some [rice; egg])].
Proof.
  intros w rice egg.
  apply (catalogue_burst_sends_last_catalogue_once w 0 [rice]
           [(400, [rice; egg])]).
  - reflexivity.
  - reflexivity.
  - discriminate.
  - repeat constructor. discriminate.
  - cbn. lia.
Defined.

(** X9: the catalogue effect skips an empty catalogue, and the debounce
    of the service is not cancelled by it.  After a burst of renders
    with catalogues that are not empty, a render with the empty
    catalogue inside the window sends nothing of its own: when the
    window of the last non-empty render elapses, exactly one request
    goes out, and it carries that last non-empty catalogue.  The
    deletion of the last food does not reach the sheet. *)
Theorem emptied_catalogue_is_never_sent :
  forall (w : World) (t : Z) (foods : list Food.t)
         (rest : list (Z * list Food.t)) (tEmpty : Z),
    GoogleSheetsService.isConfigured (service w) = true ->
    timers w = [] ->
    foods <> [] ->
    Forall (fun tf => snd tf <> []) rest ->
    spaced 1000 t rest ->
    let tLast := fst (last rest (t, foods)) in
    let lastFoods := snd (last rest (t, foods)) in
    tLast <= tEmpty < tLast + 1000 ->
    let w' :=
      advance (tLast + 1000)
        (FoodManagement.run (((t, foods) :: rest) ++ [(tEmpty, [])]) w) in
    exists es : list Effect,
      trace w' = (trace w ++ es)%list
      /\ timers w' = []
      /\ requests es = [SyncFoods (Some lastFoods)].
Proof.
  intros w t foods rest tEmpty Hc Htm Hne Hall Hsp tLast lastFoods Hte.
  cbv zeta. unfold FoodManagement.run. rewrite fold_left_app.
  fold (FoodManagement.run ((t, foods) :: rest) w).
  pose proof (foodManagement_burst_settles w t foods rest Hc Htm Hne Hall Hsp)
    as H2.
  fold tLast lastFoods in H2.
  set (w2 := FoodManagement.run ((t, foods) :: rest) w) in *.
  clearbody w2.
  assert (Hr : FoodManagement.renderAt w2 (tEmpty, []) = setNow tEmpty w2).
  { destruct H2 as (Ht & Hn & Hu & Hp & id & Htm' & Href).
    unfold FoodManagement.renderAt. cbn [fst snd].
    unfold FoodManagement.syncEffect.
    replace (0 <? Datatypes.length (@nil Food.t))%nat with false by reflexivity.
    rewrite andb_false_r.
    unfold advance. rewrite Htm'. cbn [filter timer_due].
    assert (Hd : (tLast + 1000 <=? tEmpty) = false) by lia. rewrite Hd.
    cbn. destruct w2; cbn in *. now subst. }
  cbn [fold_left]. rewrite Hr.
  apply (foods_window_elapses w).
  destruct H2 as (Ht & Hn & Hu & Hp & id & Htm' & Href).
  unfold SettledFoods. cbn. repeat split; eauto.
Qed.

(** The catalogue holds rice, the egg is added after 400 ms, and both
    are deleted 300 ms later: the request carries rice and egg. *)
Lemma emptied_catalogue_is_never_sent_witness :
  let w := startWorld (fun _ _ => FetchResolved None) in
  let rice := Food.mk "2" "Rice" (JS.of_Z 130) (JS.dec 27 10) (JS.of_Z 28)
                (JS.dec 3 10) in
  let egg := Food.mk "3" "Egg" (JS.of_Z 155) (JS.of_Z 13) (JS.dec 11 10)
               (JS.of_Z 11) in
  let w' :=
    advance 1400
      (FoodManagement.run
         (((0, [rice]) :: [(400, [rice; egg])]) ++ [(700, [])]) w) in
  exists es : list Effect,
    trace w' = (trace w ++ es)%list
    /\ timers w' = []
    /\ requests es = [SyncFoods (Some [rice; egg])].
Proof.
  intros w rice egg.
  apply (emptied_catalogue_is_never_sent w 0 [rice] [(400, [rice; egg])] 700).
  - reflexivity.
  - reflexivity.
  - discriminate.
  - repeat constructor. discriminate.
  - cbn. lia.
  - cbn. lia.
Defined.

(** ** The goals *)

Lemma Math_max_zero_not_negative (x : JS.number) :
  JS.lt (SettingsModal.Math_max (JS.of_Z 0) x) (JS.of_Z 0) = false.
Proof.
  destruct x as [s | s | | s m e]; try destruct s; reflexivity.
Qed.

Lemma edit_keeps_macros (g : MacroGoals.t) (e : SettingsModal.Edit) :
  macrosNotNegative g -> macrosNotNegative (SettingsModal.edit g e).
Proof.
  intros (Hp & Hc & Hf). destruct e; cbn; unfold macrosNotNegative; cbn;
    repeat split; auto using Math_max_zero_not_negative.
Qed.

Lemma edits_keep_macros (es : list SettingsModal.Edit) :
  forall g, macrosNotNegative g ->
            macrosNotNegative (fold_left SettingsModal.edit es g).
Proof.
  induction es as [| e es IH]; intros g Hg; [exact Hg |].
  cbn [fold_left]. apply IH, edit_keeps_macros, Hg.
Qed.

(** X10: the inputs of the goals modal clamp what is typed from below,
    so when the modal opens on goals without a negative macro, no
    sequence of edits and resets can make the protein, carbs or fat
    check of [validateForm] fail: the form is rejected exactly when the
    calories are at most zero (a [NaN] passes).  [handleSave] then makes
    no call at all, or the four [updateSettings] calls with the values
    it hands to [onSave]. *)
Theorem edited_form_fails_only_on_calories :
  forall (goals : MacroGoals.t) (edits : list SettingsModal.Edit),
    JS.lt (MacroGoals.protein goals) (JS.of_Z 0) = false ->
    JS.lt (MacroGoals.carbs goals) (JS.of_Z 0) = false ->
    JS.lt (MacroGoals.fat goals) (JS.of_Z 0) = false ->
    let formData := fold_left SettingsModal.edit edits goals in
    SettingsModal.newErrors formData
    = SettingsModal.mkErrors
        (JS.le (MacroGoals.calories formData) (JS.of_Z 0)) false false false
    /\ SettingsModal.handleSave formData
       = if JS.le (MacroGoals.calories formData) (JS.of_Z 0)
         then ([], None)
         else ([ ("Daily Calories", MacroGoals.calories formData);
                 ("Protein (g)", MacroGoals.protein formData);
                 ("Carbs (g)", MacroGoals.carbs formData);
                 ("Fat (g)", MacroGoals.fat formData) ],
               Some formData).
Proof.
  intros goals edits Hp Hc Hf formData.
  destruct (edits_keep_macros edits goals (conj Hp (conj Hc Hf)))
    as (Hp' & Hc' & Hf').
  fold formData in Hp', Hc', Hf'.
  assert (HE : SettingsModal.newErrors formData
               = SettingsModal.mkErrors
                   (JS.le (MacroGoals.calories formData) (JS.of_Z 0))
                   false false false).
  { unfold SettingsModal.newErrors. now rewrite Hp', Hc', Hf'. }
  split; [exact HE |].
  unfold SettingsModal.handleSave, SettingsModal.validateForm.
  rewrite HE. cbn [SettingsModal.e_calories SettingsModal.e_protein
                   SettingsModal.e_carbs SettingsModal.e_fat].
  rewrite !orb_false_r.
  destruct (JS.le (MacroGoals.calories formData) (JS.of_Z 0)); reflexivity.
Qed.

(** From the default goals: -20 is typed for protein, 0 for the
    calories, then 1800. *)
Lemma edited_form_fails_only_on_calories_witness :
  let edits := [ SettingsModal.Protein (JS.of_Z (-20));
                 SettingsModal.Calories (JS.of_Z 0);
                 SettingsModal.Calories (JS.of_Z 1800) ] in
  let formData := fold_left SettingsModal.edit edits App.DEFAULT_GOALS in
  SettingsModal.newErrors formData
  = SettingsModal.mkErrors
      (JS.le (MacroGoals.calories formData) (JS.of_Z 0)) false false false
  /\ SettingsModal.handleSave formData
     = if JS.le (MacroGoals.calories formData) (JS.of_Z 0)
       then ([], None)
       else ([ ("Daily Calories", MacroGoals.calories formData);
               ("Protein (g)", MacroGoals.protein formData);
               ("Carbs (g)", MacroGoals.carbs formData);
               ("Fat (g)", MacroGoals.fat formData) ],
             Some formData).
Proof.
  intros edits.
  apply (edited_form_fails_only_on_calories App.DEFAULT_GOALS edits);
    reflexivity.
Defined.

Lemma handleSave_valid (g h : MacroGoals.t) :
  snd (SettingsModal.handleSave g) = Some h -> h = g /\ validGoals g.
Proof.
  unfold SettingsModal.handleSave, SettingsModal.validateForm,
    SettingsModal.newErrors.
  cbn [SettingsModal.e_calories SettingsModal.e_protein
       SettingsModal.e_carbs SettingsModal.e_fat].
  destruct (JS.le (MacroGoals.calories g) (JS.of_Z 0)) eqn:H1;
    [discriminate |].
  destruct (JS.lt (MacroGoals.protein g) (JS.of_Z 0)) eqn:H2;
    [discriminate |].
  destruct (JS.lt (MacroGoals.carbs g) (JS.of_Z 0)) eqn:H3;
    [discriminate |].
  destruct (JS.lt (MacroGoals.fat g) (JS.of_Z 0)) eqn:H4;
    [discriminate |].
  cbn. intros [= <-]. repeat split; assumption.
Qed.

Lemma dialog_step_keeps_valid (s : GoalsDialog.State)
  (a : GoalsDialog.Action) :
  validGoals (App.goals (GoalsDialog.app s)) ->
  validGoals (App.goals (GoalsDialog.app (GoalsDialog.step s a))).
Proof.
  intros Hv. destruct a; cbn [GoalsDialog.step];
    destruct (GoalsDialog.settingsOpen s); try exact Hv.
  destruct (snd (SettingsModal.handleSave (GoalsDialog.formData s))) eqn:Hs;
    [| exact Hv].
  apply handleSave_valid in Hs. destruct Hs as (-> & Hs). exact Hs.
Qed.

Lemma dialog_steps_keep_valid (actions : list GoalsDialog.Action) :
  forall s, validGoals (App.goals (GoalsDialog.app s)) ->
    validGoals
      (App.goals (GoalsDialog.app (fold_left GoalsDialog.step actions s))).
Proof.
  induction actions as [| a actions IH]; intros s Hv; [exact Hv |].
  cbn [fold_left]. apply IH, dialog_step_keeps_valid, Hv.
Qed.

(** X11: in the spreadsheet App the goals change only through the
    modal's [onSave].  Whatever the user does with the modal after the
    App has started (open, type, reset, save, close, in any order), the
    calorie goal of the App is greater than zero or [NaN], never zero or
    negative, and no macro goal is negative. *)
Theorem dialog_never_saves_a_zero_calorie_goal :
  forall (now timezoneOffset : Z) (actions : list GoalsDialog.Action),
    let st := GoalsDialog.app
                (GoalsDialog.run actions (App.mount now timezoneOffset)) in
    let goal := MacroGoals.calories (App.goals st) in
    (JS.gt goal (JS.of_Z 0) = true \/ goal = JS.NaN)
    /\ JS.le goal (JS.of_Z 0) = false
    /\ JS.lt (MacroGoals.protein (App.goals st)) (JS.of_Z 0) = false
    /\ JS.lt (MacroGoals.carbs (App.goals st)) (JS.of_Z 0) = false
    /\ JS.lt (MacroGoals.fat (App.goals st)) (JS.of_Z 0) = false.
Proof.
  intros now tz actions st goal.
  assert (Hv : validGoals (App.goals st)).
  { apply dialog_steps_keep_valid. cbn. repeat split. }
  destruct Hv as (Hc & Hp & Hcb & Hf).
  split; [now apply not_le_zero_gt_or_nan |].
  repeat split; assumption.
Qed.

(** ** Ids *)

Lemma hexDigit_isHex (v : Z) : 0 <= v < 16 -> Id.isHex (Id.hexDigit v) = true.
Proof.
  intros H.
  assert (v = 0 \/ v = 1 \/ v = 2 \/ v = 3 \/ v = 4 \/ v = 5 \/ v = 6 \/ v = 7
          \/ v = 8 \/ v = 9 \/ v = 10 \/ v = 11 \/ v = 12 \/ v = 13
          \/ v = 14 \/ v = 15) as Hv by lia.
  repeat (destruct Hv as [-> | Hv]; [reflexivity |]). subst. reflexivity.
Qed.

Lemma variant_digit (r : Z) :
  0 <= r < 16 ->
  In (Id.replacement "y" r) ["8"; "9"; "a"; "b"]%char.
Proof.
  intros H.
  assert (r = 0 \/ r = 1 \/ r = 2 \/ r = 3 \/ r = 4 \/ r = 5 \/ r = 6 \/ r = 7
          \/ r = 8 \/ r = 9 \/ r = 10 \/ r = 11 \/ r = 12 \/ r = 13
          \/ r = 14 \/ r = 15) as Hr by lia.
  repeat (destruct Hr as [-> | Hr]; [vm_compute; tauto |]).
  subst. vm_compute. tauto.
Qed.

(** X12: when every draw [(Math.random() * 16) | 0] is from 0 to 15,
    [generateUUID] returns 36 characters laid out as a version-4 UUID:
    hyphens at the positions 8, 13, 18 and 23, the digit 4 at position
    14, one of 8, 9, a, b at position 19, and a lower-case hexadecimal
    digit everywhere else.  It consumes 31 draws: two sequences that
    agree on the first 31 give the same id. *)
Theorem generateUUID_has_version_4_layout :
  forall draw : nat -> Z,
    (forall k, 0 <= draw k < 16) ->
    String.length (Id.generateUUID draw) = 36%nat
    /\ (forall i c, String.get i (Id.generateUUID draw) = Some c ->
          if existsb (Nat.eqb i) [8; 13; 18; 23]%nat then c = "-"%char
          else if Nat.eqb i 14 then c = "4"%char
          else if Nat.eqb i 19 then In c ["8"; "9"; "a"; "b"]%char
          else Id.isHex c = true)
    /\ (forall draw' : nat -> Z,
          (forall k, (k < 31)%nat -> draw' k = draw k) ->
          Id.generateUUID draw' = Id.generateUUID draw).
Proof.
  intros draw Hd.
  assert (Hx : forall r, 0 <= r < 16 -> Id.isHex (Id.replacement "x" r) = true).
  { intros r Hr. apply (hexDigit_isHex r Hr). }
  split; [reflexivity |]. split.
  - intros i c.
    do 36 (destruct i as [| i];
           [cbn; intros [= <-];
            first [ reflexivity | apply Hx, Hd | apply variant_digit, Hd ] |]).
    cbn. discriminate.
  - intros draw' He. unfold Id.generateUUID, Id.template. cbn.
    rewrite !He by lia. reflexivity.
Qed.

(** Every draw is 7, but the draw for the variant digit, which is 13. *)
Lemma generateUUID_has_version_4_layout_witness :
  let draw := fun k : nat => if Nat.eqb k 15 then 13 else 7 in
  Id.generateUUID draw = "77777777-7777-4777-9777-777777777777"
  /\ String.length (Id.generateUUID draw) = 36%nat
  /\ (forall i c, String.get i (Id.generateUUID draw) = Some c ->
        if existsb (Nat.eqb i) [8; 13; 18; 23]%nat then c = "-"%char
        else if Nat.eqb i 14 then c = "4"%char
        else if Nat.eqb i 19 then In c ["8"; "9"; "a"; "b"]%char
        else Id.isHex c = true)
  /\ (forall draw' : nat -> Z,
        (forall k, (k < 31)%nat -> draw' k = draw k) ->
        Id.generateUUID draw' = Id.generateUUID draw).
Proof.
  intros draw. split; [reflexivity |].
  apply (generateUUID_has_version_4_layout draw).
  intros k. unfold draw. destruct (Nat.eqb k 15); lia.
Defined.

(** ** The selected date and the date of an entry *)

Lemma isoDate_same_day (a b : Z) :
  a / Date.msPerDay = b / Date.msPerDay -> Date.isoDate a = Date.isoDate b.
Proof. unfold Date.isoDate. now intros ->. Qed.

(** X13: when the clock shifted by the browser's offset and by five and
    a half hours falls on the same UTC day as the clock itself (always
    so where the offset is -330 minutes), the App starts on the UTC date
    of the moment, takes it for today, and an entry logged at that
    moment is the one entry DailyTracker is given. *)
Theorem entry_logged_at_mount_is_shown_when_days_agree :
  forall (now timezoneOffset : Z) (uuid foodId : string) (quantity : JS.number)
         (food : Food.t),
    (now + (timezoneOffset + 330) * 60000) / 86400000 = now / 86400000 ->
    find (fun f => String.eqb (Food.id f) foodId) App.DEMO_FOODS = Some food ->
    let st := App.handleAddLog uuid now foodId quantity
                (App.mount now timezoneOffset) in
    App.selectedDate st = Date.isoDate now
    /\ App.isToday now st = true
    /\ exists entry,
         App.todaysLogs st = [entry]
         /\ FoodLog.id entry = uuid
         /\ FoodLog.timestamp entry = now
         /\ DailyTracker.logs (App.trackerProps st) = [entry].
Proof.
  intros now tz uuid foodId q food Hday Hfind st.
  assert (Hsel : App.selectedDate st = Date.isoDate now).
  { unfold st, App.handleAddLog. cbn [App.foods App.mount]. rewrite Hfind.
    cbn [App.setLogs App.selectedDate App.mount].
    unfold Timezone.getCurrentDateIST, Timezone.IST_OFFSET.
    apply isoDate_same_day. unfold Date.msPerDay. rewrite <- Hday.
    f_equal. lia. }
  split; [exact Hsel |]. split.
  - unfold App.isToday. rewrite Hsel. apply String.eqb_refl.
  - unfold App.trackerProps, App.todaysLogs. cbn [DailyTracker.logs].
    rewrite Hsel. unfold st, App.handleAddLog.
    cbn [App.foods App.mount]. rewrite Hfind.
    cbn [App.setLogs App.logs App.mount filter FoodLog.timestamp].
    rewrite String.eqb_refl. eexists. repeat split.
Qed.

(** 2025-01-01T19:00:00.000Z in India (offset -330), the moment at
    which a browser on UTC starts on the next day. *)
Lemma entry_logged_at_mount_is_shown_when_days_agree_witness :
  let now := 1735758000000 in
  let rice := Food.mk "2" "Rice" (JS.of_Z 130) (JS.dec 27 10) (JS.of_Z 28)
                (JS.dec 3 10) in
  let st := App.handleAddLog "u" now "2" (JS.of_Z 1) (App.mount now (-330)) in
  App.selectedDate st = Date.isoDate now
  /\ App.isToday now st = true
  /\ exists entry,
       App.todaysLogs st = [entry]
       /\ FoodLog.id entry = "u"
       /\ FoodLog.timestamp entry = now
       /\ DailyTracker.logs (App.trackerProps st) = [entry].
Proof.
  intros now rice.
  apply (entry_logged_at_mount_is_shown_when_days_agree now (-330) "u" "2"
           (JS.of_Z 1) rice); reflexivity.
Defined.

(** ** The fingerprint of the sync effect *)

Lemma JS_eqb_refl (x : JS.number) : JS.eqb x x = true.
Proof.
  destruct x as [s | s | | s m e]; cbn;
    rewrite ?Bool.eqb_reflx, ?Pos.eqb_refl, ?Z.eqb_refl; reflexivity.
Qed.

Lemma Val_eqb_refl : forall v : Value, Val.eqb v v = true.
Proof.
  fix IH 1. intros [ | | b | n | s | items | props]; cbn.
  - reflexivity.
  - reflexivity.
  - apply Bool.eqb_reflx.
  - apply JS_eqb_refl.
  - apply String.eqb_refl.
  - induction items as [| x xs IHxs]; [reflexivity |].
    rewrite (IH x). exact IHxs.
  - induction props as [| [k x] ps IHps]; [reflexivity |].
    rewrite String.eqb_refl, (IH x). exact IHps.
Qed.

(** A render whose fingerprint is the stored one schedules nothing. *)
Lemma render_same_fingerprint (w : World) (t : Z) (p : DailyTracker.Props) :
  timers w = [] ->
  DailyTracker.sameFingerprint (JSON_stringify (DailyTracker.logs p))
    (lastSyncRef w) = true ->
  let w' := DailyTracker.renderAt w (t, p) in
  trace w' = trace w /\ timers w' = [] /\ lastSyncRef w' = lastSyncRef w
  /\ service w' = service w.
Proof.
  intros Htm Hsame. cbv zeta.
  unfold DailyTracker.renderAt, DailyTracker.render. cbn [fst snd].
  set (w1 := advance t w).
  assert (H1 : trace w1 = trace w /\ timers w1 = []
               /\ lastSyncRef w1 = lastSyncRef w /\ service w1 = service w).
  { subst w1. unfold advance. rewrite Htm. cbn. repeat split. }
  destruct H1 as (Ht1 & Htm1 & Hl1 & Hs1). clearbody w1.
  set (w2 := if hasCleanup w1 then DailyTracker.syncCleanup w1 else w1).
  assert (H2 : trace w2 = trace w /\ timers w2 = []
               /\ lastSyncRef w2 = lastSyncRef w /\ service w2 = service w).
  { subst w2. destruct (hasCleanup w1); [| tauto].
    unfold DailyTracker.syncCleanup.
    destruct (syncTimeoutRef w1); cbn; rewrite ?Htm1; cbn;
      repeat split; assumption. }
  destruct H2 as (Ht2 & Htm2 & Hl2 & Hs2). clearbody w2.
  unfold DailyTracker.syncEffect. rewrite Hl2, Hsame.
  destruct (negb _ || _); cbn; repeat split; assumption.
Qed.

(** X14: the fingerprint covers the entries only.  Once the window
    after a render of a non-empty list has elapsed, every later render
    with the same entries (under any goals and any date, at any time)
    schedules nothing and sends nothing: a change of the goals or of the
    date alone is never synced. *)
Theorem unchanged_entries_are_not_sent_again :
  forall (w : World) (t : Z) (p : DailyTracker.Props)
         (later : list (Z * DailyTracker.Props)),
    GoogleSheetsService.isConfigured (service w) = true ->
    timers w = [] ->
    DailyTracker.logs p <> [] ->
    Forall (fun tp => DailyTracker.logs (snd tp) = DailyTracker.logs p) later ->
    let w1 := advance (t + 500) (DailyTracker.renderAt w (t, p)) in
    let w2 := DailyTracker.run later w1 in
    DailyTracker.sameFingerprint (JSON_stringify (DailyTracker.logs p))
      (lastSyncRef w1) = true
    /\ trace w2 = trace w1 /\ timers w2 = []
    /\ lastSyncRef w2 = lastSyncRef w1.
Proof.
  intros w t p later Hc Htm Hne Hall. cbv zeta.
  pose proof (window_elapses w t p _ (first_render_settles w t p Htm)) as H.
  cbv zeta in H. destruct H as (Htm1 & H).
  set (w1 := advance (t + 500) (DailyTracker.renderAt w (t, p))) in *.
  assert (Hf : DailyTracker.sameFingerprint
                 (JSON_stringify (DailyTracker.logs p)) (lastSyncRef w1) = true).
  { unfold wantsSync in H. rewrite Hc in H.
    destruct (DailyTracker.logs p) as [| l ls] eqn:Hl; [contradiction |].
    cbn [List.length Nat.eqb negb andb] in H.
    destruct (DailyTracker.sameFingerprint (JSON_stringify (l :: ls))
                (lastSyncRef w)) eqn:Hs; cbn [negb] in H.
    - destruct H as (-> & _). exact Hs.
    - destruct H as (-> & _). unfold DailyTracker.sameFingerprint.
      apply Val_eqb_refl. }
  split; [exact Hf |]. clearbody w1. clear H Htm Hc w.
  revert w1 Htm1 Hf.
  induction later as [| [t' p'] later IH]; intros w1 Htm1 Hf.
  - cbn. repeat split; assumption.
  - inversion Hall as [| ? ? Hhd Htl]; subst. cbn [snd] in Hhd.
    change (DailyTracker.run ((t', p') :: later) w1)
      with (DailyTracker.run later (DailyTracker.renderAt w1 (t', p'))).
    assert (Hf' : DailyTracker.sameFingerprint
                    (JSON_stringify (DailyTracker.logs p')) (lastSyncRef w1)
                  = true) by (rewrite Hhd; exact Hf).
    destruct (render_same_fingerprint w1 t' p' Htm1 Hf')
      as (Ht & Htm' & Hl & _).
    cbv zeta in *.
    destruct (IH Htl _ Htm' ltac:(rewrite Hl; exact Hf)) as (Ht2 & Htm2 & Hl2).
    rewrite Ht2, Hl2, Ht, Hl. repeat split; assumption.
Qed.

(** One entry is synced; then the calorie goal is lowered to 1800, and
    later the date is changed, the entries staying the same. *)
Lemma unchanged_entries_are_not_sent_again_witness :
  let a := FoodLog.mk "a" "1" "Chicken Breast" (JS.of_Z 1) (JS.of_Z 165)
             (JS.of_Z 31) (JS.of_Z 0) (JS.dec 36 10) 1735758000000 in
  let lower := MacroGoals.mk (JS.of_Z 1800) (JS.of_Z 150) (JS.of_Z 250)
                 (JS.of_Z 80) in
  let p := DailyTracker.mkProps [a] App.DEFAULT_GOALS "2025-01-01" in
  let later := [ (2000, DailyTracker.mkProps [a] lower "2025-01-01");
                 (9000, DailyTracker.mkProps [a] lower "2025-01-02") ] in
  let w := startWorld (fun _ _ => FetchResolved None) in
  let w1 := advance (0 + 500) (DailyTracker.renderAt w (0, p)) in
  let w2 := DailyTracker.run later w1 in
  DailyTracker.sameFingerprint (JSON_stringify (DailyTracker.logs p))
    (lastSyncRef w1) = true
  /\ trace w2 = trace w1 /\ timers w2 = []
  /\ lastSyncRef w2 = lastSyncRef w1.
Proof.
  intros a lower p later w.
  apply (unchanged_entries_are_not_sent_again w 0 p later).
  - reflexivity.
  - reflexivity.
  - discriminate.
  - repeat constructor.
Defined.

(** What a render sends when its window elapses, from a dispatcher
    without pending timer. *)
Lemma render_then_window (w : World) (t : Z) (p : DailyTracker.Props) :
  GoogleSheetsService.isConfigured (service w) = true ->
  timers w = [] ->
  DailyTracker.logs p <> [] ->
  DailyTracker.sameFingerprint (JSON_stringify (DailyTracker.logs p))
    (lastSyncRef w) = false ->
  let w' := advance (t + 500) (DailyTracker.renderAt w (t, p)) in
  timers w' = []
  /\ lastSyncRef w' = Some (JSON_stringify (DailyTracker.logs p))
  /\ service w' = service w
  /\ exists es,
       trace w'
       = (trace w ++ SetLastSyncRef (JSON_stringify (DailyTracker.logs p))
            :: es)%list
       /\ requests es = syncRequests (DailyTracker.closureOf p).
Proof.
  intros Hc Htm Hne Hf. cbv zeta.
  pose proof (first_render_settles w t p Htm) as HS.
  pose proof (window_elapses w t p _ HS) as H. cbv zeta in H.
  assert (Hw : wantsSync w p = true).
  { unfold wantsSync. rewrite Hc, Hf.
    destruct (DailyTracker.logs p); [contradiction | reflexivity]. }
  rewrite Hw in H. destruct H as (Htm' & Hl & es & Ht & Hr).
  split; [exact Htm' |]. split; [exact Hl |]. split; [| eauto].
  destruct HS as ((Hs & _) & Hshape). rewrite Hw in Hshape.
  destruct Hshape as (id & Htms & _).
  unfold advance. rewrite Htms. cbn [filter timer_due].
  rewrite Z.leb_refl. cbn. exact Hs.
Qed.

(** X15: renders that are not in one window are not coalesced.  Two
    renders at least 500 ms apart, of two non-empty lists whose
    fingerprints differ (and the first differs from the stored one),
    are each sent, in order: the fingerprint and the three requests of
    the first list, then those of the second. *)
Theorem renders_spaced_apart_are_each_sent :
  forall (w : World) (t1 t2 : Z) (p1 p2 : DailyTracker.Props),
    GoogleSheetsService.isConfigured (service w) = true ->
    timers w = [] ->
    DailyTracker.logs p1 <> [] ->
    DailyTracker.logs p2 <> [] ->
    DailyTracker.sameFingerprint (JSON_stringify (DailyTracker.logs p1))
      (lastSyncRef w) = false ->
    Val.eqb (JSON_stringify (DailyTracker.logs p2))
      (JSON_stringify (DailyTracker.logs p1)) = false ->
    t1 + 500 <= t2 ->
    let w1 := advance (t1 + 500) (DailyTracker.renderAt w (t1, p1)) in
    let w2 := advance (t2 + 500) (DailyTracker.renderAt w1 (t2, p2)) in
    exists es1 es2,
      trace w2
      = (trace w
           ++ SetLastSyncRef (JSON_stringify (DailyTracker.logs p1)) :: es1
           ++ SetLastSyncRef (JSON_stringify (DailyTracker.logs p2)) :: es2)%list
      /\ requests es1 = syncRequests (DailyTracker.closureOf p1)
      /\ requests es2 = syncRequests (DailyTracker.closureOf p2)
      /\ lastSyncRef w2 = Some (JSON_stringify (DailyTracker.logs p2)).
Proof.
  intros w t1 t2 p1 p2 Hc Htm Hne1 Hne2 Hf1 Hf2 _. cbv zeta.
  destruct (render_then_window w t1 p1 Hc Htm Hne1 Hf1)
    as (Htm1 & Hl1 & Hs1 & es1 & Ht1 & Hr1).
  set (w1 := advance (t1 + 500) (DailyTracker.renderAt w (t1, p1))) in *.
  clearbody w1.
  assert (Hc1 : GoogleSheetsService.isConfigured (service w1) = true)
    by (rewrite Hs1; exact Hc).
  assert (Hf : DailyTracker.sameFingerprint
                 (JSON_stringify (DailyTracker.logs p2)) (lastSyncRef w1)
               = false) by (rewrite Hl1; exact Hf2).
  destruct (render_then_window w1 t2 p2 Hc1 Htm1 Hne2 Hf)
    as (_ & Hl2 & _ & es2 & Ht2 & Hr2).
  exists es1, es2. rewrite Ht2, Ht1, <- app_assoc. cbn [app].
  repeat split; assumption.
Qed.

(** An entry is logged, and a second one two seconds later. *)
Lemma renders_spaced_apart_are_each_sent_witness :
  let a := FoodLog.mk "a" "1" "Chicken Breast" (JS.of_Z 1) (JS.of_Z 165)
             (JS.of_Z 31) (JS.of_Z 0) (JS.dec 36 10) 1735758000000 in
  let b := FoodLog.mk "b" "2" "Rice" (JS.of_Z 2) (JS.of_Z 260)
             (JS.dec 54 10) (JS.of_Z 56) (JS.dec 6 10) 1735758002000 in
  let p1 := DailyTracker.mkProps [a] App.DEFAULT_GOALS "2025-01-01" in
  let p2 := DailyTracker.mkProps [b; a] App.DEFAULT_GOALS "2025-01-01" in
  let w := startWorld (fun _ _ => FetchResolved None) in
  let w1 := advance (0 + 500) (DailyTracker.renderAt w (0, p1)) in
  let w2 := advance (2000 + 500) (DailyTracker.renderAt w1 (2000, p2)) in
  exists es1 es2,
    trace w2
    = (trace w
         ++ SetLastSyncRef (JSON_stringify (DailyTracker.logs p1)) :: es1
         ++ SetLastSyncRef (JSON_stringify (DailyTracker.logs p2)) :: es2)%list
    /\ requests es1 = syncRequests (DailyTracker.closureOf p1)
    /\ requests es2 = syncRequests (DailyTracker.closureOf p2)
    /\ lastSyncRef w2 = Some (JSON_stringify (DailyTracker.logs p2)).
Proof.
  intros a b p1 p2 w.
  apply (renders_spaced_apart_are_each_sent w 0 2000 p1 p2).
  - reflexivity.
  - reflexivity.
  - discriminate.
  - discriminate.
  - reflexivity.
  - reflexivity.
  - lia.
Defined.

Lemma advance_idle (t : Z) (w : World) :
  timers w = [] -> advance t w = setNow t w.
Proof.
  intros Htm. unfold advance. rewrite Htm. cbn.
  destruct w; cbn in *. now subst.
Qed.

Lemma unmount_settled (w0 : World) (t : Z) (p : DailyTracker.Props)
  (w : World) :
  Settled w0 t p w ->
  let w1 := Tabs.unmountTracker w in
  timers w1 = [] /\ trace w1 = trace w0 /\ service w1 = service w0
  /\ lastSyncRef w1 = None.
Proof.
  intros HS. cbv zeta.
  destruct (cleanup_clears w0 t p w HS) as ((Hs & _ & _ & Ht) & _ & Htm).
  unfold Tabs.unmountTracker. cbn. repeat split; assumption.
Qed.

(** X16: leaving the tracker tab inside the window cancels the pending
    write: whatever time passes afterwards, nothing is sent.  The
    component's refs go with it, so when the tab is opened again a
    non-empty list is always sent once its window has elapsed, even the
    list whose fingerprint was stored before. *)
Theorem leaving_the_tab_drops_the_write_and_the_fingerprint :
  forall (w : World) (t0 tLeave t : Z) (p0 p : DailyTracker.Props),
    GoogleSheetsService.isConfigured (service w) = true ->
    timers w = [] ->
    t0 <= tLeave < t0 + 500 ->
    DailyTracker.logs p <> [] ->
    let w1 :=
      Tabs.unmountTracker
        (advance tLeave (DailyTracker.renderAt w (t0, p0))) in
    (forall t', trace (advance t' w1) = trace w)
    /\ exists es,
         trace (advance (t + 500) (DailyTracker.renderAt w1 (t, p)))
         = (trace w ++ SetLastSyncRef (JSON_stringify (DailyTracker.logs p))
              :: es)%list
         /\ requests es = syncRequests (DailyTracker.closureOf p).
Proof.
  intros w t0 tLeave t p0 p Hc Htm Hlt Hne. cbv zeta.
  pose proof (first_render_settles w t0 p0 Htm) as HS.
  destruct (advance_within_window w t0 p0 _ tLeave HS ltac:(lia)) as (HS' & _).
  destruct (unmount_settled w t0 p0 _ HS') as (Htm1 & Ht & Hs & Hl).
  set (w1 := Tabs.unmountTracker
               (advance tLeave (DailyTracker.renderAt w (t0, p0)))) in *.
  clearbody w1. split.
  - intros t'. rewrite (advance_idle t' w1 Htm1). exact Ht.
  - assert (Hc1 : GoogleSheetsService.isConfigured (service w1) = true)
      by (rewrite Hs; exact Hc).
    assert (Hf : DailyTracker.sameFingerprint
                   (JSON_stringify (DailyTracker.logs p)) (lastSyncRef w1)
                 = false) by (rewrite Hl; reflexivity).
    destruct (render_then_window w1 t p Hc1 Htm1 Hne Hf)
      as (_ & _ & _ & es & Ht' & Hr).
    exists es. rewrite Ht', Ht. split; [reflexivity | exact Hr].
Qed.

(** An entry is logged, the user leaves the tab 300 ms later and comes
    back after a minute. *)
Lemma leaving_the_tab_drops_the_write_and_the_fingerprint_witness :
  let a := FoodLog.mk "a" "1" "Chicken Breast" (JS.of_Z 1) (JS.of_Z 165)
             (JS.of_Z 31) (JS.of_Z 0) (JS.dec 36 10) 1735758000000 in
  let p := DailyTracker.mkProps [a] App.DEFAULT_GOALS "2025-01-01" in
  let w := startWorld (fun _ _ => FetchResolved None) in
  let w1 :=
    Tabs.unmountTracker (advance 300 (DailyTracker.renderAt w (0, p))) in
  (forall t', trace (advance t' w1) = trace w)
  /\ exists es,
       trace (advance (60000 + 500) (DailyTracker.renderAt w1 (60000, p)))
       = (trace w ++ SetLastSyncRef (JSON_stringify (DailyTracker.logs p))
            :: es)%list
       /\ requests es = syncRequests (DailyTracker.closureOf p).
Proof.
  intros a p w.
  apply (leaving_the_tab_drops_the_write_and_the_fingerprint w 0 300 60000
           p p).
  - reflexivity.
  - reflexivity.
  - lia.
  - discriminate.
Defined.

(** ** The catalogue and the entries *)

Lemma find_deleted (id : string) (foods : list Food.t) :
  find (fun f => String.eqb (Food.id f) id)
    (filter (fun f => negb (String.eqb (Food.id f) id)) foods) = None.
Proof.
  induction foods as [| f rest IH]; cbn; [reflexivity |].
  destruct (String.eqb (Food.id f) id) eqn:H; cbn; [exact IH |].
  now rewrite H.
Qed.

Lemma find_edited (id : string) (d : App.FoodData) (foods : list Food.t) :
  In id (map Food.id foods) ->
  find (fun f => String.eqb (Food.id f) id)
    (map (fun f => if String.eqb (Food.id f) id then App.withId id d else f)
       foods)
  = Some (App.withId id d).
Proof.
  induction foods as [| f rest IH]; cbn; [contradiction |].
  intros Hin. destruct (String.eqb (Food.id f) id) eqn:H; cbn.
  - now rewrite String.eqb_refl.
  - rewrite H. apply IH. destruct Hin as [Hin | Hin]; [| exact Hin].
    rewrite Hin, String.eqb_refl in H. discriminate.
Qed.

(** X17: deleting a food removes every food with that id from the
    catalogue and nothing else, and leaves the entries as they are (the
    entries logged from it stay); logging the deleted id afterwards
    changes nothing. *)
Theorem deleted_food_cannot_be_logged :
  forall (st : App.State) (id uuid : string) (now : Z) (quantity : JS.number),
    let st' := App.handleDeleteFood id st in
    App.handleAddLog uuid now id quantity st' = st'
    /\ App.logs st' = App.logs st
    /\ (forall f, In f (App.foods st')
                  <-> In f (App.foods st) /\ Food.id f <> id).
Proof.
  intros st id uuid now q st'. split; [| split].
  - unfold App.handleAddLog, st', App.handleDeleteFood.
    cbn [App.foods App.setFoods]. now rewrite find_deleted.
  - reflexivity.
  - intros f. unfold st', App.handleDeleteFood. cbn [App.foods App.setFoods].
    rewrite filter_In, negb_true_iff, String.eqb_neq. reflexivity.
Qed.

(** X18: editing a food of the catalogue keeps the ids of the
    catalogue, in order, and the entries logged so far; an entry logged
    from the edited id afterwards carries the new name and is scaled
    from the new values. *)
Theorem edited_food_is_logged_with_its_new_values :
  forall (st : App.State) (id uuid : string) (now : Z) (quantity : JS.number)
         (d : App.FoodData),
    In id (map Food.id (App.foods st)) ->
    let st' := App.handleEditFood id d st in
    map Food.id (App.foods st') = map Food.id (App.foods st)
    /\ App.logs st' = App.logs st
    /\ exists entry,
         App.logs (App.handleAddLog uuid now id quantity st')
         = entry :: App.logs st
         /\ FoodLog.foodName entry = App.fd_name d
         /\ FoodLog.calories entry
            = JS.Math_round (App.fd_calories d * quantity)%js
         /\ FoodLog.protein entry
            = (JS.Math_round (App.fd_protein d * quantity * JS.of_Z 10)
               / JS.of_Z 10)%js
         /\ FoodLog.carbs entry
            = (JS.Math_round (App.fd_carbs d * quantity * JS.of_Z 10)
               / JS.of_Z 10)%js
         /\ FoodLog.fat entry
            = (JS.Math_round (App.fd_fat d * quantity * JS.of_Z 10)
               / JS.of_Z 10)%js.
Proof.
  intros st id uuid now q d Hin st'. split; [| split].
  - unfold st', App.handleEditFood. cbn [App.foods App.setFoods].
    rewrite map_map. apply map_ext. intros f.
    destruct (String.eqb (Food.id f) id) eqn:H; [| reflexivity].
    apply String.eqb_eq in H. now rewrite H.
  - reflexivity.
  - unfold App.handleAddLog, st', App.handleEditFood.
    cbn [App.foods App.setFoods]. rewrite (find_edited id d _ Hin).
    eexists. cbn. repeat split.
Qed.

(** Rice is edited to brown rice of 112 kcal in the started App, and
    two portions are logged. *)
Lemma edited_food_is_logged_with_its_new_values_witness :
  let st := App.mount 1735758000000 0 in
  let d := App.mkFoodData "Brown rice" (JS.of_Z 112) (JS.dec 26 10)
             (JS.of_Z 24) (JS.dec 9 10) in
  let quantity := JS.of_Z 2 in
  let st' := App.handleEditFood "2" d st in
  map Food.id (App.foods st') = map Food.id (App.foods st)
  /\ App.logs st' = App.logs st
  /\ exists entry,
       App.logs (App.handleAddLog "u" 1735758000000 "2" quantity st')
       = entry :: App.logs st
       /\ FoodLog.foodName entry = App.fd_name d
       /\ FoodLog.calories entry
          = JS.Math_round (App.fd_calories d * quantity)%js
       /\ FoodLog.protein entry
          = (JS.Math_round (App.fd_protein d * quantity * JS.of_Z 10)
             / JS.of_Z 10)%js
       /\ FoodLog.carbs entry
          = (JS.Math_round (App.fd_carbs d * quantity * JS.of_Z 10)
             / JS.of_Z 10)%js
       /\ FoodLog.fat entry
          = (JS.Math_round (App.fd_fat d * quantity * JS.of_Z 10)
             / JS.of_Z 10)%js.
Proof.
  intros st d quantity.
  apply (edited_food_is_logged_with_its_new_values st "2" "u" 1735758000000
           quantity d).
  cbn. tauto.
Defined.

(** ** Loading a day from the sheet *)

(** X19: a load of the selected date changes nothing but the entries:
    catalogue, goals, selected date and service stay.  The state stays
    as a whole (service not configured, or an error caught), or the
    entries are replaced by rows every one of which bears the food id
    "imported": loaded entries are not linked to a food of the
    catalogue. *)
Theorem loaded_entries_are_detached_from_the_catalogue :
  forall (B : App.Builtins) (now : Z) (r : FetchResult) (st st' : App.State),
    completion (App.loadFromSheets B now r st) = Normal (Some st') ->
    App.foods st' = App.foods st
    /\ App.goals st' = App.goals st
    /\ App.selectedDate st' = App.selectedDate st
    /\ App.sheets st' = App.sheets st
    /\ (st' = st
        \/ Forall (fun l => FoodLog.foodId l = "imported") (App.logs st')).
Proof.
  intros B now r st st' H. unfold App.loadFromSheets in H.
  destruct (negb (GoogleSheetsService.isConfigured (App.sheets st))).
  { cbn in H. injection H as <-. repeat split. now left. }
  apply try_catch_normal in H. destruct H as [H | (e & _ & H)].
  2:{ cbn in H. injection H as <-. repeat split. now left. }
  apply bind_normal in H. destruct H as (data & _ & H).
  apply bind_normal in H. destruct H as (some & _ & H).
  destruct some.
  - apply bind_normal in H. destruct H as (_ & _ & H).
    apply bind_normal in H. destruct H as (foodLogs & _ & H).
    apply bind_normal in H. destruct H as (converted & Hconv & H).
    destruct converted as [ls |]; [| discriminate H].
    apply bind_normal in H. destruct H as (_ & _ & H).
    cbn in H. injection H as <-. repeat split. right. cbn.
    unfold App.mapFoodLogs in Hconv.
    destruct foodLogs; try discriminate Hconv.
    eapply convertLogs_imported; eauto.
  - apply bind_normal in H. destruct H as (_ & _ & H).
    cbn in H. injection H as <-. repeat split. right. constructor.
Qed.

(** The sheet answers with one row of rice for the selected date. *)
Lemma loaded_entries_are_detached_from_the_catalogue_witness :
  let B := App.mkBuiltins (fun _ => JS.NaN)
             (fun v => match v with
                       | VStr _ => Some 1735758000000
                       | _ => None
                       end) in
  let row := VObj [ ("id", VStr "a"); ("foodName", VStr "Rice");
                    ("quantity", VNum (JS.of_Z 2));
                    ("calories", VNum (JS.of_Z 260));
                    ("protein", VNum (JS.dec 54 10));
                    ("carbs", VNum (JS.of_Z 56));
                    ("fat", VNum (JS.dec 6 10));
                    ("timestamp", VStr "2025-01-01T19:00:00.000Z") ] in
  let r := FetchResolved (Some (VObj [ ("foodLogs", VArr [row]) ])) in
  let st := App.mount 1735758000000 (-330) in
  let st' :=
    App.setLogs
      [ FoodLog.mk "a" "imported" "Rice" (JS.of_Z 2) (JS.of_Z 260)
          (JS.dec 54 10) (JS.of_Z 56) (JS.dec 6 10) 1735758000000 ] st in
  completion (App.loadFromSheets B 1735758000000 r st) = Normal (Some st')
  /\ App.foods st' = App.foods st
  /\ App.goals st' = App.goals st
  /\ App.selectedDate st' = App.selectedDate st
  /\ App.sheets st' = App.sheets st
  /\ (st' = st
      \/ Forall (fun l => FoodLog.foodId l = "imported") (App.logs st')).
Proof.
  intros B row r st st'.
  assert (H : completion (App.loadFromSheets B 1735758000000 r st)
              = Normal (Some st')) by (vm_compute; reflexivity).
  split; [exact H |].
  exact (loaded_entries_are_detached_from_the_catalogue B 1735758000000 r
           st st' H).
Defined.

(** ** The most logged foods *)

Lemma countOf_tally (n : string) (log : FoodLog.t)
  (acc : list Statistics.TopFood) :
  countOf n (Statistics.tally log acc)
  = (countOf n acc + if String.eqb (FoodLog.foodName log) n then 1 else 0)%nat.
Proof.
  unfold countOf. induction acc as [| f rest IH]; cbn.
  - destruct (String.eqb (FoodLog.foodName log) n); reflexivity.
  - destruct (String.eqb (Statistics.name f) (FoodLog.foodName log)) eqn:Hfl.
    + apply String.eqb_eq in Hfl. cbn. rewrite <- Hfl.
      destruct (String.eqb (Statistics.name f) n); cbn; lia.
    + cbn. destruct (String.eqb (Statistics.name f) n) eqn:Hfn.
      * apply String.eqb_eq in Hfn. subst n.
        rewrite String.eqb_sym, Hfl. lia.
      * exact IH.
Qed.

Lemma countOf_fold (n : string) (logs : list FoodLog.t) :
  forall acc,
    countOf n (fold_left (fun acc log => Statistics.tally log acc) logs acc)
    = (countOf n acc + timesLogged n logs)%nat.
Proof.
  unfold timesLogged.
  induction logs as [| log logs IH]; intros acc; cbn [fold_left filter].
  - cbn. lia.
  - rewrite IH, countOf_tally.
    destruct (String.eqb (FoodLog.foodName log) n); cbn [List.length]; lia.
Qed.

Lemma countOf_grouped (n : string) (logs : list FoodLog.t) :
  countOf n (Statistics.grouped logs) = timesLogged n logs.
Proof. unfold Statistics.grouped. now rewrite countOf_fold. Qed.

Lemma tally_names (n : string) (log : FoodLog.t)
  (acc : list Statistics.TopFood) :
  In n (map Statistics.name (Statistics.tally log acc))
  <-> In n (map Statistics.name acc) \/ n = FoodLog.foodName log.
Proof.
  induction acc as [| f rest IH]; cbn.
  - intuition.
  - destruct (String.eqb (Statistics.name f) (FoodLog.foodName log)) eqn:Hfl;
      cbn.
    + apply String.eqb_eq in Hfl. intuition congruence.
    + rewrite IH. intuition.
Qed.

Lemma tally_NoDup (log : FoodLog.t) (acc : list Statistics.TopFood) :
  NoDup (map Statistics.name acc) ->
  NoDup (map Statistics.name (Statistics.tally log acc)).
Proof.
  induction acc as [| f rest IH]; cbn; intros Hnd.
  - constructor; [intros [] | constructor].
  - inversion Hnd as [| ? ? Hnin Hrest]; subst.
    destruct (String.eqb (Statistics.name f) (FoodLog.foodName log)) eqn:Hfl;
      cbn.
    + constructor; assumption.
    + constructor; [| apply IH, Hrest].
      rewrite tally_names. intros [H | H]; [contradiction |].
      rewrite H, String.eqb_refl in Hfl. discriminate.
Qed.

Lemma fold_tally_names (n : string) (logs : list FoodLog.t) :
  forall acc,
    In n (map Statistics.name
            (fold_left (fun acc log => Statistics.tally log acc) logs acc)) ->
    In n (map Statistics.name acc) \/ In n (map FoodLog.foodName logs).
Proof.
  induction logs as [| log logs IH]; intros acc H; [now left |].
  cbn [fold_left] in H. apply IH in H. destruct H as [H | H].
  - apply tally_names in H. destruct H as [H | H]; [now left |].
    right. left. now symmetry.
  - right. now right.
Qed.

Lemma grouped_names (n : string) (logs : list FoodLog.t) :
  In n (map Statistics.name (Statistics.grouped logs)) ->
  In n (map FoodLog.foodName logs).
Proof.
  intros H. destruct (fold_tally_names n logs [] H) as [[] | H']. exact H'.
Qed.

Lemma grouped_NoDup (logs : list FoodLog.t) :
  NoDup (map Statistics.name (Statistics.grouped logs)).
Proof.
  unfold Statistics.grouped.
  assert (H : forall acc, NoDup (map Statistics.name acc) ->
            NoDup (map Statistics.name
                     (fold_left (fun acc log => Statistics.tally log acc)
                        logs acc))).
  { induction logs as [| log logs IH]; intros acc Hnd; [exact Hnd |].
    cbn [fold_left]. apply IH, tally_NoDup, Hnd. }
  apply H. constructor.
Qed.

Lemma countOf_member (f : Statistics.TopFood) (acc : list Statistics.TopFood) :
  NoDup (map Statistics.name acc) -> In f acc ->
  countOf (Statistics.name f) acc = Statistics.count f.
Proof.
  unfold countOf. induction acc as [| g rest IH]; cbn; intros Hnd Hin;
    [contradiction |].
  inversion Hnd as [| ? ? Hnin Hrest]; subst.
  destruct Hin as [-> | Hin].
  - now rewrite String.eqb_refl.
  - destruct (String.eqb (Statistics.name g) (Statistics.name f)) eqn:Hgf.
    + apply String.eqb_eq in Hgf. exfalso. apply Hnin. rewrite Hgf.
      now apply in_map.
    + now apply IH.
Qed.

Lemma countOf_positive (n : string) (acc : list Statistics.TopFood) :
  (0 < countOf n acc)%nat ->
  exists f, In f acc /\ Statistics.name f = n.
Proof.
  unfold countOf.
  destruct (find (fun f => String.eqb (Statistics.name f) n) acc)
    as [f |] eqn:Hf; [| lia].
  intros _. apply find_some in Hf. destruct Hf as (Hin & Heq).
  apply String.eqb_eq in Heq. eauto.
Qed.

Lemma timesLogged_positive (log : FoodLog.t) (logs : list FoodLog.t) :
  In log logs -> (0 < timesLogged (FoodLog.foodName log) logs)%nat.
Proof.
  intros Hlog. unfold timesLogged.
  assert (Hfl : In log (filter (fun l0 => String.eqb (FoodLog.foodName l0)
                                        (FoodLog.foodName log)) logs)).
  { apply filter_In. split; [exact Hlog | apply String.eqb_refl]. }
  destruct (filter _ logs); [contradiction | cbn; lia].
Qed.

Lemma insertByCount_perm (f : Statistics.TopFood)
  (l : list Statistics.TopFood) :
  Permutation (Statistics.insertByCount f l) (f :: l).
Proof.
  induction l as [| g rest IH]; cbn; [reflexivity |].
  destruct (Statistics.count g <=? Statistics.count f)%nat; [reflexivity |].
  rewrite IH. apply perm_swap.
Qed.

Lemma sortByCount_perm (l : list Statistics.TopFood) :
  Permutation (Statistics.sortByCount l) l.
Proof.
  induction l as [| f rest IH]; cbn; [reflexivity |].
  rewrite insertByCount_perm. now constructor.
Qed.

Lemma insertByCount_sorted (f : Statistics.TopFood)
  (l : list Statistics.TopFood) :
  byCountDescending l -> byCountDescending (Statistics.insertByCount f l).
Proof.
  unfold byCountDescending.
  induction l as [| g rest IH]; cbn; intros Hs.
  - constructor; constructor.
  - inversion Hs as [| ? ? Hrest Hall]; subst.
    destruct (Statistics.count g <=? Statistics.count f)%nat eqn:Hle.
    + apply Nat.leb_le in Hle. constructor; [exact Hs |].
      constructor; [exact Hle |].
      rewrite Forall_forall in *. intros x Hx. specialize (Hall x Hx). lia.
    + apply Nat.leb_gt in Hle. constructor; [apply IH, Hrest |].
      rewrite Forall_forall in *. intros x Hx.
      apply (Permutation_in _ (insertByCount_perm f rest)) in Hx.
      destruct Hx as [<- | Hx]; [lia | now apply Hall].
Qed.

Lemma sortByCount_sorted (l : list Statistics.TopFood) :
  byCountDescending (Statistics.sortByCount l).
Proof.
  induction l as [| f rest IH]; cbn; [constructor |].
  now apply insertByCount_sorted.
Qed.

Lemma sorted_app_inv (l1 l2 : list Statistics.TopFood) :
  byCountDescending (l1 ++ l2) ->
  byCountDescending l1
  /\ forall a b, In a l1 -> In b l2 ->
                 (Statistics.count b <= Statistics.count a)%nat.
Proof.
  unfold byCountDescending.
  induction l1 as [| x l1 IH]; cbn; intros Hs.
  - split; [constructor | intros a b []].
  - inversion Hs as [| ? ? Hrest Hall]; subst.
    destruct (IH Hrest) as (Hs1 & Hcross). split.
    + constructor; [exact Hs1 |].
      rewrite Forall_forall in *. intros y Hy. apply Hall, in_or_app. now left.
    + intros a b [<- | Ha] Hb.
      * rewrite Forall_forall in Hall. apply Hall, in_or_app. now right.
      * now apply Hcross.
Qed.

(** X20: [topFoods] of the statistics holds at most five foods, each
    name once, in descending order of count; the count of a listed
    food is the number of entries that bear its name (at least one);
    and the list is a top list: a name that was logged and is not
    listed was logged no more often than any listed food, and then the
    list is full. *)
Theorem topFoods_are_the_most_logged :
  forall logs : list FoodLog.t,
    let top := Statistics.topFoods logs in
    (List.length top <= 5)%nat
    /\ NoDup (map Statistics.name top)
    /\ byCountDescending top
    /\ (forall f, In f top ->
          Statistics.count f = timesLogged (Statistics.name f) logs
          /\ (1 <= Statistics.count f)%nat)
    /\ (forall log, In log logs ->
          In (FoodLog.foodName log) (map Statistics.name top)
          \/ List.length top = 5%nat
             /\ forall f, In f top ->
                  (timesLogged (FoodLog.foodName log) logs
                   <= Statistics.count f)%nat).
Proof.
  intros logs top.
  set (sorted := Statistics.sortByCount (Statistics.grouped logs)).
  assert (Hperm : Permutation sorted (Statistics.grouped logs))
    by apply sortByCount_perm.
  assert (Hsplit : sorted = (top ++ skipn 5 sorted)%list)
    by (symmetry; apply firstn_skipn).
  assert (Hsorted : byCountDescending (top ++ skipn 5 sorted))
    by (rewrite <- Hsplit; apply sortByCount_sorted).
  destruct (sorted_app_inv _ _ Hsorted) as (Htop & Hcross).
  assert (Hnd : NoDup (map Statistics.name sorted)).
  { eapply Permutation_NoDup; [| apply grouped_NoDup].
    apply Permutation_map. symmetry. exact Hperm. }
  assert (Hcount : forall f, In f sorted ->
            Statistics.count f = timesLogged (Statistics.name f) logs).
  { intros f Hf. rewrite <- countOf_grouped. symmetry.
    apply countOf_member; [apply grouped_NoDup |].
    eapply Permutation_in; eauto. }
  assert (Hin : forall f, In f top -> In f sorted).
  { intros f Hf. rewrite Hsplit. apply in_or_app. now left. }
  split; [apply firstn_le_length |].
  split.
  { rewrite Hsplit, map_app in Hnd. eapply NoDup_app_remove_r, Hnd. }
  split; [exact Htop |].
  split.
  - intros f Hf. split; [apply Hcount, Hin, Hf |].
    assert (Hg : In f (Statistics.grouped logs))
      by (eapply Permutation_in; eauto).
    rewrite (Hcount f (Hin f Hf)).
    assert (Hn : In (Statistics.name f) (map FoodLog.foodName logs)).
    { apply grouped_names. now apply in_map. }
    apply in_map_iff in Hn. destruct Hn as (l & Hl & Hlin).
    rewrite <- Hl. now apply timesLogged_positive.
  - intros log Hlog.
    pose proof (timesLogged_positive log logs Hlog) as Hpos.
    rewrite <- countOf_grouped in Hpos.
    apply countOf_positive in Hpos. destruct Hpos as (g & Hg & Hname).
    assert (Hgs : In g sorted).
    { eapply Permutation_in; [symmetry; exact Hperm | exact Hg]. }
    pose proof Hgs as Hgs'. rewrite Hsplit in Hgs'.
    apply in_app_or in Hgs'. destruct Hgs' as [Hgt | Hgr].
    + left. rewrite <- Hname. now apply in_map.
    + right. split.
      * subst top. unfold Statistics.topFoods. fold sorted.
        apply firstn_length_le.
        destruct (Nat.le_gt_cases 5 (List.length sorted)) as [H | H];
          [exact H |].
        rewrite skipn_all2 in Hgr by lia. contradiction.
      * intros f Hf. rewrite <- Hname, <- (Hcount g Hgs).
        now apply Hcross.
Qed.
